(** * Tablet snapshot subsystem of the storage engine

    A shallow embedding of [be/src/olap/snapshot_manager.cpp] and
    [be/src/olap/tablet_schema.cpp], and the properties of the snapshot
    specification that can be settled on it.

    Conventions.  Integers whose C++ type is declared in a header that is not
    part of the sources are kept as [Z] (or [N] for counters); where the source
    itself fixes a width (the [int32_t] local of [_create_snapshot_files]) the
    narrowing is written out.  Strings are [string]; the file system is a
    finite map from path names to nodes.  Collaborators whose code lives in
    other translation units (rowsets, the tablet meta store, the storage
    engine) are fields of the record [Env], and what the clock gives is an
    argument of every call: the theorems hold for all of them. *)

From Stdlib Require Import ZArith NArith String Ascii List Lia Bool.
From Stdlib Require Import DecimalString DecimalN DecimalZ Decimal.
From stdpp Require Import gmap strings list fin_maps.

Local Open Scope string_scope.
Local Open Scope Z_scope.

(** ** Status codes *)

(** [OLAPStatus] is an enumeration of [olap_define.h].  The constructors are
    the codes that the two source files name; [OLAP_ERR_OTHER n] stands for
    any other code of the enumeration, which only collaborators return. *)
Inductive OLAPStatus : Type :=
  | OLAP_SUCCESS
  | OLAP_ERR_INPUT_PARAMETER_ERROR
  | OLAP_ERR_TABLE_NOT_FOUND
  | OLAP_ERR_CE_CMD_PARAMS_ERROR
  | OLAP_ERR_VERSION_NOT_EXIST
  | OLAP_ERR_MALLOC_ERROR
  | OLAP_ERR_OTHER (code : nat).

#[global] Instance OLAPStatus_eq_dec : EqDecision OLAPStatus.
Proof. solve_decision. Defined.

(** [res != OLAP_SUCCESS] *)
Definition is_success (res : OLAPStatus) : bool :=
  match res with OLAP_SUCCESS => true | _ => false end.

Lemma is_success_true res : is_success res = true <-> res = OLAP_SUCCESS.
Proof. destruct res; simpl; split; congruence. Qed.

Lemma is_success_false res : is_success res = false <-> res <> OLAP_SUCCESS.
Proof. destruct res; simpl; split; congruence. Qed.

(** ** tablet_schema.cpp *)

Module TabletColumn.
Section Defs.
(** [FieldType] is an enumeration of [olap_common.h] and
    [FieldInfo::get_field_type_by_string] is defined in [field_info.cpp];
    neither is part of these sources. *)
Context {FieldType : Type}.
Variable get_field_type_by_string : string -> FieldType.

(** The protobuf message [ColumnPB]; an optional field is an [option], its
    accessor returns the protobuf default when the field is unset. *)
Record ColumnPB : Type := {
  pb_unique_id : Z;
  pb_name : string;
  pb_type : string;
  pb_is_key : bool;
  pb_is_nullable : bool;
  pb_default_value : option string;
  pb_precision : option Z;
  pb_frac : option Z;
  pb_length : Z;
  pb_is_bf_column : bool;
  pb_referenced_column_id : option Z
}.

Record t : Type := {
  _unique_id : Z;
  _col_name : string;
  _type : FieldType;
  _is_key : bool;
  _is_nullable : bool;
  _has_default_value : bool;
  _default_value : string;
  _is_decimal : bool;
  _precision : Z;
  _frac : Z;
  _length : Z;
  _index_length : Z;
  _is_bf_column : bool;
  _has_referenced_column : bool;
  _referenced_column_id : Z
}.

Definition is_key (c : t) : bool := _is_key c.

Definition is_nullable (c : t) : bool := _is_nullable c.

(** [TabletColumn::init_from_pb], as assignments to the members of [self] in
    the order of the source.  A member that no branch assigns keeps the value
    it had. *)
Definition init_from_pb (self : t) (column : ColumnPB) : OLAPStatus * t :=
  let has_default := bool_decide (is_Some (pb_default_value column)) in
  let has_precision := bool_decide (is_Some (pb_precision column)) in
  let has_frac := bool_decide (is_Some (pb_frac column)) in
  let has_ref := bool_decide (is_Some (pb_referenced_column_id column)) in
  (* if (column.has_precision()) { _is_decimal = true; _precision = column.precision(); } *)
  let precision1 :=
    if has_precision then default 0 (pb_precision column) else _precision self in
  (* if (column.has_frac()) { _precision = column.frac(); } *)
  let precision2 :=
    if has_frac then default 0 (pb_frac column) else precision1 in
  (OLAP_SUCCESS,
   {| _unique_id := pb_unique_id column;
      _col_name := pb_name column;
      _type := get_field_type_by_string (pb_type column);
      _is_key := pb_is_key column;
      _is_nullable := pb_is_nullable column;
      _has_default_value := has_default;
      _default_value :=
        if has_default then default "" (pb_default_value column)
        else _default_value self;
      _is_decimal := if has_precision then true else _is_decimal self;
      _precision := precision2;
      _frac := _frac self;
      _length := pb_length column;
      _index_length := pb_length column;
      _is_bf_column := pb_is_bf_column column;
      _has_referenced_column := has_ref;
      _referenced_column_id :=
        if has_ref then default 0 (pb_referenced_column_id column)
        else _referenced_column_id self |}).

(** [FieldInfo::get_string_by_field_type] is defined in [field_info.cpp],
    which is not part of the sources. *)
Variable get_string_by_field_type : FieldType -> string.

(** The accessor [length()]. *)
Definition length (c : t) : Z := _length c.

(** The message as [to_schema_pb] writes it: the fields that [init_from_pb]
    reads, and the field [index_length], which [init_from_pb] never reads. *)
Record ColumnPB_out : Type := {
  out_fields : ColumnPB;
  out_index_length : option Z
}.

(** A message without any field set, as [add_column()] returns it: the
    accessors of such a message give the protobuf defaults. *)
Definition empty_ColumnPB : ColumnPB_out :=
  {| out_fields :=
       {| pb_unique_id := 0;
          pb_name := "";
          pb_type := "";
          pb_is_key := false;
          pb_is_nullable := false;
          pb_default_value := None;
          pb_precision := None;
          pb_frac := None;
          pb_length := 0;
          pb_is_bf_column := false;
          pb_referenced_column_id := None |};
     out_index_length := None |}.

(** [TabletColumn::to_schema_pb]: the setters that the function calls on
    [column]; a field that it does not set keeps what the message had. *)
Definition to_schema_pb (self : t) (column : ColumnPB_out) : OLAPStatus * ColumnPB_out :=
  (OLAP_SUCCESS,
   {| out_fields :=
        {| pb_unique_id := _unique_id self;
           pb_name := _col_name self;
           pb_type := get_string_by_field_type (_type self);
           pb_is_key := _is_key self;
           pb_is_nullable := _is_nullable self;
           pb_default_value := pb_default_value (out_fields column);
           pb_precision :=
             if _is_decimal self then Some (_precision self)
             else pb_precision (out_fields column);
           pb_frac :=
             if _is_decimal self then Some (_frac self)
             else pb_frac (out_fields column);
           pb_length := _length self;
           pb_is_bf_column := _is_bf_column self;
           pb_referenced_column_id :=
             if _has_referenced_column self then Some (_referenced_column_id self)
             else pb_referenced_column_id (out_fields column) |};
      out_index_length := Some (_index_length self) |}).

End Defs.
End TabletColumn.

Module TabletSchema.
Section Defs.
Context {FieldType : Type}.
(** The type of [double] values; [_bf_fpp] is only copied. *)
Context {fpp : Type}.
Variable get_field_type_by_string : string -> FieldType.
Variable BLOOM_FILTER_DEFAULT_FPP : fpp.
(** What [TabletColumn::TabletColumn() {}] leaves in the members of the
    loop-local [column] of [init_from_pb]: the constructor assigns none of
    them, so the object of each iteration starts from members that are
    indeterminate, and that need not be those of another iteration or of
    another call.  [fresh_column i] is the object that iteration [i] of a call
    starts from. *)
Variable fresh_column : nat -> @TabletColumn.t FieldType.

Record TabletSchemaPB : Type := {
  pb_column : list TabletColumn.ColumnPB;
  pb_num_short_key_columns : Z;
  pb_num_rows_per_row_block : Z;
  pb_keys_type : Z;
  pb_compress_kind : Z;
  pb_next_column_unique_id : Z;
  pb_bf_fpp : option fpp
}.

(** The counters are [size_t] members that count the elements of a vector
    held in memory; they are kept as [nat]. *)
Record t : Type := {
  _cols : list (@TabletColumn.t FieldType);
  _num_columns : nat;
  _num_key_columns : nat;
  _num_null_columns : nat;
  _num_short_key_columns : Z;
  _num_rows_per_row_block : Z;
  _keys_type : Z;
  _compress_kind : Z;
  _next_column_unique_id : Z;
  _bf_fpp : fpp
}.

(** [TabletSchema::TabletSchema()]: the four counters are zero and [_cols] is
    the empty vector; the members without an initializer are those of
    [rest]. *)
Definition ctor (rest : t) : t :=
  {| _cols := [];
     _num_columns := 0;
     _num_key_columns := 0;
     _num_null_columns := 0;
     _num_short_key_columns := 0;
     _num_rows_per_row_block := _num_rows_per_row_block rest;
     _keys_type := _keys_type rest;
     _compress_kind := _compress_kind rest;
     _next_column_unique_id := _next_column_unique_id rest;
     _bf_fpp := _bf_fpp rest |}.

(** One iteration of the loop over [schema.column()]; [column] is the
    loop-local object as its constructor left it. *)
Definition add_column (self : t) (column : @TabletColumn.t FieldType)
    (column_pb : TabletColumn.ColumnPB) : t :=
  let column :=
    (TabletColumn.init_from_pb get_field_type_by_string column column_pb).2 in
  {| _cols := _cols self ++ [column];
     _num_columns := S (_num_columns self);
     _num_key_columns :=
       if TabletColumn.is_key column then S (_num_key_columns self)
       else _num_key_columns self;
     _num_null_columns :=
       if TabletColumn.is_nullable column then S (_num_null_columns self)
       else _num_null_columns self;
     _num_short_key_columns := _num_short_key_columns self;
     _num_rows_per_row_block := _num_rows_per_row_block self;
     _keys_type := _keys_type self;
     _compress_kind := _compress_kind self;
     _next_column_unique_id := _next_column_unique_id self;
     _bf_fpp := _bf_fpp self |}.

(** The loop over [schema.column()], from iteration [i] on. *)
Fixpoint add_columns (i : nat) (columns : list TabletColumn.ColumnPB) (self : t) : t :=
  match columns with
  | [] => self
  | column_pb :: columns' =>
      add_columns (S i) columns' (add_column self (fresh_column i) column_pb)
  end.

Definition init_from_pb (self : t) (schema : TabletSchemaPB) : OLAPStatus * t :=
  let self1 := add_columns 0 (pb_column schema) self in
  (OLAP_SUCCESS,
   {| _cols := _cols self1;
      _num_columns := _num_columns self1;
      _num_key_columns := _num_key_columns self1;
      _num_null_columns := _num_null_columns self1;
      _num_short_key_columns := pb_num_short_key_columns schema;
      _num_rows_per_row_block := pb_num_rows_per_row_block schema;
      _keys_type := pb_keys_type schema;
      _compress_kind := pb_compress_kind schema;
      _next_column_unique_id := pb_next_column_unique_id schema;
      _bf_fpp :=
        match pb_bf_fpp schema with
        | Some f => f
        | None => BLOOM_FILTER_DEFAULT_FPP
        end |}).

(** The counters agree with the column vector. *)
Definition counters_consistent (s : t) : Prop :=
  _num_columns s = length (_cols s)
  /\ _num_key_columns s =
       length (filter (fun c => TabletColumn.is_key c = true) (_cols s))
  /\ _num_null_columns s =
       length (filter (fun c => TabletColumn.is_nullable c = true) (_cols s)).

Variable get_string_by_field_type : FieldType -> string.

(** The number of values of [size_t] minus one. *)
Variable SIZE_MAX : Z.

(** Conversion to [size_t], and arithmetic in it. *)
Definition to_size_t (z : Z) : Z := z mod (SIZE_MAX + 1).

(** The message as [to_schema_pb] writes it; see [TabletColumn.ColumnPB_out]
    for its columns. *)
Record TabletSchemaPB_out : Type := {
  out_column : list TabletColumn.ColumnPB_out;
  out_num_short_key_columns : Z;
  out_num_rows_per_row_block : Z;
  out_keys_type : Z;
  out_compress_kind : Z;
  out_next_column_unique_id : Z;
  out_bf_fpp : option fpp
}.

(** What [init_from_pb] reads of a message that [to_schema_pb] wrote. *)
Definition as_read (m : TabletSchemaPB_out) : TabletSchemaPB :=
  {| pb_column := map TabletColumn.out_fields (out_column m);
     pb_num_short_key_columns := out_num_short_key_columns m;
     pb_num_rows_per_row_block := out_num_rows_per_row_block m;
     pb_keys_type := out_keys_type m;
     pb_compress_kind := out_compress_kind m;
     pb_next_column_unique_id := out_next_column_unique_id m;
     pb_bf_fpp := out_bf_fpp m |}.

(** One iteration of the loop of [to_schema_pb]:
    [ColumnPB* column = tablet_meta_pb->add_column(); col.to_schema_pb(column);] *)
Definition write_column (columns : list TabletColumn.ColumnPB_out)
    (col : @TabletColumn.t FieldType) : list TabletColumn.ColumnPB_out :=
  columns ++
    [(TabletColumn.to_schema_pb get_string_by_field_type col
        TabletColumn.empty_ColumnPB).2].

(** [TabletSchema::to_schema_pb] *)
Definition to_schema_pb (self : t) (tablet_meta_pb : TabletSchemaPB_out)
    : OLAPStatus * TabletSchemaPB_out :=
  (OLAP_SUCCESS,
   {| out_column := fold_left write_column (_cols self) (out_column tablet_meta_pb);
      out_num_short_key_columns := _num_short_key_columns self;
      out_num_rows_per_row_block := _num_rows_per_row_block self;
      out_keys_type := _keys_type self;
      out_compress_kind := _compress_kind self;
      out_next_column_unique_id := _next_column_unique_id self;
      out_bf_fpp := Some (_bf_fpp self) |}).

(** [TabletSchema::row_size], with [size] a [size_t]. *)
Definition row_size (self : t) : Z :=
  let size :=
    fold_left (fun size column => to_size_t (size + TabletColumn.length column))
      (_cols self) 0 in
  to_size_t (size + to_size_t (Z.of_nat (_num_columns self) + 7) / 8).

End Defs.
End TabletSchema.

(** ** Strings, numbers and paths *)

(** [operator<<] on an unsigned counter and on a signed integer. *)
Definition dec_of_N (n : N) : string := NilZero.string_of_uint (N.to_uint n).

Definition dec_of_Z (z : Z) : string := NilZero.string_of_int (Z.to_int z).

(** Conversion of a wider integer to [int32_t]. *)
Definition to_int32 (z : Z) : Z := (z + 2 ^ 31) mod 2 ^ 32 - 2 ^ 31.


(** [s.compare(pos, len, str) == 0]: the characters of [s] from [pos], at most
    [len] of them, are those of [str].  [None] is the [std::out_of_range]
    thrown when [pos] is beyond the end of [s]. *)
Definition compare_eq0 (s : string) (pos len : nat) (str : string) : option bool :=
  if (String.length s <? pos)%nat then None
  else Some (String.eqb (substring pos len s) str).

(** [q] names an entry strictly inside the directory [d]. *)
Definition under (d q : string) : bool := String.prefix (d +:+ "/") q.

Definition at_or_under (d q : string) : bool := String.eqb d q || under d q.

(** The proper ancestors of a path: every non-empty prefix of [p] that is
    followed by a separator.  [acc] is the part of the path already read. *)
Fixpoint ancestors_from (acc p : string) : list string :=
  match p with
  | EmptyString => []
  | String c p' =>
      (if Ascii.eqb c "/" && negb (String.eqb acc "") then [acc] else [])
      ++ ancestors_from (acc +:+ String c EmptyString) p'
  end.

Definition ancestors (p : string) : list string := ancestors_from "" p.

(** ** Collaborating classes *)

(** [std::pair<int64_t, int64_t>]-like version range. *)
Definition Version : Type := Z * Z.

Module RowsetMeta.
Record t : Type := {
  rowset_id : Z;
  version : Version;
  version_hash : Z
}.
End RowsetMeta.

#[global] Instance RowsetMeta_eq_dec : EqDecision RowsetMeta.t.
Proof. solve_decision. Defined.

Module Rowset.
(** A rowset handle: its meta and the names of its data and index files. *)
Record t : Type := {
  rowset_meta : RowsetMeta.t;
  files : list string
}.

Definition start_version (rs : t) : Z := (RowsetMeta.version (rowset_meta rs)).1.

Definition end_version (rs : t) : Z := (RowsetMeta.version (rowset_meta rs)).2.

Definition version_hash (rs : t) : Z := RowsetMeta.version_hash (rowset_meta rs).
End Rowset.

Module TabletMeta.
(** The header.  [rest] stands for the schema, the statistics and everything
    else that the snapshot code only carries along. *)
Record t : Type := {
  tablet_id : Z;
  schema_hash : Z;
  rs_metas : list RowsetMeta.t;
  rest : Z
}.

(** Modelled from the spec: [TabletMeta::revise_rs_metas] is defined in
    [tablet_meta.cpp], which is not part of the sources.  The spec: the
    header copy is revised so that its rowset-meta list equals exactly the
    given rowset set, discarding any rowsets outside of it. *)
Definition revise_rs_metas (self : t) (metas : list RowsetMeta.t) : t :=
  {| tablet_id := tablet_id self;
     schema_hash := schema_hash self;
     rs_metas := metas;
     rest := rest self |}.
End TabletMeta.

#[global] Instance TabletMeta_eq_dec : EqDecision TabletMeta.t.
Proof. solve_decision. Defined.

Module Tablet.
Record t : Type := {
  tablet_id : Z;
  schema_hash : Z;
  storage_root_path_name : string;
  (** [DataDir*], identified by the path of the store *)
  data_dir : string;
  (** the committed rowsets held in memory *)
  rowsets : list Rowset.t
}.

(** Modelled from the spec: [Tablet::rowset_with_max_version] is defined in
    [tablet.cpp], which is not part of the sources.  The spec: the rowset
    that carries the current maximum committed version; the source tests the
    result against [NULL], which is the case of a tablet without any
    rowset. *)
Definition rowset_with_max_version (self : t) : option Rowset.t :=
  fold_left
    (fun best rs =>
       match best with
       | None => Some rs
       | Some b => if Rowset.end_version b <? Rowset.end_version rs then Some rs else Some b
       end)
    (rowsets self) None.

(** Modelled from the spec: [Tablet::get_rowset_by_version] is defined in
    [tablet.cpp], which is not part of the sources.  The spec: the rowset
    whose range is exactly the given one, [NULL] if there is none. *)
Definition get_rowset_by_version (self : t) (v : Version) : option Rowset.t :=
  List.find
    (fun rs => (Rowset.start_version rs =? v.1) && (Rowset.end_version rs =? v.2))
    (rowsets self).
End Tablet.

Module TSnapshotRequest.
(** The Thrift structure: every field has a value, the [__isset] flags say
    which optional ones were given. *)
Record t : Type := {
  tablet_id : Z;
  schema_hash : Z;
  version : Z;
  version_hash : Z;
  missing_version : list Z;
  allow_incremental_clone : bool;
  __isset_version : bool;
  __isset_missing_version : bool;
  __isset_allow_incremental_clone : bool
}.

Definition __set_allow_incremental_clone (self : t) (val : bool) : t :=
  {| tablet_id := tablet_id self;
     schema_hash := schema_hash self;
     version := version self;
     version_hash := version_hash self;
     missing_version := missing_version self;
     allow_incremental_clone := val;
     __isset_version := __isset_version self;
     __isset_missing_version := __isset_missing_version self;
     __isset_allow_incremental_clone := true |}.
End TSnapshotRequest.

(** ** The file system and the state of the process *)

Inductive node : Type :=
  | Dir
  | HeaderFile (meta : TabletMeta.t)
  | DataFile (rowset_id : Z).

(** Calls on collaborators that leave no other mark in the state. *)
Inductive Event : Type :=
  | EvRdLock (tablet_id : Z)
  | EvUnlock (tablet_id : Z)
  | EvLink (rowset_id : Z) (dir : string).

Record State : Type := {
  fs : gmap string node;
  (** the member [_snapshot_base_id] of the manager.  Its declaration is in
      [snapshot_manager.h], which is not part of the sources; following the
      spec it is a counter that only grows. *)
  _snapshot_base_id : N;
  trace : list Event
}.

Definition set_fs (f : gmap string node -> gmap string node) (st : State) : State :=
  {| fs := f (fs st); _snapshot_base_id := _snapshot_base_id st; trace := trace st |}.

Definition log_event (e : Event) (st : State) : State :=
  {| fs := fs st; _snapshot_base_id := _snapshot_base_id st; trace := trace st ++ [e] |}.

(** Modelled from the spec: [check_dir_existed] is defined in [utils.cpp],
    which is not part of the sources.  The spec: "if a stale directory
    already exists there"; a path exists when it names an entry of the file
    system. *)
Definition check_dir_existed (p : string) (st : State) : bool :=
  bool_decide (is_Some (fs st !! p)).

(** Modelled from the spec: [remove_all_dir] is defined in [utils.cpp], which
    is not part of the sources.  The spec: the directory is fully removed,
    recursively, as a whole tree.  A path is taken as its text: what is
    removed is the entry that the text names and the entries whose text
    continues it after a separator.  That is the tree that the code removes
    when the path has no [.] or [..] component and no link on the way; a
    property of a call on a path that the caller supplies carries that as a
    hypothesis. *)
Definition remove_all_dir (p : string) (st : State) : State :=
  set_fs (filter (fun kv => at_or_under p kv.1 = false)) st.

(** Creation of one directory; an existing entry stays as it is. *)
Definition mkdir (fs0 : gmap string node) (p : string) : gmap string node :=
  match fs0 !! p with
  | Some _ => fs0
  | None => <[p := Dir]> fs0
  end.

(** Modelled from the spec: [create_dirs] is defined in [utils.cpp], which is
    not part of the sources.  The spec: the schema-hash subdirectory is
    built, inside [<store_root>/snapshot/<timestamp>.<sequence>/<tablet_id>/];
    the directories on the way are created with it.  Both constructions
    ignore its status, and the model is that of the runs in which the
    directories were created. *)
Definition create_dirs (p : string) (st : State) : State :=
  set_fs (fun fs0 => fold_left mkdir (ancestors p ++ [p]) fs0) st.

(** Modelled from the spec: [remove_dir] is defined in [utils.cpp], which is
    not part of the sources.  The spec does not describe it; by its use on
    the header path after a failed save it removes the single entry. *)
Definition remove_dir (p : string) (st : State) : State :=
  set_fs (delete p) st.

(** The effect of one hard link made by a rowset for a snapshot.  A hard
    link never replaces an existing directory entry. *)
Definition link_file (rowset_id : Z) (dir : string)
    (fs0 : gmap string node) (name : string) : gmap string node :=
  let target := dir +:+ "/" +:+ name in
  match fs0 !! target with
  | Some _ => fs0
  | None => <[target := DataFile rowset_id]> fs0
  end.

(** ** The environment of the manager *)

(** Modelled from the spec: the constant [SNAPSHOT_PREFIX] is defined in
    [olap_define.h], which is not part of the sources.  The spec: the layout
    of a snapshot path is [<store_root>/snapshot/<timestamp>.<sequence>];
    [_calc_snapshot_id_path] writes the separator after the prefix itself. *)
Definition SNAPSHOT_PREFIX : string := "/snapshot".

(** What the code consults but does not define. *)
Record Env : Type := {
  (** [boost::filesystem::canonical], on a path that exists.  On a path that
      does not exist it throws, and no caller catches the exception: a run
      that ends so is not described, the properties are those of the calls
      that return. *)
  canonical : string -> string;
  (** [StorageEngine::instance()->get_stores()], each by its [path()] *)
  stores : list string;
  (** the tablets known to [TabletManager::instance()] *)
  tablets : list Tablet.t;
  (** [Tablet::capture_consistent_rowsets]: the status and the vector filled *)
  capture_consistent_rowsets : Tablet.t -> Version -> OLAPStatus * list Rowset.t;
  (** [TabletMetaManager::get_header]: the status and the header loaded from
      the meta store of the data dir *)
  get_header : string -> Z -> Z -> OLAPStatus * TabletMeta.t;
  (** whether [new(nothrow) TabletMeta] returns an object, in
      [_create_snapshot_files] and in [_append_single_delta] *)
  new_TabletMeta : bool;
  append_new_TabletMeta : bool;
  (** the status of [TabletMeta::save] *)
  save : TabletMeta.t -> string -> OLAPStatus;
  (** [Rowset::make_snapshot]: the status and the names in [success_files] *)
  rowset_make_snapshot : Rowset.t -> string -> OLAPStatus * list string;
  (** [Tablet::create_from_tablet_meta], [None] for [NULL] *)
  create_from_tablet_meta : TabletMeta.t -> string -> option Tablet.t;
  (** [Tablet::load] *)
  load : Tablet.t -> OLAPStatus
}.

(** [TabletManager::get_tablet] *)
Definition get_tablet (env : Env) (tablet_id schema_hash : Z) : option Tablet.t :=
  List.find
    (fun t => (Tablet.tablet_id t =? tablet_id) && (Tablet.schema_hash t =? schema_hash))
    (tablets env).

Definition obtain_header_rdlock (t : Tablet.t) (st : State) : State :=
  log_event (EvRdLock (Tablet.tablet_id t)) st.

Definition release_header_lock (t : Tablet.t) (st : State) : State :=
  log_event (EvUnlock (Tablet.tablet_id t)) st.

(** [TabletMeta::save(path)]: on success the file at [path] holds the
    header. *)
Definition TabletMeta_save (env : Env) (meta : TabletMeta.t) (path : string)
    (st : State) : OLAPStatus * State :=
  let res := save env meta path in
  if is_success res then (res, set_fs (<[path := HeaderFile meta]>) st)
  else (res, st).

(** [rs->make_snapshot(dir, &success_files)]: the files reported as linked
    are entries of [dir] afterwards. *)
Definition Rowset_make_snapshot (env : Env) (rs : Rowset.t) (dir : string)
    (st : State) : OLAPStatus * State :=
  let '(res, success_files) := rowset_make_snapshot env rs dir in
  let rid := RowsetMeta.rowset_id (Rowset.rowset_meta rs) in
  (res,
   log_event (EvLink rid dir)
     (set_fs (fun fs0 => fold_left (link_file rid dir) success_files fs0) st)).

(** ** Control flow of a [do { ... } while (0)] body *)

(** A step of the body either goes on with a value, or leaves the body by
    [break] with the status held in [res], or dereferences a null pointer
    ([Fault]): the source has one such place, in [_append_single_delta]. *)
Inductive flow (A : Type) : Type :=
  | Next (a : A)
  | Break (res : OLAPStatus)
  | Fault.

Arguments Next {A} a.
Arguments Break {A} res.
Arguments Fault {A}.

Definition Body (S A : Type) : Type := S -> flow A * S.

#[global] Instance Body_ret {S} : MRet (Body S) :=
  fun A a s => (Next a, s).

#[global] Instance Body_bind {S} : MBind (Body S) :=
  fun A B f m s =>
    match m s with
    | (Next a, s') => f a s'
    | (Break res, s') => (Break res, s')
    | (Fault, s') => (Fault, s')
    end.

(** [res = e; break;] *)
Definition break_with {S A} (e : OLAPStatus) : Body S A := fun s => (Break e, s).

Definition fault {S A} : Body S A := fun s => (Fault, s).

(** [if (res != OLAP_SUCCESS) { break; }] *)
Definition break_unless_success {S} (res : OLAPStatus) : Body S unit :=
  if is_success res then mret tt else break_with res.

Definition modify {S} (f : S -> S) : Body S unit := fun s => (Next tt, f s).

(** A call that returns a status and changes the state. *)
Definition call {S} (f : S -> OLAPStatus * S) : Body S OLAPStatus :=
  fun s => let '(res, s') := f s in (Next res, s').

(** ** snapshot_manager.cpp *)

Module SnapshotManager.

(** The result of a member function with an output parameter [string*]:
    the status, what the output parameter points to afterwards ([None] for a
    null pointer) and the state. *)
Definition Result : Type := OLAPStatus * option string * State.

(** [_calc_snapshot_id_path].  [now] is what [gen_timestamp_string] gives at
    this call: its status and the string it writes.  The path is built and
    the counter is incremented while [_snapshot_mutex] is held, so that the
    calls of a process take place one after the other on the counter. *)
Definition _calc_snapshot_id_path (now : OLAPStatus * string) (tablet : Tablet.t)
    (out_path : option string) (st : State) : Result :=
  match out_path with
  | None => (OLAP_ERR_INPUT_PARAMETER_ERROR, out_path, st)
  | Some _ =>
      let '(res, time_str) := now in
      if negb (is_success res) then (res, out_path, st)
      else
        let id := _snapshot_base_id st in
        let st' :=
          {| fs := fs st; _snapshot_base_id := N.succ id; trace := trace st |} in
        (res,
         Some (Tablet.storage_root_path_name tablet +:+ SNAPSHOT_PREFIX
               +:+ "/" +:+ time_str +:+ "." +:+ dec_of_N id),
         st')
  end.

Definition get_schema_hash_full_path (ref_tablet : Tablet.t) (location : string) : string :=
  location +:+ "/" +:+ dec_of_Z (Tablet.tablet_id ref_tablet)
           +:+ "/" +:+ dec_of_Z (Tablet.schema_hash ref_tablet).

Definition _get_header_full_path (ref_tablet : Tablet.t) (schema_hash_path : string) : string :=
  schema_hash_path +:+ "/" +:+ dec_of_Z (Tablet.tablet_id ref_tablet) +:+ ".hdr".

Definition update_header_file_info (consistent_rowsets : list Rowset.t)
    (tablet_meta : TabletMeta.t) : TabletMeta.t :=
  let rs_metas := map Rowset.rowset_meta consistent_rowsets in
  TabletMeta.revise_rs_metas tablet_meta rs_metas.

(** [RETURN_NOT_OK] leaves the function at the first rowset that fails. *)
Fixpoint _link_index_and_data_files (env : Env) (schema_hash_path : string)
    (ref_tablet : Tablet.t) (consistent_rowsets : list Rowset.t)
    (st : State) : OLAPStatus * State :=
  match consistent_rowsets with
  | [] => (OLAP_SUCCESS, st)
  | rs :: rowsets' =>
      let '(res, st') := Rowset_make_snapshot env rs schema_hash_path st in
      if is_success res
      then _link_index_and_data_files env schema_hash_path ref_tablet rowsets' st'
      else (res, st')
  end.

(** The request built in [_append_single_delta]; nothing consumes it, the
    call of the push handler is commented out. *)
Record TPushReq : Type := {
  push_tablet_id : Z;
  push_schema_hash : Z;
  push_version : Z;
  push_version_hash : Z
}.

(** [_append_single_delta].  It reads the meta store and changes nothing;
    [None] is the dereference of a null [lastest_version]. *)
Definition _append_single_delta (env : Env) (request : TSnapshotRequest.t)
    (store : string) : option OLAPStatus :=
  if negb (append_new_TabletMeta env) then Some OLAP_ERR_MALLOC_ERROR
  else
    let '(res, new_tablet_meta) :=
      get_header env store (TSnapshotRequest.tablet_id request)
        (TSnapshotRequest.schema_hash request) in
    if negb (is_success res) then Some res
    else
      match create_from_tablet_meta env new_tablet_meta store with
      | None => Some OLAP_ERR_INPUT_PARAMETER_ERROR
      | Some tablet =>
          let res := load env tablet in
          if negb (is_success res) then Some res
          else
            match Tablet.rowset_with_max_version tablet with
            | None => None
            | Some lastest_version =>
                if negb (Rowset.start_version lastest_version
                         =? TSnapshotRequest.version request)
                then
                  let empty_push :=
                    {| push_tablet_id := TSnapshotRequest.tablet_id request;
                       push_schema_hash := TSnapshotRequest.schema_hash request;
                       push_version := TSnapshotRequest.version request + 1;
                       push_version_hash := 0 |} in
                  (* res = handler.process(...) is commented out *)
                  let res := OLAP_SUCCESS in
                  if negb (is_success res) then Some res else Some res
                else Some res
            end
      end.

(** The loop that looks for the rowset ending at [request.version]; [res] is
    the status on entry, which the loop leaves alone unless it calls
    [_append_single_delta]. *)
Fixpoint append_single_delta_loop (env : Env) (request : TSnapshotRequest.t)
    (data_dir : string) (res : OLAPStatus)
    (consistent_rowsets : list Rowset.t) : option OLAPStatus :=
  match consistent_rowsets with
  | [] => Some res
  | rs :: rowsets' =>
      if Rowset.end_version rs =? TSnapshotRequest.version request then
        if negb (Rowset.start_version rs =? TSnapshotRequest.version request)
        then _append_single_delta env request data_dir
        else Some res
      else append_single_delta_loop env request data_dir res rowsets'
  end.

(** The locals of [_create_snapshot_files] that the body changes. *)
Record Frame : Type := {
  state : State;
  header_locked : bool
}.

Definition call_on_state (f : State -> OLAPStatus * State) (fr : Frame)
    : OLAPStatus * Frame :=
  let '(res, st') := f (state fr) in
  (res, {| state := st'; header_locked := header_locked fr |}).

(** The test on the explicit version of a request against the rowset with
    the maximum version; the result is the local [int32_t version]. *)
Definition snapshot_version (lastest_version : Rowset.t)
    (request : TSnapshotRequest.t) : OLAPStatus + Z :=
  let version := to_int32 (Rowset.end_version lastest_version) in
  if TSnapshotRequest.__isset_version request then
    if (Rowset.end_version lastest_version <? TSnapshotRequest.version request)
       || ((Rowset.start_version lastest_version =? Rowset.end_version lastest_version)
           && (Rowset.end_version lastest_version =? TSnapshotRequest.version request)
           && negb (Rowset.version_hash lastest_version
                    =? TSnapshotRequest.version_hash request))
    then inl OLAP_ERR_INPUT_PARAMETER_ERROR
    else inr (to_int32 (TSnapshotRequest.version request))
  else inr version.

(** The body of the [do { ... } while (0)] of [_create_snapshot_files]; its
    value is [res] at the end of the body. *)
Definition create_snapshot_body (env : Env) (ref_tablet : Tablet.t)
    (request : TSnapshotRequest.t) (schema_full_path header_path : string)
    : Body Frame OLAPStatus :=
  lastest_version ←
    match Tablet.rowset_with_max_version ref_tablet with
    | None => break_with OLAP_ERR_VERSION_NOT_EXIST
    | Some rs => mret rs
    end;
  version ←
    match snapshot_version lastest_version request with
    | inl e => break_with e
    | inr v => mret v
    end;
  let '(res, consistent_rowsets) :=
    capture_consistent_rowsets env ref_tablet (0, version) in
  break_unless_success res;;
  let data_dir := Tablet.data_dir ref_tablet in
  (if new_TabletMeta env then mret tt else break_with OLAP_ERR_MALLOC_ERROR);;
  let '(res, new_tablet_meta) :=
    get_header env data_dir (Tablet.tablet_id ref_tablet)
      (Tablet.schema_hash ref_tablet) in
  break_unless_success res;;
  modify (fun fr =>
    {| state := release_header_lock ref_tablet (state fr); header_locked := false |});;
  let new_tablet_meta := update_header_file_info consistent_rowsets new_tablet_meta in
  res ← call (call_on_state (TabletMeta_save env new_tablet_meta header_path));
  break_unless_success res;;
  res ← call (call_on_state
                (_link_index_and_data_files env schema_full_path ref_tablet
                   consistent_rowsets));
  break_unless_success res;;
  if TSnapshotRequest.__isset_version request then
    match append_single_delta_loop env request data_dir res consistent_rowsets with
    | None => fault
    | Some res' => mret res'
    end
  else mret res.

(** The end of both construction functions: on failure the snapshot id path
    is removed if it exists, on success the output parameter is set. *)
Definition rollback_or_return (res : OLAPStatus) (snapshot_path : option string)
    (snapshot_id_path snapshot_id : string) (st : State) : Result :=
  if negb (is_success res) then
    (res, snapshot_path,
     if check_dir_existed snapshot_id_path st
     then remove_all_dir snapshot_id_path st else st)
  else (res, Some snapshot_id, st).

(** Leaving the frame of [_create_snapshot_files]: the lock is released if
    it is still held. *)
Definition unlock_frame (ref_tablet : Tablet.t) (fr : Frame) : State :=
  if header_locked fr then release_header_lock ref_tablet (state fr)
  else state fr.

(** [_create_snapshot_files]; [None] when the body faults, that is, reads
    through a null pointer. *)
Definition _create_snapshot_files (env : Env) (now : OLAPStatus * string)
    (ref_tablet : Tablet.t) (request : TSnapshotRequest.t)
    (snapshot_path : option string) (st : State) : option Result :=
  match snapshot_path with
  | None => Some (OLAP_ERR_INPUT_PARAMETER_ERROR, snapshot_path, st)
  | Some _ =>
      match _calc_snapshot_id_path now ref_tablet (Some "") st with
      | (res, None, st1) => Some (res, snapshot_path, st1)
      | (res, Some snapshot_id_path, st1) =>
          if negb (is_success res) then Some (res, snapshot_path, st1)
          else
            let schema_full_path := get_schema_hash_full_path ref_tablet snapshot_id_path in
            let header_path := _get_header_full_path ref_tablet schema_full_path in
            let st2 :=
              if check_dir_existed schema_full_path st1
              then remove_all_dir schema_full_path st1 else st1 in
            let st3 := create_dirs schema_full_path st2 in
            let snapshot_id := canonical env snapshot_id_path in
            let fr :=
              {| state := obtain_header_rdlock ref_tablet st3; header_locked := true |} in
            match create_snapshot_body env ref_tablet request schema_full_path
                    header_path fr with
            | (Fault, _) => None
            | (Next res, fr') | (Break res, fr') =>
                Some (rollback_or_return res snapshot_path snapshot_id_path
                        snapshot_id (unlock_frame ref_tablet fr'))
            end
      end
  end.

(** The loop over [request.missing_version]; [res] is the status on entry. *)
Fixpoint link_missing_versions (env : Env) (ref_tablet : Tablet.t)
    (schema_full_path : string) (res : OLAPStatus) (missing_version : list Z)
    (st : State) : OLAPStatus * State :=
  match missing_version with
  | [] => (res, st)
  | missed_version :: versions' =>
      let version : Version := (missed_version, missed_version) in
      match Tablet.get_rowset_by_version ref_tablet version with
      | Some rowset =>
          let '(res', st') := Rowset_make_snapshot env rowset schema_full_path st in
          if negb (is_success res') then (res', st')
          else link_missing_versions env ref_tablet schema_full_path res' versions' st'
      | None => (OLAP_ERR_VERSION_NOT_EXIST, st)
      end
  end.

(** The body of the [do { ... } while (0)] of
    [_create_incremental_snapshot_files]. *)
Definition create_incremental_body (env : Env) (ref_tablet : Tablet.t)
    (request : TSnapshotRequest.t) (schema_full_path : string)
    : Body State OLAPStatus :=
  let '(res, tablet_meta) :=
    get_header env (Tablet.data_dir ref_tablet) (Tablet.tablet_id ref_tablet)
      (Tablet.schema_hash ref_tablet) in
  break_unless_success res;;
  let header_path := _get_header_full_path ref_tablet schema_full_path in
  res ← call (TabletMeta_save env tablet_meta header_path);
  (if negb (is_success res)
   then modify (remove_dir header_path);; break_with res
   else mret tt);;
  call (link_missing_versions env ref_tablet schema_full_path res
          (TSnapshotRequest.missing_version request)).

Definition _create_incremental_snapshot_files (env : Env) (now : OLAPStatus * string)
    (ref_tablet : Tablet.t) (request : TSnapshotRequest.t)
    (snapshot_path : option string) (st : State) : option Result :=
  match snapshot_path with
  | None => Some (OLAP_ERR_INPUT_PARAMETER_ERROR, snapshot_path, st)
  | Some _ =>
      match _calc_snapshot_id_path now ref_tablet (Some "") st with
      | (res, None, st1) => Some (res, snapshot_path, st1)
      | (res, Some snapshot_id_path, st1) =>
          if negb (is_success res) then Some (res, snapshot_path, st1)
          else
            let schema_full_path := get_schema_hash_full_path ref_tablet snapshot_id_path in
            let st2 :=
              if check_dir_existed schema_full_path st1
              then remove_all_dir schema_full_path st1 else st1 in
            let st3 := create_dirs schema_full_path st2 in
            let snapshot_id := canonical env snapshot_id_path in
            match create_incremental_body env ref_tablet request schema_full_path
                    (obtain_header_rdlock ref_tablet st3) with
            | (Fault, _) => None
            | (Next res, st4) | (Break res, st4) =>
                Some (rollback_or_return res snapshot_path snapshot_id_path
                        snapshot_id (release_header_lock ref_tablet st4))
            end
      end
  end.

(** [make_snapshot]; the request is returned as well, because the function
    sets [allow_incremental_clone] through a [const_cast]. *)
Definition make_snapshot (env : Env) (now : OLAPStatus * string)
    (request : TSnapshotRequest.t) (snapshot_path : option string) (st : State)
    : option (Result * TSnapshotRequest.t) :=
  match snapshot_path with
  | None => Some ((OLAP_ERR_INPUT_PARAMETER_ERROR, snapshot_path, st), request)
  | Some _ =>
      match get_tablet env (TSnapshotRequest.tablet_id request)
              (TSnapshotRequest.schema_hash request) with
      | None => Some ((OLAP_ERR_TABLE_NOT_FOUND, snapshot_path, st), request)
      | Some ref_tablet =>
          if TSnapshotRequest.__isset_missing_version request then
            r ← _create_incremental_snapshot_files env now ref_tablet request
                  snapshot_path st;
            Some (r, TSnapshotRequest.__set_allow_incremental_clone request true)
          else
            r ← _create_snapshot_files env now ref_tablet request snapshot_path st;
            Some (r, request)
      end
  end.

(** The loop of [release_snapshot] over the stores.  [None] is an exception
    that leaves the function: [std::out_of_range] from [compare]; for the
    exception of [canonical] on a store that does not exist, see
    [canonical]. *)
Fixpoint release_snapshot_loop (env : Env) (snapshot_path : string)
    (stores : list string) (st : State) : option (OLAPStatus * State) :=
  match stores with
  | [] => Some (OLAP_ERR_CE_CMD_PARAMS_ERROR, st)
  | store :: stores' =>
      let abs_path := canonical env store in
      match compare_eq0 snapshot_path 0 (String.length abs_path) abs_path with
      | None => None
      | Some false => release_snapshot_loop env snapshot_path stores' st
      | Some true =>
          match compare_eq0 snapshot_path (String.length abs_path)
                  (String.length SNAPSHOT_PREFIX) SNAPSHOT_PREFIX with
          | None => None
          | Some false => release_snapshot_loop env snapshot_path stores' st
          | Some true => Some (OLAP_SUCCESS, remove_all_dir snapshot_path st)
          end
      end
  end.

Definition release_snapshot (env : Env) (snapshot_path : string) (st : State)
    : option (OLAPStatus * State) :=
  release_snapshot_loop env snapshot_path (stores env) st.

End SnapshotManager.

(** * Vocabulary of the properties *)

(** No character of the string is [c]. *)
Fixpoint lacks (c : ascii) (s : string) : bool :=
  match s with
  | EmptyString => true
  | String d s' => negb (Ascii.eqb d c) && lacks c s'
  end.

(** The path that an allocation builds from the root of the tablet, the time
    string and the value of the counter. *)
Definition snapshot_id_path_of (root time_str : string) (id : N) : string :=
  root +:+ SNAPSHOT_PREFIX +:+ "/" +:+ time_str +:+ "." +:+ dec_of_N id.

(** A sequence of allocations of one process: each call comes with what the
    clock gives and with the tablet, the state is threaded through. *)
Fixpoint allocations (calls : list ((OLAPStatus * string) * Tablet.t)) (st : State)
    : list (OLAPStatus * option string) :=
  match calls with
  | [] => []
  | (now, tablet) :: calls' =>
      let '(res, out, st') :=
        SnapshotManager._calc_snapshot_id_path now tablet (Some "") st in
      (res, out) :: allocations calls' st'
  end.

(** An entry exists at [p]. *)
Definition present (p : string) (st : State) : Prop := is_Some (fs st !! p).

(** Neither [p] nor anything inside of it exists. *)
Definition absent_tree (p : string) (st : State) : Prop :=
  forall q, at_or_under p q = true -> fs st !! q = None.

(** The status of [_link_index_and_data_files]: that of the first rowset
    whose [make_snapshot] fails. *)
Fixpoint link_status (env : Env) (dir : string) (rowsets : list Rowset.t) : OLAPStatus :=
  match rowsets with
  | [] => OLAP_SUCCESS
  | rs :: rowsets' =>
      let res := (rowset_make_snapshot env rs dir).1 in
      if is_success res then link_status env dir rowsets' else res
  end.

(** The link events of the missing versions that have an exact rowset. *)
Definition link_events (ref_tablet : Tablet.t) (dir : string) (versions : list Z)
    : list Event :=
  map (fun rs => EvLink (RowsetMeta.rowset_id (Rowset.rowset_meta rs)) dir)
      (omap (fun v => Tablet.get_rowset_by_version ref_tablet (v, v)) versions).

(** Every version of the list has an exact rowset, and linking it works. *)
Definition all_link (env : Env) (ref_tablet : Tablet.t) (dir : string)
    (versions : list Z) : Prop :=
  Forall (fun v => exists rs,
            Tablet.get_rowset_by_version ref_tablet (v, v) = Some rs
            /\ (rowset_make_snapshot env rs dir).1 = OLAP_SUCCESS) versions.

(** The state in which the body starts: the counter has moved, a stale schema
    hash directory is gone, the directories exist and the read lock is
    taken. *)
Definition prepared (ref_tablet : Tablet.t) (snapshot_id_path : string) (st : State)
    : State :=
  let st1 :=
    {| fs := fs st; _snapshot_base_id := N.succ (_snapshot_base_id st);
       trace := trace st |} in
  let schema_full_path :=
    SnapshotManager.get_schema_hash_full_path ref_tablet snapshot_id_path in
  obtain_header_rdlock ref_tablet
    (create_dirs schema_full_path
       (if check_dir_existed schema_full_path st1
        then remove_all_dir schema_full_path st1 else st1)).

(** The steps of the body of [_create_snapshot_files], each under the
    condition that the steps before it succeeded. *)
Definition version_ok (ref_tablet : Tablet.t) (request : TSnapshotRequest.t)
    (lv : Rowset.t) (v : Z) : Prop :=
  Tablet.rowset_with_max_version ref_tablet = Some lv
  /\ SnapshotManager.snapshot_version lv request = inr v.

Definition cover_ok (env : Env) (ref_tablet : Tablet.t) (request : TSnapshotRequest.t)
    (v : Z) (cover : list Rowset.t) : Prop :=
  (exists lv, version_ok ref_tablet request lv v)
  /\ capture_consistent_rowsets env ref_tablet (0, v) = (OLAP_SUCCESS, cover).

Definition header_ok (env : Env) (ref_tablet : Tablet.t) (request : TSnapshotRequest.t)
    (v : Z) (cover : list Rowset.t) (m : TabletMeta.t) : Prop :=
  cover_ok env ref_tablet request v cover
  /\ new_TabletMeta env = true
  /\ get_header env (Tablet.data_dir ref_tablet) (Tablet.tablet_id ref_tablet)
       (Tablet.schema_hash ref_tablet) = (OLAP_SUCCESS, m).

Definition saved_ok (env : Env) (ref_tablet : Tablet.t) (request : TSnapshotRequest.t)
    (header_path : string) (v : Z) (cover : list Rowset.t) (m : TabletMeta.t) : Prop :=
  header_ok env ref_tablet request v cover m
  /\ save env (SnapshotManager.update_header_file_info cover m) header_path
     = OLAP_SUCCESS.

Definition linked_ok (env : Env) (ref_tablet : Tablet.t) (request : TSnapshotRequest.t)
    (dir header_path : string) (v : Z) (cover : list Rowset.t) (m : TabletMeta.t)
    : Prop :=
  saved_ok env ref_tablet request header_path v cover m
  /\ link_status env dir cover = OLAP_SUCCESS.

(** [step_failure ... e]: some step of the body is the first one to fail, and
    it fails with the status [e]. *)
Inductive step_failure (env : Env) (ref_tablet : Tablet.t)
    (request : TSnapshotRequest.t) (dir header_path : string) : OLAPStatus -> Prop :=
  | fail_no_version :
      Tablet.rowset_with_max_version ref_tablet = None ->
      step_failure env ref_tablet request dir header_path OLAP_ERR_VERSION_NOT_EXIST
  | fail_version lv e :
      Tablet.rowset_with_max_version ref_tablet = Some lv ->
      SnapshotManager.snapshot_version lv request = inl e ->
      step_failure env ref_tablet request dir header_path e
  | fail_capture lv v e cover :
      version_ok ref_tablet request lv v ->
      capture_consistent_rowsets env ref_tablet (0, v) = (e, cover) ->
      e <> OLAP_SUCCESS ->
      step_failure env ref_tablet request dir header_path e
  | fail_malloc v cover :
      cover_ok env ref_tablet request v cover ->
      new_TabletMeta env = false ->
      step_failure env ref_tablet request dir header_path OLAP_ERR_MALLOC_ERROR
  | fail_get_header v cover e m :
      cover_ok env ref_tablet request v cover ->
      new_TabletMeta env = true ->
      get_header env (Tablet.data_dir ref_tablet) (Tablet.tablet_id ref_tablet)
        (Tablet.schema_hash ref_tablet) = (e, m) ->
      e <> OLAP_SUCCESS ->
      step_failure env ref_tablet request dir header_path e
  | fail_save v cover m e :
      header_ok env ref_tablet request v cover m ->
      save env (SnapshotManager.update_header_file_info cover m) header_path = e ->
      e <> OLAP_SUCCESS ->
      step_failure env ref_tablet request dir header_path e
  | fail_link v cover m e :
      saved_ok env ref_tablet request header_path v cover m ->
      link_status env dir cover = e ->
      e <> OLAP_SUCCESS ->
      step_failure env ref_tablet request dir header_path e
  | fail_append v cover m e :
      linked_ok env ref_tablet request dir header_path v cover m ->
      TSnapshotRequest.__isset_version request = true ->
      SnapshotManager.append_single_delta_loop env request
        (Tablet.data_dir ref_tablet) OLAP_SUCCESS cover = Some e ->
      e <> OLAP_SUCCESS ->
      step_failure env ref_tablet request dir header_path e.

(** The state of the body after the header was saved. *)
Definition after_save (ref_tablet : Tablet.t) (header_path : string)
    (m : TabletMeta.t) (st0 : State) : State :=
  set_fs (<[header_path := HeaderFile m]>) (release_header_lock ref_tablet st0).


(** The test of [release_snapshot], as a test on the text of the path. *)
Definition accepted (env : Env) (snapshot_path : string) : bool :=
  existsb
    (fun store => String.prefix (canonical env store +:+ SNAPSHOT_PREFIX) snapshot_path)
    (stores env).

(** ** A store with one tablet *)

Module Scenario.

Definition mk_rowset (id first last hash : Z) (files : list string) : Rowset.t :=
  {| Rowset.rowset_meta :=
       {| RowsetMeta.rowset_id := id;
          RowsetMeta.version := (first, last);
          RowsetMeta.version_hash := hash |};
     Rowset.files := files |}.

(** A cumulative rowset [[0, 10]] and a singleton [[11, 11]]. *)
Definition rs_0_10 : Rowset.t := mk_rowset 1 0 10 5 ["1_0.dat"; "1_0.idx"].

Definition rs_11 : Rowset.t := mk_rowset 2 11 11 6 ["2_0.dat"; "2_0.idx"].

Definition tablet : Tablet.t :=
  {| Tablet.tablet_id := 7;
     Tablet.schema_hash := 42;
     Tablet.storage_root_path_name := "/data";
     Tablet.data_dir := "/data";
     Tablet.rowsets := [rs_0_10; rs_11] |}.

Definition empty_tablet : Tablet.t :=
  {| Tablet.tablet_id := 8;
     Tablet.schema_hash := 42;
     Tablet.storage_root_path_name := "/data";
     Tablet.data_dir := "/data";
     Tablet.rowsets := [] |}.



(** The header of [tablet] in the meta store. *)
Definition header : TabletMeta.t :=
  {| TabletMeta.tablet_id := 7;
     TabletMeta.schema_hash := 42;
     TabletMeta.rs_metas := [Rowset.rowset_meta rs_0_10; Rowset.rowset_meta rs_11];
     TabletMeta.rest := 2019 |}.

(** Every collaborator works; the cover of [[0, v]] is made of the rowsets
    that end at or before [v]. *)
Definition env : Env :=
  {| canonical := fun path => path;
     stores := ["/data"];
     tablets := [tablet; empty_tablet];
     capture_consistent_rowsets := fun t v =>
       (OLAP_SUCCESS, filter (fun rs => Rowset.end_version rs <= v.2) (Tablet.rowsets t));
     get_header := fun _ _ _ => (OLAP_SUCCESS, header);
     new_TabletMeta := true;
     append_new_TabletMeta := true;
     save := fun _ _ => OLAP_SUCCESS;
     rowset_make_snapshot := fun rs _ => (OLAP_SUCCESS, Rowset.files rs);
     create_from_tablet_meta := fun _ _ => Some tablet;
     load := fun _ => OLAP_SUCCESS |}.

(** As [env], but the hard link of the second file of [rs_11] fails. *)
Definition env_link_fails : Env :=
  {| canonical := canonical env;
     stores := stores env;
     tablets := tablets env;
     capture_consistent_rowsets := capture_consistent_rowsets env;
     get_header := get_header env;
     new_TabletMeta := true;
     append_new_TabletMeta := true;
     save := save env;
     rowset_make_snapshot := fun rs _ =>
       if RowsetMeta.rowset_id (Rowset.rowset_meta rs) =? 2
       then (OLAP_ERR_OTHER 1, ["2_0.dat"])
       else (OLAP_SUCCESS, Rowset.files rs);
     create_from_tablet_meta := create_from_tablet_meta env;
     load := load env |}.

Definition mk_request (tablet_id : Z) (version : option (Z * Z))
    (missing : option (list Z)) : TSnapshotRequest.t :=
  {| TSnapshotRequest.tablet_id := tablet_id;
     TSnapshotRequest.schema_hash := 42;
     TSnapshotRequest.version := default 0 (fst <$> version);
     TSnapshotRequest.version_hash := default 0 (snd <$> version);
     TSnapshotRequest.missing_version := default [] missing;
     TSnapshotRequest.allow_incremental_clone := false;
     TSnapshotRequest.__isset_version := bool_decide (is_Some version);
     TSnapshotRequest.__isset_missing_version := bool_decide (is_Some missing);
     TSnapshotRequest.__isset_allow_incremental_clone := false |}.

(** A store that also holds a directory next to the snapshot directory. *)
Definition st0 : State :=
  {| fs :=
       <["/data/snapshot_backup/x" := DataFile 0]>
         (<["/data/snapshot_backup" := Dir]>
            (<["/data/snapshot" := Dir]> (<["/data" := Dir]> ∅)));
     _snapshot_base_id := 0;
     trace := [] |}.


Definition now : OLAPStatus * string := (OLAP_SUCCESS, "20190101120000").

Definition snapshot_id_path : string := "/data/snapshot/20190101120000.0".

Definition header_path : string := "/data/snapshot/20190101120000.0/7/42/7.hdr".

End Scenario.

(** * Properties *)

(** ** The counters of a tablet schema *)

Section TabletSchemaFacts.
Context {FieldType fpp : Type}.
Variable get_field_type_by_string : string -> FieldType.
Variable BLOOM_FILTER_DEFAULT_FPP : fpp.
Variable fresh_column : nat -> @TabletColumn.t FieldType.

Local Abbreviation schema_t := (@TabletSchema.t FieldType fpp).
Local Abbreviation add_column :=
  (@TabletSchema.add_column FieldType fpp get_field_type_by_string).
Local Abbreviation add_columns :=
  (@TabletSchema.add_columns FieldType fpp get_field_type_by_string fresh_column).
Local Abbreviation init_from_pb :=
  (@TabletSchema.init_from_pb FieldType fpp get_field_type_by_string
     BLOOM_FILTER_DEFAULT_FPP fresh_column).

Lemma ctor_consistent (rest : schema_t) :
  TabletSchema.counters_consistent (TabletSchema.ctor rest).
Proof. repeat split. Qed.

Lemma add_column_consistent (self : schema_t) column column_pb :
  TabletSchema.counters_consistent self ->
  TabletSchema.counters_consistent (add_column self column column_pb).
Proof.
  intros (Hn & Hk & Hz).
  unfold TabletSchema.counters_consistent, TabletSchema.add_column. simpl.
  rewrite !filter_app, !length_app, !filter_cons, !filter_nil.
  unfold TabletColumn.is_key, TabletColumn.is_nullable. simpl.
  rewrite Hn, Hk, Hz. repeat split.
  - symmetry. apply Nat.add_1_r.
  - destruct (TabletColumn.pb_is_key column_pb); case_decide; simpl;
      try congruence; symmetry; [apply Nat.add_1_r | apply Nat.add_0_r].
  - destruct (TabletColumn.pb_is_nullable column_pb); case_decide; simpl;
      try congruence; symmetry; [apply Nat.add_1_r | apply Nat.add_0_r].
Qed.

Lemma add_columns_consistent i columns (self : schema_t) :
  TabletSchema.counters_consistent self ->
  TabletSchema.counters_consistent (add_columns i columns self).
Proof.
  revert i self. induction columns as [|c columns IH]; intros i self H; simpl.
  - exact H.
  - apply IH, add_column_consistent, H.
Qed.

(** The columns that the loop appends: the column of iteration [i + j] is
    read from the message at index [j] into the object of that iteration. *)
Lemma add_columns_cols i columns (self : schema_t) :
  TabletSchema._cols (add_columns i columns self) =
  (TabletSchema._cols self ++
     imap (fun j pb =>
             (TabletColumn.init_from_pb get_field_type_by_string
                (fresh_column (i + j)) pb).2)
          columns)%list.
Proof.
  revert i self. induction columns as [|c columns IH]; intros i self; simpl.
  - by rewrite app_nil_r.
  - rewrite IH. simpl. rewrite <- app_assoc. simpl. rewrite Nat.add_0_r.
    do 2 f_equal. apply imap_ext. intros j pb _. simpl.
    by rewrite Nat.add_succ_r.
Qed.

(** C10.  For every [TabletSchemaPB], [init_from_pb] on a freshly constructed
    [TabletSchema] returns [OLAP_SUCCESS] and leaves the derived counters
    consistent with the stored column list: [_cols] holds one column per
    column of the message, [_num_columns] is the number of columns in
    [_cols], [_num_key_columns] the number of those with [is_key] true and
    [_num_null_columns] the number of those with [is_nullable] true. *)
Theorem init_from_pb_counters (rest : schema_t) schema :
  let r := init_from_pb (TabletSchema.ctor rest) schema in
  r.1 = OLAP_SUCCESS
  /\ length (TabletSchema._cols r.2) = length (TabletSchema.pb_column schema)
  /\ TabletSchema._num_columns r.2 = length (TabletSchema._cols r.2)
  /\ TabletSchema._num_key_columns r.2 =
       length (filter (fun c => TabletColumn.is_key c = true) (TabletSchema._cols r.2))
  /\ TabletSchema._num_null_columns r.2 =
       length (filter (fun c => TabletColumn.is_nullable c = true)
                 (TabletSchema._cols r.2)).
Proof.
  simpl. split; [reflexivity|]. split.
  - rewrite add_columns_cols. simpl. by rewrite length_imap.
  - apply (add_columns_consistent 0 (TabletSchema.pb_column schema)
             (TabletSchema.ctor rest)), ctor_consistent.
Qed.

End TabletSchemaFacts.

(** ** Strings *)

Lemma append_cons c (s t : string) : String c s +:+ t = String c (s +:+ t).
Proof. reflexivity. Qed.

Lemma append_nil_r (s : string) : s +:+ "" = s.
Proof. induction s as [|c s IH]; [reflexivity|]. by rewrite append_cons, IH. Qed.

Lemma append_assoc (s t u : string) : (s +:+ t) +:+ u = s +:+ t +:+ u.
Proof. induction s as [|c s IH]; [reflexivity|]. by rewrite !append_cons, IH. Qed.

Lemma length_append (s t : string) :
  String.length (s +:+ t) = (String.length s + String.length t)%nat.
Proof. induction s as [|c s IH]; [reflexivity|]. rewrite append_cons. simpl. by rewrite IH. Qed.

Lemma prefix_append (s t : string) : String.prefix s (s +:+ t) = true.
Proof.
  induction s as [|c s IH]; [by destruct t|].
  rewrite append_cons. simpl. destruct (ascii_dec c c); [exact IH|congruence].
Qed.

Lemma prefix_split (s t : string) :
  String.prefix s t = true -> exists u, t = s +:+ u.
Proof.
  revert t. induction s as [|c s IH]; intros t.
  - intros _. by exists t.
  - destruct t as [|d t]; simpl; [congruence|].
    destruct (ascii_dec c d) as [->|]; [|congruence].
    intros H. destruct (IH _ H) as [u ->]. by exists u.
Qed.

Lemma substring_skip (s t : string) (n : nat) :
  substring (String.length s) n (s +:+ t) = substring 0 n t.
Proof. induction s as [|c s IH]; [reflexivity|]. rewrite append_cons. exact IH. Qed.

Lemma append_neq_self (s t : string) : t <> "" -> s +:+ t <> s.
Proof.
  intros Ht H. apply (f_equal String.length) in H. rewrite length_append in H.
  destruct t; [congruence|]. simpl in H. lia.
Qed.

Lemma lacks_append c s t : lacks c (s +:+ String c t) = false.
Proof.
  induction s as [|d s IH].
  - simpl. by rewrite Ascii.eqb_refl.
  - rewrite append_cons. simpl. rewrite IH. apply andb_false_r.
Qed.

(** A string is cut in one way only at its last occurrence of [c]. *)
Lemma append_last_inj c (a a' d d' : string) :
  lacks c d = true -> lacks c d' = true ->
  a +:+ String c d = a' +:+ String c d' -> a = a' /\ d = d'.
Proof.
  intros Hd Hd'. revert a'. induction a as [|x a IH]; intros [|x' a'] H.
  - simpl in H. by inversion H.
  - rewrite append_cons in H. simpl in H. inversion H; subst.
    by rewrite lacks_append in Hd.
  - rewrite append_cons in H. simpl in H. inversion H; subst.
    by rewrite lacks_append in Hd'.
  - rewrite !append_cons in H. inversion H; subst.
    destruct (IH a') as [-> ->]; done.
Qed.

Lemma lacks_dot_string_of_uint (d : uint) :
  lacks "." (NilEmpty.string_of_uint d) = true.
Proof. induction d; simpl; auto. Qed.

Lemma lacks_dot_dec_of_N (n : N) : lacks "." (dec_of_N n) = true.
Proof.
  unfold dec_of_N, NilZero.string_of_uint.
  destruct (N.to_uint n) eqn:E; try reflexivity;
    rewrite <- E; apply lacks_dot_string_of_uint.
Qed.

Lemma N_to_uint_nonnil (n : N) : N.to_uint n <> Nil.
Proof. destruct n; simpl; [discriminate|]. apply DecimalPos.Unsigned.to_uint_nonnil. Qed.

Lemma dec_of_N_inj (n m : N) : dec_of_N n = dec_of_N m -> n = m.
Proof.
  unfold dec_of_N. intros H.
  pose proof (NilZero.usu _ (N_to_uint_nonnil n)) as Hn.
  pose proof (NilZero.usu _ (N_to_uint_nonnil m)) as Hm.
  rewrite H in Hn. rewrite Hn in Hm.
  apply DecimalN.Unsigned.to_uint_inj. congruence.
Qed.

(** ** Allocation of snapshot paths *)

Lemma snapshot_id_path_of_inj root time_str id root' time_str' id' :
  snapshot_id_path_of root time_str id = snapshot_id_path_of root' time_str' id' ->
  id = id'.
Proof.
  unfold snapshot_id_path_of. intros H.
  apply dec_of_N_inj.
  refine (proj2 (append_last_inj "." (root +:+ SNAPSHOT_PREFIX +:+ "/" +:+ time_str)
                   (root' +:+ SNAPSHOT_PREFIX +:+ "/" +:+ time_str') _ _
                   (lacks_dot_dec_of_N id) (lacks_dot_dec_of_N id') _)).
  rewrite !append_assoc. exact H.
Qed.

Lemma snapshot_id_path_of_nonempty root time_str id :
  snapshot_id_path_of root time_str id <> "".
Proof.
  unfold snapshot_id_path_of. intros H.
  apply (f_equal String.length) in H. rewrite !length_append in H.
  simpl in H. lia.
Qed.

Lemma calc_snapshot_id_path_success now tablet old st res out st' :
  SnapshotManager._calc_snapshot_id_path now tablet (Some old) st = (res, out, st') ->
  res = OLAP_SUCCESS ->
  now.1 = OLAP_SUCCESS
  /\ out = Some (snapshot_id_path_of (Tablet.storage_root_path_name tablet) now.2
                   (_snapshot_base_id st))
  /\ _snapshot_base_id st' = N.succ (_snapshot_base_id st)
  /\ fs st' = fs st /\ trace st' = trace st.
Proof.
  unfold SnapshotManager._calc_snapshot_id_path. destruct now as [r t].
  destruct (is_success r) eqn:E; simpl; intros H Hres; inversion H; subst.
  - apply is_success_true in E. by subst.
  - by rewrite (proj2 (is_success_true _) eq_refl) in E.
Qed.

Lemma calc_snapshot_id_path_failure now tablet out_path st res out st' :
  SnapshotManager._calc_snapshot_id_path now tablet out_path st = (res, out, st') ->
  res <> OLAP_SUCCESS ->
  out = out_path /\ st' = st.
Proof.
  unfold SnapshotManager._calc_snapshot_id_path. destruct out_path as [old|].
  - destruct now as [r t]. destruct (is_success r) eqn:E; simpl;
      intros H Hres; inversion H; subst; [|done].
    apply is_success_true in E. congruence.
  - intros H _. by inversion H.
Qed.

Lemma allocations_embed calls st i p :
  allocations calls st !! i = Some (OLAP_SUCCESS, Some p) ->
  exists root time_str id,
    p = snapshot_id_path_of root time_str id /\ (_snapshot_base_id st <= id)%N.
Proof.
  revert st i. induction calls as [|[now tablet] calls IH]; intros st i;
    cbn [allocations].
  - by rewrite lookup_nil.
  - destruct (SnapshotManager._calc_snapshot_id_path now tablet (Some "") st)
      as [[res out] st'] eqn:E.
    destruct i as [|i]; simpl.
    + intros Hi; inversion Hi; subst.
      destruct (calc_snapshot_id_path_success _ _ _ _ _ _ _ E eq_refl)
        as (_ & Hout & _). inversion Hout; subst.
      eexists _, _, _. split; [reflexivity|lia].
    + intros H. destruct (IH _ _ H) as (root & t & id & -> & Hle).
      exists root, t, id. split; [reflexivity|].
      destruct (decide (res = OLAP_SUCCESS)) as [->|Hne].
      * destruct (calc_snapshot_id_path_success _ _ _ _ _ _ _ E eq_refl)
          as (_ & _ & Hc & _). lia.
      * destruct (calc_snapshot_id_path_failure _ _ _ _ _ _ _ E Hne) as [_ ->]. lia.
Qed.

(** C8.  Every allocation that succeeds embeds the value of the in-process
    counter and leaves the counter strictly greater; hence in every sequence
    of allocations of a process, whatever the clock gives (also the same
    time string twice) and whatever the tablets, two different calls that
    succeed return different snapshot paths. *)
Theorem snapshot_paths_distinct :
  (forall now tablet st res out st',
     SnapshotManager._calc_snapshot_id_path now tablet (Some "") st = (res, out, st') ->
     res = OLAP_SUCCESS ->
     out = Some (snapshot_id_path_of (Tablet.storage_root_path_name tablet) now.2
                   (_snapshot_base_id st))
     /\ (_snapshot_base_id st < _snapshot_base_id st')%N)
  /\ (forall calls st (i j : nat) p q,
        i <> j ->
        allocations calls st !! i = Some (OLAP_SUCCESS, Some p) ->
        allocations calls st !! j = Some (OLAP_SUCCESS, Some q) ->
        p <> q).
Proof.
  split.
  - intros now tablet st res out st' E Hres.
    destruct (calc_snapshot_id_path_success _ _ _ _ _ _ _ E Hres)
      as (_ & Hout & Hc & _). split; [exact Hout|lia].
  - assert (Hlt : forall calls st (i j : nat) p q,
               (i < j)%nat ->
               allocations calls st !! i = Some (OLAP_SUCCESS, Some p) ->
               allocations calls st !! j = Some (OLAP_SUCCESS, Some q) ->
               p <> q).
    { induction calls as [|[now tablet] calls IH]; intros st i j p q Hij;
        cbn [allocations].
      - by rewrite lookup_nil.
      - destruct (SnapshotManager._calc_snapshot_id_path now tablet (Some "") st)
          as [[res out] st'] eqn:E.
        destruct j as [|j]; [lia|]. destruct i as [|i]; simpl.
        + intros Hi Hq; inversion Hi; subst.
          destruct (calc_snapshot_id_path_success _ _ _ _ _ _ _ E eq_refl)
            as (_ & Hout & Hc & _). inversion Hout; subst.
          destruct (allocations_embed _ _ _ _ Hq) as (root & t & id & -> & Hle).
          intros Heq. apply snapshot_id_path_of_inj in Heq. lia.
        + apply IH. lia. }
    intros calls st i j p q Hij Hp Hq.
    destruct (Nat.lt_total i j) as [H|[H|H]]; [|done|].
    + exact (Hlt calls st i j p q H Hp Hq).
    + intros Heq. exact (Hlt calls st j i q p H Hq Hp (eq_sym Heq)).
Qed.

(** ** The file system *)

Lemma at_or_under_append p r : at_or_under p (p +:+ "/" +:+ r) = true.
Proof.
  unfold at_or_under, under. rewrite <- append_assoc, prefix_append.
  apply orb_true_r.
Qed.

Lemma absent_tree_inside p r st :
  absent_tree p st -> fs st !! (p +:+ "/" +:+ r) = None.
Proof. intros H. apply H, at_or_under_append. Qed.

Lemma check_dir_existed_true p st : check_dir_existed p st = true <-> present p st.
Proof. unfold check_dir_existed, present. apply bool_decide_eq_true. Qed.

Lemma remove_all_dir_absent p st : absent_tree p (remove_all_dir p st).
Proof.
  intros q Hq. simpl. apply map_lookup_filter_None_2. right.
  intros x _ H. simpl in H. congruence.
Qed.

Lemma mkdir_subseteq (fs0 : gmap string node) p : fs0 ⊆ mkdir fs0 p.
Proof.
  unfold mkdir. destruct (fs0 !! p) eqn:E; [done|]. by apply insert_subseteq.
Qed.

Lemma mkdir_lookup (fs0 : gmap string node) p : is_Some (mkdir fs0 p !! p).
Proof.
  unfold mkdir. destruct (fs0 !! p) eqn:E.
  - rewrite E. eauto.
  - rewrite lookup_insert_eq. eauto.
Qed.

Lemma fold_mkdir_subseteq l (fs0 : gmap string node) : fs0 ⊆ fold_left mkdir l fs0.
Proof.
  revert fs0. induction l as [|p l IH]; intros fs0; simpl; [done|].
  etrans; [apply (mkdir_subseteq fs0 p)|apply IH].
Qed.

Lemma subseteq_is_Some (m1 m2 : gmap string node) q :
  m1 ⊆ m2 -> is_Some (m1 !! q) -> is_Some (m2 !! q).
Proof.
  intros Hsub [x Hx]. exists x. by eapply lookup_weaken.
Qed.

Lemma fold_mkdir_lookup l (fs0 : gmap string node) q :
  In q l -> is_Some (fold_left mkdir l fs0 !! q).
Proof.
  revert fs0. induction l as [|p l IH]; intros fs0; simpl; [done|].
  intros [->|Hin]; [|by apply IH].
  eapply subseteq_is_Some; [apply fold_mkdir_subseteq|apply mkdir_lookup].
Qed.

Lemma ancestors_from_In acc d r :
  acc +:+ d <> "" -> In (acc +:+ d) (ancestors_from acc (d +:+ "/" +:+ r)).
Proof.
  revert acc. induction d as [|c d IH]; intros acc Hne.
  - rewrite append_nil_r in *. simpl.
    destruct (String.eqb acc "") eqn:E.
    + apply String.eqb_eq in E. congruence.
    + simpl. by left.
  - rewrite append_cons. cbn [ancestors_from]. apply in_or_app. right.
    replace (acc +:+ String c d) with ((acc +:+ String c "") +:+ d) in *
      by (by rewrite append_assoc).
    by apply IH.
Qed.

Lemma ancestors_In d r : d <> "" -> In d (ancestors (d +:+ "/" +:+ r)).
Proof. intros Hne. by apply (ancestors_from_In "" d r). Qed.

Lemma link_file_subseteq rid dir (fs0 : gmap string node) name :
  fs0 ⊆ link_file rid dir fs0 name.
Proof.
  unfold link_file. destruct (fs0 !! _) eqn:E; [done|]. by apply insert_subseteq.
Qed.

Lemma fold_link_file_subseteq rid dir names (fs0 : gmap string node) :
  fs0 ⊆ fold_left (link_file rid dir) names fs0.
Proof.
  revert fs0. induction names as [|n names IH]; intros fs0; simpl; [done|].
  etrans; [apply (link_file_subseteq rid dir fs0 n)|apply IH].
Qed.

Lemma Rowset_make_snapshot_spec env rs dir st res st' :
  Rowset_make_snapshot env rs dir st = (res, st') ->
  res = (rowset_make_snapshot env rs dir).1
  /\ fs st ⊆ fs st'
  /\ _snapshot_base_id st' = _snapshot_base_id st
  /\ trace st' =
       (trace st ++ [EvLink (RowsetMeta.rowset_id (Rowset.rowset_meta rs)) dir])%list.
Proof.
  unfold Rowset_make_snapshot. destruct (rowset_make_snapshot env rs dir) as [r files].
  intros H; inversion H; subst. simpl. repeat split.
  apply fold_link_file_subseteq.
Qed.

(** ** Linking *)

Lemma link_index_and_data_files_spec env dir ref_tablet rowsets st res st' :
  SnapshotManager._link_index_and_data_files env dir ref_tablet rowsets st = (res, st') ->
  res = link_status env dir rowsets
  /\ fs st ⊆ fs st'
  /\ _snapshot_base_id st' = _snapshot_base_id st.
Proof.
  revert st. induction rowsets as [|rs rowsets IH]; intros st; simpl.
  - intros H; by inversion H.
  - destruct (Rowset_make_snapshot env rs dir st) as [r st1] eqn:E.
    destruct (Rowset_make_snapshot_spec _ _ _ _ _ _ E) as (-> & Hsub & Hc & _).
    destruct (is_success _) eqn:Es.
    + intros H. destruct (IH _ H) as (-> & Hsub' & Hc'). repeat split.
      * by etrans.
      * congruence.
    + intros H; inversion H; subst. by repeat split.
Qed.

(** The rowsets that precede the first failure all link, and the status is
    that of the rowset that fails. *)
Lemma link_status_partway env dir pre rs post e :
  Forall (fun r => (rowset_make_snapshot env r dir).1 = OLAP_SUCCESS) pre ->
  (rowset_make_snapshot env rs dir).1 = e -> e <> OLAP_SUCCESS ->
  link_status env dir (pre ++ rs :: post) = e.
Proof.
  intros Hpre He Hne. induction Hpre as [|r pre Hr _ IH]; simpl.
  - rewrite He. by rewrite (proj2 (is_success_false e) Hne).
  - by rewrite Hr.
Qed.

Lemma link_missing_versions_subseteq env ref_tablet dir res0 versions st res st' :
  SnapshotManager.link_missing_versions env ref_tablet dir res0 versions st = (res, st') ->
  fs st ⊆ fs st' /\ _snapshot_base_id st' = _snapshot_base_id st.
Proof.
  revert st res0. induction versions as [|v versions IH]; intros st res0; simpl.
  - intros H; by inversion H.
  - destruct (Tablet.get_rowset_by_version ref_tablet (v, v)) as [rs|].
    + destruct (Rowset_make_snapshot env rs dir st) as [r st1] eqn:E.
      destruct (Rowset_make_snapshot_spec _ _ _ _ _ _ E) as (_ & Hsub & Hc & _).
      destruct (negb (is_success r)).
      * intros H; inversion H; subst. by split.
      * intros H. destruct (IH _ _ H) as [Hsub' Hc']. split; [by etrans|congruence].
    + intros H; by inversion H.
Qed.

Lemma link_missing_versions_stops env ref_tablet dir res0 pre v post st :
  all_link env ref_tablet dir pre ->
  Tablet.get_rowset_by_version ref_tablet (v, v) = None ->
  exists st',
    SnapshotManager.link_missing_versions env ref_tablet dir res0 (pre ++ v :: post) st
      = (OLAP_ERR_VERSION_NOT_EXIST, st')
    /\ trace st' = (trace st ++ link_events ref_tablet dir pre)%list.
Proof.
  intros Hpre Hv. revert st res0.
  induction Hpre as [|u pre (rs & Hu & Hok) _ IH]; intros st res0; simpl.
  - rewrite Hv. exists st. split; [done|]. unfold link_events. simpl.
    by rewrite app_nil_r.
  - rewrite Hu. destruct (Rowset_make_snapshot env rs dir st) as [r st1] eqn:E.
    destruct (Rowset_make_snapshot_spec _ _ _ _ _ _ E) as (-> & _ & _ & Ht).
    rewrite Hok. simpl. destruct (IH st1 OLAP_SUCCESS) as (st' & Heq & Htr).
    exists st'. split; [exact Heq|].
    rewrite Htr, Ht. unfold link_events. simpl. rewrite Hu. simpl.
    by rewrite <- app_assoc.
Qed.

(** ** Before and after the body of a construction function *)

Lemma present_weaken q st st' : fs st ⊆ fs st' -> present q st -> present q st'.
Proof. unfold present. apply subseteq_is_Some. Qed.

Lemma prepared_present ref_tablet p st :
  p <> "" -> present p (prepared ref_tablet p st).
Proof.
  intros Hne. unfold prepared, obtain_header_rdlock, log_event, present. simpl.
  apply fold_mkdir_lookup, in_or_app. left.
  unfold SnapshotManager.get_schema_hash_full_path. by apply ancestors_In.
Qed.

Lemma prepared_trace ref_tablet p st :
  trace (prepared ref_tablet p st) =
  (trace st ++ [EvRdLock (Tablet.tablet_id ref_tablet)])%list.
Proof.
  unfold prepared, obtain_header_rdlock, log_event. simpl.
  by destruct (check_dir_existed _ _).
Qed.

Lemma header_path_neq ref_tablet p :
  SnapshotManager._get_header_full_path ref_tablet
    (SnapshotManager.get_schema_hash_full_path ref_tablet p) <> p.
Proof.
  unfold SnapshotManager._get_header_full_path,
    SnapshotManager.get_schema_hash_full_path.
  rewrite !append_assoc. by apply append_neq_self.
Qed.

Lemma rollback_failure res snapshot_path p id st :
  res <> OLAP_SUCCESS -> present p st ->
  exists st',
    SnapshotManager.rollback_or_return res snapshot_path p id st
      = (res, snapshot_path, st')
    /\ absent_tree p st'
    /\ trace st' = trace st
    /\ _snapshot_base_id st' = _snapshot_base_id st.
Proof.
  intros Hne Hp. unfold SnapshotManager.rollback_or_return.
  rewrite (proj2 (is_success_false res) Hne). simpl.
  rewrite (proj2 (check_dir_existed_true p st) Hp).
  eexists. split; [reflexivity|]. split; [apply remove_all_dir_absent|done].
Qed.

Lemma rollback_success snapshot_path p id st :
  SnapshotManager.rollback_or_return OLAP_SUCCESS snapshot_path p id st
    = (OLAP_SUCCESS, Some id, st).
Proof. reflexivity. Qed.

(** ** Incremental snapshots *)

Section Incremental.
Variable env : Env.
Variable ref_tablet : Tablet.t.
Variable request : TSnapshotRequest.t.
Variable time_str : string.
Variable st : State.

Let p : string :=
  snapshot_id_path_of (Tablet.storage_root_path_name ref_tablet) time_str
    (_snapshot_base_id st).
Let dir : string := SnapshotManager.get_schema_hash_full_path ref_tablet p.
Let header_path : string := SnapshotManager._get_header_full_path ref_tablet dir.
Let loaded : OLAPStatus * TabletMeta.t :=
  get_header env (Tablet.data_dir ref_tablet) (Tablet.tablet_id ref_tablet)
    (Tablet.schema_hash ref_tablet).

Lemma incremental_unfold old :
  SnapshotManager._create_incremental_snapshot_files env (OLAP_SUCCESS, time_str)
    ref_tablet request (Some old) st =
  match SnapshotManager.create_incremental_body env ref_tablet request dir
          (prepared ref_tablet p st) with
  | (Fault, _) => None
  | (Next res, st4) | (Break res, st4) =>
      Some (SnapshotManager.rollback_or_return res (Some old) p (canonical env p)
              (release_header_lock ref_tablet st4))
  end.
Proof. reflexivity. Qed.

(** What the body does once the header is loaded and saved. *)
Lemma incremental_body_linking :
  loaded.1 = OLAP_SUCCESS ->
  save env loaded.2 header_path = OLAP_SUCCESS ->
  SnapshotManager.create_incremental_body env ref_tablet request dir
    (prepared ref_tablet p st) =
  let '(res, st') :=
    SnapshotManager.link_missing_versions env ref_tablet dir OLAP_SUCCESS
      (TSnapshotRequest.missing_version request)
      (set_fs (<[header_path := HeaderFile loaded.2]>) (prepared ref_tablet p st)) in
  (Next res, st').
Proof.
  intros Hload Hsave. unfold SnapshotManager.create_incremental_body.
  fold dir. fold header_path. fold loaded.
  destruct loaded as [r m]. simpl in Hload, Hsave. subst r.
  unfold mbind, Body_bind, break_unless_success, mret, Body_ret, call,
    TabletMeta_save. simpl. rewrite Hsave. simpl.
  by destruct (SnapshotManager.link_missing_versions _ _ _ _ _ _).
Qed.

(** C5.  The missing versions are processed in order, each looked up as the
    exact rowset [[v, v]].  When the header was loaded and saved and the
    versions [pre] all have such a rowset and link, the first version [v]
    without such a rowset makes the call return [OLAP_ERR_VERSION_NOT_EXIST]:
    the output parameter is left alone, the links attempted are exactly those
    of [pre], in order (no entry of [post] is attempted), and nothing is left
    at or under the snapshot id path, files linked for [pre] included. *)
Theorem incremental_missing_version_rolls_back old pre v post :
  TSnapshotRequest.missing_version request = (pre ++ v :: post)%list ->
  loaded.1 = OLAP_SUCCESS ->
  save env loaded.2 header_path = OLAP_SUCCESS ->
  all_link env ref_tablet dir pre ->
  Tablet.get_rowset_by_version ref_tablet (v, v) = None ->
  exists st',
    SnapshotManager._create_incremental_snapshot_files env (OLAP_SUCCESS, time_str)
      ref_tablet request (Some old) st
      = Some (OLAP_ERR_VERSION_NOT_EXIST, Some old, st')
    /\ absent_tree p st'
    /\ (forall name, fs st' !! (dir +:+ "/" +:+ name) = None)
    /\ trace st' =
         (trace st ++ [EvRdLock (Tablet.tablet_id ref_tablet)]
            ++ link_events ref_tablet dir pre
            ++ [EvUnlock (Tablet.tablet_id ref_tablet)])%list.
Proof.
  intros Hmv Hload Hsave Hpre Hv.
  rewrite incremental_unfold, (incremental_body_linking Hload Hsave), Hmv.
  destruct (link_missing_versions_stops env ref_tablet dir OLAP_SUCCESS pre v post
              (set_fs (<[header_path := HeaderFile loaded.2]>) (prepared ref_tablet p st))
              Hpre Hv) as (st1 & Heq & Htr).
  rewrite Heq.
  destruct (link_missing_versions_subseteq _ _ _ _ _ _ _ _ Heq) as [Hsub _].
  assert (Hp : present p (release_header_lock ref_tablet st1)).
  { unfold release_header_lock, log_event, present. simpl.
    eapply subseteq_is_Some; [exact Hsub|]. simpl.
    rewrite lookup_insert_is_Some. right. split.
    - apply header_path_neq.
    - apply prepared_present, snapshot_id_path_of_nonempty. }
  destruct (rollback_failure OLAP_ERR_VERSION_NOT_EXIST (Some old) p (canonical env p)
              _ ltac:(discriminate) Hp) as (st' & Hr & Habs & Htr' & _).
  exists st'. rewrite Hr. split; [done|]. split; [exact Habs|]. split.
  { intros name. unfold dir, SnapshotManager.get_schema_hash_full_path.
    rewrite !append_assoc. by apply absent_tree_inside. }
  rewrite Htr'. unfold release_header_lock, log_event. simpl.
  rewrite Htr. unfold set_fs. cbn [trace]. rewrite prepared_trace.
  by rewrite <- !app_assoc.
Qed.

(** C7.  When an incremental snapshot succeeds, the file at the header path of
    the snapshot directory holds the header that [get_header] loaded from
    the meta store of the tablet, as it was loaded: the rowset-meta list and
    every other part of it are the loaded ones. *)
Theorem incremental_header_unmodified old out st' :
  SnapshotManager._create_incremental_snapshot_files env (OLAP_SUCCESS, time_str)
    ref_tablet request (Some old) st = Some (OLAP_SUCCESS, out, st') ->
  loaded.1 = OLAP_SUCCESS
  /\ fs st' !! header_path = Some (HeaderFile loaded.2)
  /\ out = Some (canonical env p).
Proof.
  rewrite incremental_unfold. unfold SnapshotManager.create_incremental_body.
  fold dir. fold header_path. fold loaded. destruct loaded as [r m]. simpl.
  unfold mbind, Body_bind, break_unless_success, mret, Body_ret, call, break_with,
    modify, TabletMeta_save.
  destruct (is_success r) eqn:Er; simpl.
  2:{ unfold SnapshotManager.rollback_or_return. rewrite Er. simpl.
      intros H; inversion H; subst. discriminate. }
  apply is_success_true in Er. subst r. cbv zeta.
  destruct (save env m header_path) eqn:Es; simpl;
    try (intros H; inversion H; fail).
  destruct (SnapshotManager.link_missing_versions _ _ _ _ _ _) as [res st1] eqn:El.
  destruct (link_missing_versions_subseteq _ _ _ _ _ _ _ _ El) as [Hsub _].
  unfold SnapshotManager.rollback_or_return.
  destruct (is_success res) eqn:Eres; simpl.
  2:{ intros H; inversion H; subst. discriminate. }
  intros H; inversion H; subst. repeat split.
  unfold release_header_lock, log_event. simpl.
  eapply lookup_weaken; [|exact Hsub]. simpl. apply lookup_insert_eq.
Qed.

End Incremental.

(** ** Full snapshots *)

Lemma snapshot_version_inl lv request e :
  SnapshotManager.snapshot_version lv request = inl e ->
  e = OLAP_ERR_INPUT_PARAMETER_ERROR.
Proof.
  unfold SnapshotManager.snapshot_version.
  repeat case_match; intros Heq; by inversion Heq.
Qed.

Lemma step_failure_ne env ref_tablet request dir header_path e :
  step_failure env ref_tablet request dir header_path e -> e <> OLAP_SUCCESS.
Proof.
  destruct 1; try done.
  match goal with Hv : _ = inl _ |- _ => apply snapshot_version_inl in Hv; by subst end.
Qed.

Section Full.
Variable env : Env.
Variable ref_tablet : Tablet.t.
Variable request : TSnapshotRequest.t.
Variable dir header_path : string.

Local Abbreviation body :=
  (SnapshotManager.create_snapshot_body env ref_tablet request dir header_path).

Ltac body_unfold :=
  unfold SnapshotManager.create_snapshot_body, mbind, Body_bind, mret, Body_ret,
    break_with, break_unless_success, modify, call, fault,
    SnapshotManager.call_on_state, TabletMeta_save; cbv zeta.

(** The outcomes of the body, step by step: it leaves by [break] only with a
    failure; the state only gains entries, except that saving may replace the
    header file. *)
Lemma body_outcome fr o fr' :
  body fr = (o, fr') ->
  match o with
  | Break e =>
      step_failure env ref_tablet request dir header_path e
  | Next e =>
      exists v cover m,
        linked_ok env ref_tablet request dir header_path v cover m
        /\ SnapshotManager.header_locked fr' = false
        /\ SnapshotManager._link_index_and_data_files env dir ref_tablet cover
             (after_save ref_tablet header_path
                (SnapshotManager.update_header_file_info cover m) (SnapshotManager.state fr))
           = (OLAP_SUCCESS, SnapshotManager.state fr')
        /\ (if TSnapshotRequest.__isset_version request
            then SnapshotManager.append_single_delta_loop env request
                   (Tablet.data_dir ref_tablet) OLAP_SUCCESS cover = Some e
            else e = OLAP_SUCCESS)
  | Fault =>
      exists v cover m,
        linked_ok env ref_tablet request dir header_path v cover m
        /\ TSnapshotRequest.__isset_version request = true
        /\ SnapshotManager.append_single_delta_loop env request
             (Tablet.data_dir ref_tablet) OLAP_SUCCESS cover = None
  end.
Proof.
  body_unfold.
  destruct (Tablet.rowset_with_max_version ref_tablet) as [lv|] eqn:Hlv.
  2:{ intros H; inversion H; subst. by constructor. }
  destruct (SnapshotManager.snapshot_version lv request) as [e|v] eqn:Hv.
  { intros H; inversion H; subst. by econstructor 2. }
  destruct (capture_consistent_rowsets env ref_tablet (0, v)) as [rc cover] eqn:Hc.
  destruct (is_success rc) eqn:Erc.
  2:{ intros H; inversion H; subst. apply is_success_false in Erc.
      by eapply fail_capture. }
  apply is_success_true in Erc. subst rc.
  assert (Hcover : cover_ok env ref_tablet request v cover) by (split; [by exists lv|done]).
  destruct (new_TabletMeta env) eqn:Hnew.
  2:{ intros H; inversion H; subst. by eapply fail_malloc. }
  destruct (get_header env _ _ _) as [rh m] eqn:Hh.
  destruct (is_success rh) eqn:Erh.
  2:{ intros H; inversion H; subst. apply is_success_false in Erh.
      by eapply fail_get_header. }
  apply is_success_true in Erh. subst rh.
  assert (Hheader : header_ok env ref_tablet request v cover m) by done.
  simpl.
  destruct (save env (SnapshotManager.update_header_file_info cover m) header_path)
    eqn:Hs; simpl;
    try (intros H; inversion H; subst; eapply fail_save; [exact Hheader|exact Hs|done]).
  assert (Hsaved : saved_ok env ref_tablet request header_path v cover m) by done.
  destruct (SnapshotManager._link_index_and_data_files _ _ _ _ _) as [rl st1] eqn:Hl.
  destruct (link_index_and_data_files_spec _ _ _ _ _ _ _ Hl) as (Hrl & _).
  simpl. destruct (is_success rl) eqn:Erl.
  2:{ intros H; inversion H; subst. apply is_success_false in Erl.
      by eapply fail_link. }
  apply is_success_true in Erl. subst rl. rewrite Erl in Hl. rewrite Erl.
  assert (Hlinked : linked_ok env ref_tablet request dir header_path v cover m) by done.
  destruct (TSnapshotRequest.__isset_version request) eqn:Hset.
  - destruct (SnapshotManager.append_single_delta_loop _ _ _ _ _) as [ra|] eqn:Ha;
      intros H; inversion H; subst; exists v, cover, m;
      (split; [exact Hlinked|]); auto.
  - intros H; inversion H; subst. exists v, cover, m.
    split; [exact Hlinked|]. auto.
Qed.

Lemma body_present fr o fr' q :
  body fr = (o, fr') ->
  present q (SnapshotManager.state fr) -> present q (SnapshotManager.state fr').
Proof.
  body_unfold.
  destruct (Tablet.rowset_with_max_version ref_tablet) as [lv|];
    [|intros H; by inversion H].
  destruct (SnapshotManager.snapshot_version lv request) as [e|v];
    [intros H; by inversion H|].
  destruct (capture_consistent_rowsets env ref_tablet (0, v)) as [rc cover].
  destruct (is_success rc); [|intros H; by inversion H].
  destruct (new_TabletMeta env); [|intros H; by inversion H].
  destruct (get_header env _ _ _) as [rh m].
  destruct (is_success rh); [|intros H; by inversion H].
  simpl.
  destruct (save env (SnapshotManager.update_header_file_info cover m) header_path);
    simpl; try (intros H; inversion H; subst; simpl; done).
  destruct (SnapshotManager._link_index_and_data_files _ _ _ _ _) as [rl st1] eqn:Hl.
  destruct (link_index_and_data_files_spec _ _ _ _ _ _ _ Hl) as (_ & Hsub & _).
  simpl. intros H Hq.
  assert (Hst1 : present q st1).
  { eapply present_weaken; [exact Hsub|]. unfold present. simpl.
    rewrite lookup_insert_is_Some. destruct (decide (header_path = q)); auto. }
  destruct (is_success rl); [|by inversion H; subst].
  destruct (TSnapshotRequest.__isset_version request);
    [destruct (SnapshotManager.append_single_delta_loop _ _ _ _ _)|];
    by inversion H; subst.
Qed.

(** A step that fails ends the body with its status. *)
Lemma body_step_failure fr e :
  step_failure env ref_tablet request dir header_path e ->
  exists o fr', body fr = (o, fr') /\ (o = Break e \/ o = Next e).
Proof.
  intros Hfail. pose proof (step_failure_ne _ _ _ _ _ _ Hfail) as Hne.
  apply is_success_false in Hne.
  destruct Hfail as
    [ Hlv
    | lv e Hlv Hv
    | lv v e cover [Hlv Hv] Hc He
    | v cover [(lv & Hlv & Hv) Hc] Hnew
    | v cover e m [(lv & Hlv & Hv) Hc] Hnew Hh He
    | v cover m e ([(lv & Hlv & Hv) Hc] & Hnew & Hh) Hs He
    | v cover m e (([(lv & Hlv & Hv) Hc] & Hnew & Hh) & Hs) Hl He
    | v cover m e ((([(lv & Hlv & Hv) Hc] & Hnew & Hh) & Hs) & Hl) Hset Ha He ];
    body_unfold; rewrite Hlv; try rewrite Hv; try rewrite Hc; simpl;
    rewrite ?Hne, ?Hnew, ?Hh; simpl; rewrite ?Hne, ?Hs; simpl;
    rewrite ?Hne; simpl;
    try (eexists _, _; split; [reflexivity|]; auto; fail).
  - destruct (SnapshotManager._link_index_and_data_files _ _ _ _ _) as [rl st1] eqn:E.
    destruct (link_index_and_data_files_spec _ _ _ _ _ _ _ E) as (-> & _).
    rewrite Hl. simpl. rewrite Hne. eexists _, _; split; [reflexivity|]; auto.
  - destruct (SnapshotManager._link_index_and_data_files _ _ _ _ _) as [rl st1] eqn:E.
    destruct (link_index_and_data_files_spec _ _ _ _ _ _ _ E) as (-> & _).
    rewrite Hl. simpl. rewrite Hset, Ha. eexists _, _; split; [reflexivity|]; auto.
Qed.


End Full.

Section FullCall.
Variable env : Env.
Variable ref_tablet : Tablet.t.
Variable request : TSnapshotRequest.t.
Variable time_str : string.
Variable st : State.

Let p : string :=
  snapshot_id_path_of (Tablet.storage_root_path_name ref_tablet) time_str
    (_snapshot_base_id st).
Let dir : string := SnapshotManager.get_schema_hash_full_path ref_tablet p.
Let header_path : string := SnapshotManager._get_header_full_path ref_tablet dir.
Let fr0 : SnapshotManager.Frame :=
  {| SnapshotManager.state := prepared ref_tablet p st;
     SnapshotManager.header_locked := true |}.

Local Abbreviation full_call old :=
  (SnapshotManager._create_snapshot_files env (OLAP_SUCCESS, time_str) ref_tablet
     request (Some old) st).

Lemma full_unfold old :
  full_call old =
  match SnapshotManager.create_snapshot_body env ref_tablet request dir header_path
          fr0 with
  | (Fault, _) => None
  | (Next res, fr') | (Break res, fr') =>
      Some (SnapshotManager.rollback_or_return res (Some old) p (canonical env p)
              (SnapshotManager.unlock_frame ref_tablet fr'))
  end.
Proof. reflexivity. Qed.

Lemma unlock_frame_present fr q :
  present q (SnapshotManager.state fr) ->
  present q (SnapshotManager.unlock_frame ref_tablet fr).
Proof. unfold SnapshotManager.unlock_frame. by destruct (SnapshotManager.header_locked fr). Qed.

Lemma fr0_present : present p (SnapshotManager.state fr0).
Proof. apply prepared_present, snapshot_id_path_of_nonempty. Qed.

(** A failing step makes the call return its status, with the snapshot id
    path removed. *)
Lemma full_failure old e :
  step_failure env ref_tablet request dir header_path e ->
  exists st',
    full_call old = Some (e, Some old, st') /\ absent_tree p st'.
Proof.
  intros Hfail. pose proof (step_failure_ne _ _ _ _ _ _ Hfail) as Hne.
  rewrite full_unfold.
  destruct (body_step_failure env ref_tablet request dir header_path fr0 e Hfail)
    as (o & fr' & Hb & Ho).
  rewrite Hb.
  pose proof (unlock_frame_present fr' p
                (body_present _ _ _ _ _ _ _ _ p Hb fr0_present)) as Hp.
  destruct (rollback_failure e (Some old) p (canonical env p) _ Hne Hp)
    as (st' & Hr & Habs & _).
  exists st'. destruct Ho; subst o; rewrite Hr; by split.
Qed.

(** What a returning call tells about the run. *)
Lemma full_inversion old res out st' :
  full_call old = Some (res, out, st') ->
  (res <> OLAP_SUCCESS ->
     step_failure env ref_tablet request dir header_path res
     /\ out = Some old /\ absent_tree p st')
  /\ (res = OLAP_SUCCESS ->
        out = Some (canonical env p)
        /\ exists v cover m,
             linked_ok env ref_tablet request dir header_path v cover m
             /\ fs st' !! header_path
                = Some (HeaderFile (SnapshotManager.update_header_file_info cover m))).
Proof.
  rewrite full_unfold.
  destruct (SnapshotManager.create_snapshot_body _ _ _ _ _ _) as [o fr'] eqn:Hb.
  pose proof (body_outcome _ _ _ _ _ _ _ _ Hb) as Ho.
  pose proof (unlock_frame_present fr' p
                (body_present _ _ _ _ _ _ _ _ p Hb fr0_present)) as Hp.
  destruct o as [r|r|]; [| |discriminate].
  - destruct Ho as (v & cover & m & Hlinked & Hunl & Hlink & Happ).
    intros H. injection H as H. split.
    + intros Hne.
      assert (Hr : r = res).
      { unfold SnapshotManager.rollback_or_return in H.
        destruct (negb (is_success r)); by inversion H. }
      subst r.
      destruct (rollback_failure res (Some old) p (canonical env p) _ Hne Hp)
        as (st1 & Hr & Habs & _).
      rewrite Hr in H. inversion H; subst. split; [|done].
      destruct (TSnapshotRequest.__isset_version request) eqn:Hset; [|done].
      by eapply fail_append.
    + intros ->.
      assert (Hr : r = OLAP_SUCCESS).
      { unfold SnapshotManager.rollback_or_return in H.
        destruct (negb (is_success r)); by inversion H. }
      subst r. rewrite rollback_success in H. inversion H; subst.
      split; [done|]. exists v, cover, m. split; [done|].
      unfold SnapshotManager.unlock_frame. rewrite Hunl.
      destruct (link_index_and_data_files_spec _ _ _ _ _ _ _ Hlink) as (_ & Hsub & _).
      eapply lookup_weaken; [|exact Hsub]. apply lookup_insert_eq.
  - pose proof (step_failure_ne _ _ _ _ _ _ Ho) as Hne.
    destruct (rollback_failure r (Some old) p (canonical env p) _ Hne Hp)
      as (st1 & Hr & Habs & _).
    rewrite Hr. intros H; inversion H; subst. split; [done|]. intros ->. done.
Qed.

Lemma append_single_delta_loop_None res cover :
  SnapshotManager.append_single_delta_loop env request (Tablet.data_dir ref_tablet)
    res cover = None ->
  exists m reloaded,
    get_header env (Tablet.data_dir ref_tablet) (TSnapshotRequest.tablet_id request)
      (TSnapshotRequest.schema_hash request) = (OLAP_SUCCESS, m)
    /\ create_from_tablet_meta env m (Tablet.data_dir ref_tablet) = Some reloaded
    /\ load env reloaded = OLAP_SUCCESS
    /\ Tablet.rowset_with_max_version reloaded = None.
Proof.
  induction cover as [|rs cover IH]; simpl; [discriminate|].
  destruct (Rowset.end_version rs =? TSnapshotRequest.version request); [|exact IH].
  destruct (negb (Rowset.start_version rs =? TSnapshotRequest.version request));
    [|discriminate].
  unfold SnapshotManager._append_single_delta.
  destruct (negb (append_new_TabletMeta env)); [discriminate|].
  destruct (get_header env _ _ _) as [rh m].
  destruct (is_success rh) eqn:Erh; simpl; [|discriminate].
  apply is_success_true in Erh. subst rh.
  destruct (create_from_tablet_meta env m _) as [reloaded|] eqn:Hc; [|discriminate].
  destruct (is_success (load env reloaded)) eqn:El; simpl; [|discriminate].
  apply is_success_true in El.
  destruct (Tablet.rowset_with_max_version reloaded) as [lv|] eqn:Hlv.
  - destruct (negb _); discriminate.
  - intros _. by exists m, reloaded.
Qed.


(** A full construction returns, unless [_append_single_delta] reloads a
    tablet without any rowset and dereferences its null [lastest_version]. *)
Lemma full_call_returns old :
  full_call old = None ->
  exists m reloaded,
    get_header env (Tablet.data_dir ref_tablet) (TSnapshotRequest.tablet_id request)
      (TSnapshotRequest.schema_hash request) = (OLAP_SUCCESS, m)
    /\ create_from_tablet_meta env m (Tablet.data_dir ref_tablet) = Some reloaded
    /\ load env reloaded = OLAP_SUCCESS
    /\ Tablet.rowset_with_max_version reloaded = None.
Proof.
  rewrite full_unfold.
  destruct (SnapshotManager.create_snapshot_body _ _ _ _ _ _) as [o fr'] eqn:Hb.
  pose proof (body_outcome _ _ _ _ _ _ _ _ Hb) as Ho.
  destruct o as [r|r|]; [discriminate|discriminate|].
  destruct Ho as (v & cover & m & _ & _ & Ha). intros _.
  by eapply append_single_delta_loop_None.
Qed.

(** C2.  A full-snapshot construction whose snapshot id directory was
    created: (1) when a step of the body is the first to fail, with status
    [e], the call returns [e] itself, leaves the output parameter alone and
    nothing is left at or under the snapshot id path; (2) that holds in
    particular when the hard link of a rowset fails after the rowsets before
    it were linked; (3) every call that returns a failure is such a case;
    (4) a call that returns success returns the canonicalized snapshot id
    path. *)
Theorem full_snapshot_failure_rolls_back old :
  (forall e,
     step_failure env ref_tablet request dir header_path e ->
     exists st', full_call old = Some (e, Some old, st') /\ absent_tree p st')
  /\ (forall v cover m pre rs post e,
        saved_ok env ref_tablet request header_path v cover m ->
        cover = (pre ++ rs :: post)%list ->
        Forall (fun r => (rowset_make_snapshot env r dir).1 = OLAP_SUCCESS) pre ->
        (rowset_make_snapshot env rs dir).1 = e ->
        e <> OLAP_SUCCESS ->
        exists st', full_call old = Some (e, Some old, st') /\ absent_tree p st')
  /\ (forall res out st',
        full_call old = Some (res, out, st') ->
        res <> OLAP_SUCCESS ->
        step_failure env ref_tablet request dir header_path res
        /\ out = Some old /\ absent_tree p st')
  /\ (forall out st',
        full_call old = Some (OLAP_SUCCESS, out, st') ->
        out = Some (canonical env p)).
Proof.
  split; [exact (full_failure old)|]. split; [|split].
  - intros v cover m pre rs post e Hsaved -> Hpre Hrs Hne.
    apply full_failure. eapply fail_link; [exact Hsaved| |exact Hne].
    by apply link_status_partway.
  - intros res out st' Hcall Hne.
    by apply (proj1 (full_inversion old res out st' Hcall)).
  - intros out st' Hcall.
    by apply (proj2 (full_inversion old _ out st' Hcall)).
Qed.

(** C6.  When a full snapshot succeeds there are a target version [v], the
    consistent cover captured for [[0, v]] and the header [m] that
    [get_header] loaded from the meta store of the tablet, such that the file
    at the header path of the snapshot directory holds [m] with its
    rowset-meta list replaced by exactly the rowset metas of the cover, in
    the order of the cover; the other parts of the header are those of
    [m]. *)
Theorem full_snapshot_header old out st' :
  full_call old = Some (OLAP_SUCCESS, out, st') ->
  exists v cover m persisted,
    (exists lv, version_ok ref_tablet request lv v)
    /\ capture_consistent_rowsets env ref_tablet (0, v) = (OLAP_SUCCESS, cover)
    /\ get_header env (Tablet.data_dir ref_tablet) (Tablet.tablet_id ref_tablet)
         (Tablet.schema_hash ref_tablet) = (OLAP_SUCCESS, m)
    /\ fs st' !! header_path = Some (HeaderFile persisted)
    /\ TabletMeta.rs_metas persisted = map Rowset.rowset_meta cover
    /\ TabletMeta.tablet_id persisted = TabletMeta.tablet_id m
    /\ TabletMeta.schema_hash persisted = TabletMeta.schema_hash m
    /\ TabletMeta.rest persisted = TabletMeta.rest m.
Proof.
  intros Hcall.
  destruct (proj2 (full_inversion old _ out st' Hcall) eq_refl)
    as (_ & v & cover & m & Hlinked & Hfile).
  destruct Hlinked as ((([Hv Hc] & _ & Hh) & _) & _).
  exists v, cover, m, (SnapshotManager.update_header_file_info cover m).
  by repeat split.
Qed.

Lemma rowset_with_max_version_None t :
  Tablet.rowset_with_max_version t = None <-> Tablet.rowsets t = [].
Proof.
  unfold Tablet.rowset_with_max_version. split.
  - destruct (Tablet.rowsets t) as [|rs l]; [done|]. simpl.
    assert (H : forall l b,
               fold_left
                 (fun best rs0 =>
                    match best with
                    | None => Some rs0
                    | Some b0 =>
                        if Rowset.end_version b0 <? Rowset.end_version rs0
                        then Some rs0 else Some b0
                    end) l (Some b) <> None).
    { clear. induction l as [|x l IH]; intros b; simpl; [done|].
      destruct (_ <? _); apply IH. }
    intros Hn. by apply H in Hn.
  - by intros ->.
Qed.

(** C9.  A full-snapshot request (no missing versions) for a tablet that
    [get_tablet] finds and for which no rowset with a maximum version exists
    ([rowset_with_max_version] is null), that is, a tablet without any
    rowset: the snapshot id directory is created, [make_snapshot] returns
    [OLAP_ERR_VERSION_NOT_EXIST], the output parameter and the request are
    left alone, and nothing is left at or under the snapshot id path. *)
Theorem empty_tablet_snapshot_fails old :
  get_tablet env (TSnapshotRequest.tablet_id request)
    (TSnapshotRequest.schema_hash request) = Some ref_tablet ->
  TSnapshotRequest.__isset_missing_version request = false ->
  Tablet.rowset_with_max_version ref_tablet = None ->
  Tablet.rowsets ref_tablet = []
  /\ present p (prepared ref_tablet p st)
  /\ exists st',
       SnapshotManager.make_snapshot env (OLAP_SUCCESS, time_str) request (Some old) st
         = Some ((OLAP_ERR_VERSION_NOT_EXIST, Some old, st'), request)
       /\ absent_tree p st'.
Proof.
  intros Hget Hmode Hempty. split; [by apply rowset_with_max_version_None|]. split.
  - apply prepared_present, snapshot_id_path_of_nonempty.
  - unfold SnapshotManager.make_snapshot. rewrite Hget, Hmode.
    destruct (full_failure old OLAP_ERR_VERSION_NOT_EXIST) as (st' & Hcall & Habs).
    + by apply fail_no_version.
    + exists st'. rewrite Hcall. by split.
Qed.

End FullCall.






(** ** Releasing a snapshot *)

Lemma compare_eq0_prefix s a :
  compare_eq0 s 0 (String.length a) a = Some (String.prefix a s).
Proof.
  unfold compare_eq0. simpl. f_equal. apply eq_true_iff_eq.
  rewrite String.eqb_eq. symmetry. apply prefix_correct.
Qed.

Lemma prefix_append_cancel a b u :
  String.prefix (a +:+ b) (a +:+ u) = String.prefix b u.
Proof.
  induction a as [|c a IH]; [reflexivity|].
  rewrite !append_cons. simpl. by destruct (ascii_dec c c).
Qed.

Lemma prefix_append_l a b s :
  String.prefix (a +:+ b) s = true -> String.prefix a s = true.
Proof.
  revert s. induction a as [|c a IH]; intros s; [by destruct s|].
  rewrite append_cons. destruct s as [|d s]; simpl; [done|].
  destruct (ascii_dec c d); [apply IH|done].
Qed.

Lemma compare_eq0_after a u b :
  compare_eq0 (a +:+ u) (String.length a) (String.length b) b
  = Some (String.prefix b u).
Proof.
  unfold compare_eq0. rewrite length_append.
  destruct (Nat.ltb_spec (String.length a + String.length u) (String.length a));
    [lia|].
  f_equal. rewrite substring_skip. apply eq_true_iff_eq.
  rewrite String.eqb_eq. symmetry. apply prefix_correct.
Qed.

(** The comparisons of [release_snapshot] do not throw: the second one starts
    at a position that the first one has shown to be inside the path.  The
    call removes the tree and succeeds exactly when the text of the path
    starts with the canonical path of a store followed by [SNAPSHOT_PREFIX],
    and otherwise leaves the state as it is. *)
Lemma release_snapshot_spec env snapshot_path st :
  SnapshotManager.release_snapshot env snapshot_path st =
  if accepted env snapshot_path
  then Some (OLAP_SUCCESS, remove_all_dir snapshot_path st)
  else Some (OLAP_ERR_CE_CMD_PARAMS_ERROR, st).
Proof.
  unfold SnapshotManager.release_snapshot, accepted.
  induction (stores env) as [|store stores' IH]; [reflexivity|].
  cbn [SnapshotManager.release_snapshot_loop existsb].
  rewrite compare_eq0_prefix.
  destruct (String.prefix (canonical env store) snapshot_path) eqn:E.
  - destruct (prefix_split _ _ E) as [u ->].
    rewrite compare_eq0_after, prefix_append_cancel.
    by destruct (String.prefix SNAPSHOT_PREFIX u).
  - destruct (String.prefix (canonical env store +:+ SNAPSHOT_PREFIX) snapshot_path)
      eqn:E'; [|exact IH].
    apply prefix_append_l in E'. congruence.
Qed.

(** C1, the input on which the code departs from it.  The store [/data] is
    registered and every path involved is canonical.  [/data/snapshot_backup]
    is not the snapshot directory of the store and is not inside of it; its
    name only starts like [/data/snapshot].  [release_snapshot] accepts it:
    the call returns [OLAP_SUCCESS] and the directory and the file in it are
    gone. *)
Theorem release_snapshot_prefix_similar :
  let path := "/data/snapshot_backup" in
  canonical Scenario.env path = path
  /\ at_or_under ("/data" +:+ SNAPSHOT_PREFIX) path = false
  /\ fs Scenario.st0 !! "/data/snapshot_backup/x" = Some (DataFile 0)
  /\ exists st',
       SnapshotManager.release_snapshot Scenario.env path Scenario.st0
         = Some (OLAP_SUCCESS, st')
       /\ fs st' !! path = None
       /\ fs st' !! "/data/snapshot_backup/x" = None.
Proof.
  simpl. repeat split; try reflexivity.
  rewrite release_snapshot_spec. eexists. split; [reflexivity|].
  split; apply remove_all_dir_absent; reflexivity.
Qed.

(** C4, the input on which the code departs from it.  The request asks for
    version 10; the cover of [[0, 10]] is the cumulative rowset [[0, 10]],
    which ends at the requested version and does not start at it.  The call
    succeeds and the header in the snapshot directory holds the meta of
    [[0, 10]] only: no entry for [[11, 11]] was appended. *)
Theorem cumulative_cover_gets_no_single_delta :
  let request := Scenario.mk_request 7 (Some (10, 5)) None in
  capture_consistent_rowsets Scenario.env Scenario.tablet (0, 10)
    = (OLAP_SUCCESS, [Scenario.rs_0_10])
  /\ Rowset.end_version Scenario.rs_0_10 = TSnapshotRequest.version request
  /\ Rowset.start_version Scenario.rs_0_10 <> TSnapshotRequest.version request
  /\ exists st' persisted,
       SnapshotManager._create_snapshot_files Scenario.env Scenario.now
         Scenario.tablet request (Some "") Scenario.st0
         = Some (OLAP_SUCCESS, Some Scenario.snapshot_id_path, st')
       /\ fs st' !! Scenario.header_path = Some (HeaderFile persisted)
       /\ TabletMeta.rs_metas persisted = [Rowset.rowset_meta Scenario.rs_0_10]
       /\ Forall (fun m => RowsetMeta.version m <> (11, 11))
            (TabletMeta.rs_metas persisted).
Proof.
  simpl. split; [reflexivity|]. split; [reflexivity|]. split; [discriminate|].
  eexists _, _. split; [vm_compute; reflexivity|].
  split; [vm_compute; reflexivity|]. split; [reflexivity|].
  repeat constructor. discriminate.
Qed.

(** ** The theorems at work on the scenario *)

(** The second of two rowsets fails to link after its first file was linked:
    the call returns the status of that rowset and the snapshot id path is
    gone. *)
Lemma full_snapshot_failure_rolls_back_witness :
  exists st',
    SnapshotManager._create_snapshot_files Scenario.env_link_fails Scenario.now
      Scenario.tablet (Scenario.mk_request 7 None None) (Some "") Scenario.st0
      = Some (OLAP_ERR_OTHER 1, Some "", st')
    /\ absent_tree Scenario.snapshot_id_path st'.
Proof.
  refine (proj1 (proj2 (full_snapshot_failure_rolls_back Scenario.env_link_fails
                          Scenario.tablet (Scenario.mk_request 7 None None)
                          "20190101120000" Scenario.st0 ""))
            11 [Scenario.rs_0_10; Scenario.rs_11] Scenario.header
            [Scenario.rs_0_10] Scenario.rs_11 [] (OLAP_ERR_OTHER 1) _ _ _ _ _).
  - repeat split; try reflexivity. exists Scenario.rs_11. split; reflexivity.
  - reflexivity.
  - repeat constructor.
  - reflexivity.
  - discriminate.
Defined.


(** The missing versions are 11 and 99; version 11 is the rowset [[11, 11]],
    version 99 has no rowset. *)
Lemma incremental_missing_version_rolls_back_witness :
  exists st',
    SnapshotManager._create_incremental_snapshot_files Scenario.env Scenario.now
      Scenario.tablet (Scenario.mk_request 7 None (Some [11; 99])) (Some "")
      Scenario.st0
      = Some (OLAP_ERR_VERSION_NOT_EXIST, Some "", st')
    /\ absent_tree Scenario.snapshot_id_path st'
    /\ (forall name,
          fs st' !! ("/data/snapshot/20190101120000.0/7/42" +:+ "/" +:+ name) = None)
    /\ trace st' =
         [EvRdLock 7; EvLink 2 "/data/snapshot/20190101120000.0/7/42"; EvUnlock 7].
Proof.
  refine (incremental_missing_version_rolls_back Scenario.env Scenario.tablet
            (Scenario.mk_request 7 None (Some [11; 99])) "20190101120000"
            Scenario.st0 "" [11] 99 [] _ _ _ _ _).
  - reflexivity.
  - reflexivity.
  - reflexivity.
  - repeat constructor. exists Scenario.rs_11. split; reflexivity.
  - reflexivity.
Defined.

(** Version 10 is requested: the header in the meta store lists [[0, 10]] and
    [[11, 11]], the header in the snapshot lists the cover only. *)
Lemma full_snapshot_header_witness :
  exists v cover m persisted,
    (exists lv, version_ok Scenario.tablet
                  (Scenario.mk_request 7 (Some (10, 5)) None) lv v)
    /\ capture_consistent_rowsets Scenario.env Scenario.tablet (0, v)
       = (OLAP_SUCCESS, cover)
    /\ get_header Scenario.env "/data" 7 42 = (OLAP_SUCCESS, m)
    /\ (exists st',
          SnapshotManager._create_snapshot_files Scenario.env Scenario.now
            Scenario.tablet (Scenario.mk_request 7 (Some (10, 5)) None) (Some "")
            Scenario.st0 = Some (OLAP_SUCCESS, Some Scenario.snapshot_id_path, st')
          /\ fs st' !! Scenario.header_path = Some (HeaderFile persisted))
    /\ TabletMeta.rs_metas persisted = map Rowset.rowset_meta cover.
Proof.
  pose (call :=
    SnapshotManager._create_snapshot_files Scenario.env Scenario.now
      Scenario.tablet (Scenario.mk_request 7 (Some (10, 5)) None) (Some "")
      Scenario.st0).
  assert (Hcall : exists st',
             call = Some (OLAP_SUCCESS, Some Scenario.snapshot_id_path, st')).
  { eexists. vm_compute. reflexivity. }
  destruct Hcall as [st' Hcall].
  destruct (full_snapshot_header Scenario.env Scenario.tablet
              (Scenario.mk_request 7 (Some (10, 5)) None) "20190101120000"
              Scenario.st0 "" _ st' Hcall)
    as (v & cover & m & persisted & Hv & Hc & Hh & Hfile & Hrs & _).
  exists v, cover, m, persisted. repeat split; try assumption.
  exists st'. split; assumption.
Defined.

(** Version 11 is missing and is linked: the header in the snapshot is the
    one of the meta store. *)
Lemma incremental_header_unmodified_witness :
  exists st',
    SnapshotManager._create_incremental_snapshot_files Scenario.env Scenario.now
      Scenario.tablet (Scenario.mk_request 7 None (Some [11])) (Some "") Scenario.st0
      = Some (OLAP_SUCCESS, Some Scenario.snapshot_id_path, st')
    /\ fs st' !! Scenario.header_path = Some (HeaderFile Scenario.header).
Proof.
  assert (Hcall : exists st',
             SnapshotManager._create_incremental_snapshot_files Scenario.env
               Scenario.now Scenario.tablet
               (Scenario.mk_request 7 None (Some [11])) (Some "") Scenario.st0
             = Some (OLAP_SUCCESS, Some Scenario.snapshot_id_path, st')).
  { eexists. vm_compute. reflexivity. }
  destruct Hcall as [st' Hcall]. exists st'. split; [exact Hcall|].
  exact (proj1 (proj2 (incremental_header_unmodified Scenario.env Scenario.tablet
                         (Scenario.mk_request 7 None (Some [11])) "20190101120000"
                         Scenario.st0 "" _ st' Hcall))).
Defined.

(** Two allocations within the same second. *)
Lemma snapshot_paths_distinct_witness :
  allocations [(Scenario.now, Scenario.tablet); (Scenario.now, Scenario.tablet)]
    Scenario.st0
  = [(OLAP_SUCCESS, Some "/data/snapshot/20190101120000.0");
     (OLAP_SUCCESS, Some "/data/snapshot/20190101120000.1")]
  /\ "/data/snapshot/20190101120000.0" <> "/data/snapshot/20190101120000.1".
Proof.
  split; [reflexivity|].
  refine (proj2 snapshot_paths_distinct
            [(Scenario.now, Scenario.tablet); (Scenario.now, Scenario.tablet)]
            Scenario.st0 0%nat 1%nat _ _ _ _ _).
  - discriminate.
  - reflexivity.
  - reflexivity.
Defined.

(** The tablet 8 has no rowset. *)
Lemma empty_tablet_snapshot_fails_witness :
  exists st',
    SnapshotManager.make_snapshot Scenario.env Scenario.now
      (Scenario.mk_request 8 None None) (Some "") Scenario.st0
      = Some ((OLAP_ERR_VERSION_NOT_EXIST, Some "", st'),
              Scenario.mk_request 8 None None)
    /\ absent_tree Scenario.snapshot_id_path st'.
Proof.
  refine (proj2 (proj2 (empty_tablet_snapshot_fails Scenario.env
                          Scenario.empty_tablet (Scenario.mk_request 8 None None)
                          "20190101120000" Scenario.st0 "" _ _ _))).
  - reflexivity.
  - reflexivity.
  - reflexivity.
Defined.

(** * Further properties *)

(** ** Writing a schema back to its message *)

Section SchemaMessages.
Context {FieldType fpp : Type}.
Variable get_field_type_by_string : string -> FieldType.
Variable get_string_by_field_type : FieldType -> string.
Variable BLOOM_FILTER_DEFAULT_FPP : fpp.
(** The object that a column is read into, and the objects that the
    iterations of a call of [TabletSchema::init_from_pb] start from. *)
Variable fresh_column : @TabletColumn.t FieldType.
Variable fresh_columns : nat -> @TabletColumn.t FieldType.
Variable SIZE_MAX : Z.

Local Abbreviation column_t := (@TabletColumn.t FieldType).
Local Abbreviation schema_t := (@TabletSchema.t FieldType fpp).
Local Abbreviation read_into :=
  (fun (column : column_t) pb =>
     (TabletColumn.init_from_pb get_field_type_by_string column pb).2).
Local Abbreviation read_column :=
  (fun pb => (TabletColumn.init_from_pb get_field_type_by_string fresh_column pb).2).
Local Abbreviation write_column :=
  (fun c : column_t =>
     (TabletColumn.to_schema_pb get_string_by_field_type c
        TabletColumn.empty_ColumnPB).2).
Local Abbreviation schema_init_from_pb :=
  (@TabletSchema.init_from_pb FieldType fpp get_field_type_by_string
     BLOOM_FILTER_DEFAULT_FPP fresh_columns).
Local Abbreviation schema_to_schema_pb :=
  (@TabletSchema.to_schema_pb FieldType fpp get_string_by_field_type).

(** What a column message keeps when it is read by [init_from_pb] and
    written again by [to_schema_pb] into a new message. *)
Definition column_survives (pb : TabletColumn.ColumnPB)
    (out : TabletColumn.ColumnPB_out) : Prop :=
  let w := TabletColumn.out_fields out in
  TabletColumn.pb_unique_id w = TabletColumn.pb_unique_id pb
  /\ TabletColumn.pb_name w = TabletColumn.pb_name pb
  /\ TabletColumn.pb_type w =
       get_string_by_field_type (get_field_type_by_string (TabletColumn.pb_type pb))
  /\ TabletColumn.pb_is_key w = TabletColumn.pb_is_key pb
  /\ TabletColumn.pb_is_nullable w = TabletColumn.pb_is_nullable pb
  /\ TabletColumn.pb_length w = TabletColumn.pb_length pb
  /\ TabletColumn.pb_is_bf_column w = TabletColumn.pb_is_bf_column pb
  /\ TabletColumn.pb_referenced_column_id w = TabletColumn.pb_referenced_column_id pb
  /\ TabletColumn.out_index_length out = Some (TabletColumn.pb_length pb)
  /\ TabletColumn.pb_default_value w = None.

Lemma read_write_survives (column : column_t) (pb : TabletColumn.ColumnPB) :
  column_survives pb (write_column (read_into column pb)).
Proof.
  unfold column_survives. simpl. repeat split.
  destruct (TabletColumn.pb_referenced_column_id pb); reflexivity.
Qed.

(** X1.  A column message read by [init_from_pb] and written by
    [to_schema_pb] into a new message keeps its id, name, key and nullable
    flags, length, bloom filter flag and referenced column id; the type goes
    through both conversions of [FieldInfo]; [index_length] is written as the
    length; the default value is not written at all.  When the message has a
    precision, the precision written is the [frac] of the message if it has
    one (else its precision), and the [frac] written is whatever the fresh
    column held: [init_from_pb] never assigns [_frac]. *)
Theorem column_read_then_written (pb : TabletColumn.ColumnPB) :
  column_survives pb (write_column (read_column pb))
  /\ (forall p,
        TabletColumn.pb_precision pb = Some p ->
        TabletColumn.pb_precision (TabletColumn.out_fields (write_column (read_column pb)))
        = Some (default p (TabletColumn.pb_frac pb))
        /\ TabletColumn.pb_frac (TabletColumn.out_fields (write_column (read_column pb)))
           = Some (TabletColumn._frac fresh_column)).
Proof.
  split; [apply (read_write_survives fresh_column)|].
  - intros p Hp. simpl. rewrite Hp. simpl.
    destruct (TabletColumn.pb_frac pb); simpl; split; reflexivity.
Qed.

Lemma fold_write_column (cols : list column_t) columns :
  fold_left (TabletSchema.write_column get_string_by_field_type) cols columns
  = (columns ++ map write_column cols)%list.
Proof.
  revert columns. induction cols as [|c cols IH]; intros columns; simpl.
  - by rewrite app_nil_r.
  - rewrite IH. unfold TabletSchema.write_column. by rewrite <- app_assoc.
Qed.

Lemma Forall2_map_imap {A B C : Type} (R : A -> C -> Prop) (g : B -> C)
    (f : nat -> A -> B) (l : list A) :
  (forall i x, R x (g (f i x))) -> Forall2 R l (map g (imap f l)).
Proof.
  revert f. induction l as [|x l IH]; intros f H; simpl; constructor.
  - apply H.
  - apply IH. intros i y. apply (H (S i)).
Qed.

Lemma Forall2_imap_map {A B C : Type} (R : A -> C -> Prop) (g : A -> B)
    (f : nat -> B -> C) (l : list A) :
  (forall i x, R x (f i (g x))) -> Forall2 R l (imap f (map g l)).
Proof.
  revert f. induction l as [|x l IH]; intros f H; simpl; constructor.
  - apply H.
  - apply IH. intros i y. apply (H (S i)).
Qed.

Lemma map_imap_same {A B C : Type} (g : B -> C) (h : A -> C) (f : nat -> A -> B)
    (l : list A) :
  (forall i x, g (f i x) = h x) -> map g (imap f l) = map h l.
Proof.
  revert f. induction l as [|x l IH]; intros f H; simpl; [reflexivity|].
  rewrite H. f_equal. apply IH. intros i y. apply (H (S i)).
Qed.

Lemma Forall_imap_of {A B : Type} (P : A -> Prop) (Q : B -> Prop) (f : nat -> A -> B)
    (l : list A) :
  (forall i x, P x -> Q (f i x)) -> Forall P l -> Forall Q (imap f l).
Proof.
  intros H Hl. revert f H. induction Hl as [|x l Hx _ IH]; intros f H; simpl;
    constructor.
  - by apply H.
  - apply IH. intros i y. apply (H (S i)).
Qed.

Lemma Forall2_filter_length {A : Type} (P : A -> bool) (R : A -> A -> Prop)
    (l l' : list A) :
  (forall x y, R x y -> P y = P x) ->
  Forall2 R l l' ->
  length (filter (fun y => P y = true) l')
  = length (filter (fun x => P x = true) l).
Proof.
  intros H. induction 1 as [|x y l l' Hxy _ IH]; [reflexivity|].
  rewrite !filter_cons, (H x y Hxy).
  destruct (P x); repeat case_decide; simpl; congruence.
Qed.

(** A message without any field set. *)
Definition empty_TabletSchemaPB : @TabletSchema.TabletSchemaPB_out fpp :=
  {| TabletSchema.out_column := [];
     TabletSchema.out_num_short_key_columns := 0;
     TabletSchema.out_num_rows_per_row_block := 0;
     TabletSchema.out_keys_type := 0;
     TabletSchema.out_compress_kind := 0;
     TabletSchema.out_next_column_unique_id := 0;
     TabletSchema.out_bf_fpp := None |}.

(** X2.  A schema message read by [init_from_pb] into a fresh schema and
    written by [to_schema_pb] into a new message: the message written has one
    column per column read, in order, each with the fields that survive, the
    same five scalar fields, and always a [bf_fpp]: the one of the message
    read, or the default when it had none. *)
Theorem schema_read_then_written (rest : schema_t) schema :
  let out :=
    (schema_to_schema_pb (schema_init_from_pb (TabletSchema.ctor rest) schema).2
       empty_TabletSchemaPB).2 in
  Forall2 column_survives (TabletSchema.pb_column schema) (TabletSchema.out_column out)
  /\ TabletSchema.out_num_short_key_columns out
     = TabletSchema.pb_num_short_key_columns schema
  /\ TabletSchema.out_num_rows_per_row_block out
     = TabletSchema.pb_num_rows_per_row_block schema
  /\ TabletSchema.out_keys_type out = TabletSchema.pb_keys_type schema
  /\ TabletSchema.out_compress_kind out = TabletSchema.pb_compress_kind schema
  /\ TabletSchema.out_next_column_unique_id out
     = TabletSchema.pb_next_column_unique_id schema
  /\ TabletSchema.out_bf_fpp out
     = Some (default BLOOM_FILTER_DEFAULT_FPP (TabletSchema.pb_bf_fpp schema)).
Proof.
  simpl. split; [|repeat split; by destruct (TabletSchema.pb_bf_fpp schema)].
  rewrite fold_write_column, add_columns_cols. simpl.
  apply Forall2_map_imap. intros i pb. apply read_write_survives.
Qed.

(** What a column keeps when it is written by [to_schema_pb] into a new
    message and read again from it by [init_from_pb]. *)
Definition column_restored (c c' : column_t) : Prop :=
  TabletColumn._unique_id c' = TabletColumn._unique_id c
  /\ TabletColumn._col_name c' = TabletColumn._col_name c
  /\ TabletColumn._is_key c' = TabletColumn._is_key c
  /\ TabletColumn._is_nullable c' = TabletColumn._is_nullable c
  /\ TabletColumn._length c' = TabletColumn._length c
  /\ TabletColumn._index_length c' = TabletColumn._length c
  /\ TabletColumn._is_bf_column c' = TabletColumn._is_bf_column c
  /\ TabletColumn._has_referenced_column c' = TabletColumn._has_referenced_column c
  /\ TabletColumn._has_default_value c' = false.

Lemma write_read_restored (column c : column_t) :
  column_restored c (read_into column (TabletColumn.out_fields (write_column c))).
Proof.
  unfold column_restored. simpl. repeat split.
  destruct (TabletColumn._has_referenced_column c); reflexivity.
Qed.

(** X3.  A schema whose counters agree with its columns, written by
    [to_schema_pb] into a new message and read from it by [init_from_pb]
    into a fresh schema: the schema read has the same three counters, the
    same five scalar members and the same [_bf_fpp]; it has one column per
    column written, in order, with the same id, name, flags and length, with
    [_index_length] equal to the length (the index length written is not
    read) and without default value. *)
Theorem schema_written_then_read (rest self : schema_t) :
  TabletSchema.counters_consistent self ->
  let read :=
    (schema_init_from_pb (TabletSchema.ctor rest)
       (TabletSchema.as_read (schema_to_schema_pb self empty_TabletSchemaPB).2)).2 in
  Forall2 column_restored (TabletSchema._cols self) (TabletSchema._cols read)
  /\ TabletSchema._num_columns read = TabletSchema._num_columns self
  /\ TabletSchema._num_key_columns read = TabletSchema._num_key_columns self
  /\ TabletSchema._num_null_columns read = TabletSchema._num_null_columns self
  /\ TabletSchema._num_short_key_columns read = TabletSchema._num_short_key_columns self
  /\ TabletSchema._num_rows_per_row_block read
     = TabletSchema._num_rows_per_row_block self
  /\ TabletSchema._keys_type read = TabletSchema._keys_type self
  /\ TabletSchema._compress_kind read = TabletSchema._compress_kind self
  /\ TabletSchema._next_column_unique_id read
     = TabletSchema._next_column_unique_id self
  /\ TabletSchema._bf_fpp read = TabletSchema._bf_fpp self.
Proof.
  intros (Hn & Hk & Hz). cbv zeta.
  pose proof (add_columns_consistent get_field_type_by_string fresh_columns 0
                (TabletSchema.pb_column
                   (TabletSchema.as_read
                      (schema_to_schema_pb self empty_TabletSchemaPB).2))
                (TabletSchema.ctor rest) (ctor_consistent rest)) as (Hn' & Hk' & Hz').
  assert (Hcols :
    Forall2 column_restored (TabletSchema._cols self)
      (TabletSchema._cols
         (schema_init_from_pb (TabletSchema.ctor rest)
            (TabletSchema.as_read (schema_to_schema_pb self empty_TabletSchemaPB).2)).2)).
  { simpl. rewrite add_columns_cols, fold_write_column. simpl. rewrite map_map.
    apply Forall2_imap_map. intros i c. apply write_read_restored. }
  split; [exact Hcols|].
  split; [|split; [|split]]; try (simpl; by repeat split).
  - simpl in *. rewrite Hn', Hn. symmetry. exact (Forall2_length _ _ _ Hcols).
  - simpl in *. rewrite Hk', Hk.
    apply (Forall2_filter_length TabletColumn.is_key column_restored); [|exact Hcols].
    intros x y Hxy. exact (proj1 (proj2 (proj2 Hxy))).
  - simpl in *. rewrite Hz', Hz.
    apply (Forall2_filter_length TabletColumn.is_nullable column_restored);
      [|exact Hcols].
    intros x y Hxy. exact (proj1 (proj2 (proj2 (proj2 Hxy)))).
Qed.

(** X4.  [init_from_pb] does not start from an empty schema: on any schema it
    keeps the columns that are there and appends those of the message, each
    read into the object of its iteration, and it keeps counters that agree
    with the columns in agreement.  So a second call on the same object,
    whatever its iterations start from, holds every column of the message
    twice: the members that [TabletColumn::init_from_pb] assigns are the same
    in both copies, the others are those of the respective iteration. *)
Theorem init_from_pb_appends (self : schema_t) schema (again : nat -> column_t) :
  let r := (schema_init_from_pb self schema).2 in
  let r2 :=
    (TabletSchema.init_from_pb get_field_type_by_string BLOOM_FILTER_DEFAULT_FPP
       again r schema).2 in
  TabletSchema._cols r
  = (TabletSchema._cols self
       ++ imap (fun i pb => read_into (fresh_columns i) pb)
            (TabletSchema.pb_column schema))%list
  /\ TabletSchema._num_columns r
     = (TabletSchema._num_columns self + length (TabletSchema.pb_column schema))%nat
  /\ (TabletSchema.counters_consistent self -> TabletSchema.counters_consistent r)
  /\ TabletSchema._cols r2
     = (TabletSchema._cols self
          ++ imap (fun i pb => read_into (fresh_columns i) pb)
               (TabletSchema.pb_column schema)
          ++ imap (fun i pb => read_into (again i) pb)
               (TabletSchema.pb_column schema))%list
  /\ TabletSchema._num_columns r2
     = (TabletSchema._num_columns self
          + 2 * length (TabletSchema.pb_column schema))%nat.
Proof.
  cbv zeta.
  assert (Hnum : forall fresh i columns (s0 : schema_t),
            TabletSchema._num_columns
              (TabletSchema.add_columns get_field_type_by_string fresh i columns s0)
            = (TabletSchema._num_columns s0 + length columns)%nat).
  { intros fresh i columns. revert i.
    induction columns as [|pb l IH]; intros i s0; simpl; [by rewrite Nat.add_0_r|].
    rewrite IH. simpl. by rewrite Nat.add_succ_r. }
  split; [|split; [|split; [|split]]].
  - simpl. apply add_columns_cols.
  - simpl. apply Hnum.
  - intros H.
    exact (add_columns_consistent get_field_type_by_string fresh_columns 0
             (TabletSchema.pb_column schema) self H).
  - simpl. rewrite add_columns_cols. simpl. rewrite add_columns_cols.
    by rewrite <- app_assoc.
  - simpl. rewrite Hnum. simpl. rewrite Hnum. rewrite Nat.add_0_r.
    by rewrite Nat.add_assoc.
Qed.

Local Abbreviation row_size := (@TabletSchema.row_size FieldType fpp SIZE_MAX).

Lemma fold_row_size (cols : list column_t) (acc : Z) :
  Forall (fun c => 0 <= TabletColumn.length c) cols ->
  0 <= acc ->
  acc + foldr Z.add 0 (map TabletColumn.length cols) <= SIZE_MAX ->
  fold_left
    (fun size column =>
       TabletSchema.to_size_t SIZE_MAX (size + TabletColumn.length column)) cols acc
  = acc + foldr Z.add 0 (map TabletColumn.length cols).
Proof.
  intros Hpos. revert acc. induction Hpos as [|c cols Hc Hcols IH]; intros acc Hacc Hsum;
    simpl in *; [lia|].
  assert (Hrest : 0 <= foldr Z.add 0 (map TabletColumn.length cols)).
  { clear -Hcols. induction Hcols; simpl; lia. }
  unfold TabletSchema.to_size_t at 2. rewrite Z.mod_small by lia.
  rewrite IH; lia.
Qed.

(** X5.  The row size of a schema read from a message into a fresh schema,
    when no column has a negative length and neither the number of columns
    plus seven nor the sum exceeds [SIZE_MAX]: the lengths of the columns of
    the message, plus one bit per column of the message, rounded up to whole
    bytes. *)
Theorem row_size_of_message (rest : schema_t) schema :
  Forall (fun pb => 0 <= TabletColumn.pb_length pb) (TabletSchema.pb_column schema) ->
  let n := Z.of_nat (length (TabletSchema.pb_column schema)) in
  let bytes := foldr Z.add 0 (map TabletColumn.pb_length (TabletSchema.pb_column schema)) in
  n + 7 <= SIZE_MAX ->
  bytes + (n + 7) / 8 <= SIZE_MAX ->
  row_size (schema_init_from_pb (TabletSchema.ctor rest) schema).2
  = bytes + (n + 7) / 8.
Proof.
  intros Hpos n bytes Hle Hfit.
  assert (Hbytes : 0 <= bytes).
  { subst bytes. clear -Hpos. induction Hpos; simpl; lia. }
  assert (Hn : 0 <= n) by lia.
  assert (Hdiv : 0 <= (n + 7) / 8 <= n + 7).
  { split; [apply Z.div_pos; lia|]. apply Z.div_le_upper_bound; lia. }
  pose proof (add_columns_consistent get_field_type_by_string fresh_columns 0
                (TabletSchema.pb_column schema) (TabletSchema.ctor rest)
                (ctor_consistent rest)) as (Hcount & _).
  assert (Hlen : forall f : nat -> TabletColumn.ColumnPB -> column_t,
            (forall i pb, TabletColumn.length (f i pb) = TabletColumn.pb_length pb) ->
            foldr Z.add 0
              (map TabletColumn.length (imap f (TabletSchema.pb_column schema)))
            = bytes).
  { intros f Hf. by rewrite (map_imap_same _ TabletColumn.pb_length f _ Hf). }
  unfold TabletSchema.row_size. simpl. rewrite Hcount.
  rewrite add_columns_cols. simpl. rewrite length_imap. fold n.
  rewrite fold_row_size.
  - rewrite Hlen by done.
    unfold TabletSchema.to_size_t. rewrite (Z.mod_small (n + 7)) by lia.
    rewrite Z.mod_small; lia.
  - eapply Forall_imap_of; [|exact Hpos]. by intros i pb Hpb.
  - lia.
  - rewrite Hlen by done. lia.
Qed.

End SchemaMessages.

(** ** What a construction changes, and what it leaves alone *)

(** The event is a hard link made for a snapshot. *)
Definition is_link (e : Event) : Prop :=
  match e with EvLink _ _ => True | _ => False end.

Lemma at_or_under_inside p r q :
  at_or_under (p +:+ "/" +:+ r) q = true -> at_or_under p q = true.
Proof.
  unfold at_or_under at 1. intros H. apply orb_true_iff in H as [H|H].
  - apply String.eqb_eq in H. subst q. apply at_or_under_append.
  - unfold under in H. destruct (prefix_split _ _ H) as [u ->].
    rewrite !append_assoc. apply at_or_under_append.
Qed.

Lemma at_or_under_outside p r q :
  at_or_under p q = false -> at_or_under (p +:+ "/" +:+ r) q = false.
Proof.
  intros H. destruct (at_or_under (p +:+ "/" +:+ r) q) eqn:E; [|done].
  apply at_or_under_inside in E. congruence.
Qed.

Lemma schema_path_inside ref_tablet p :
  at_or_under p (SnapshotManager.get_schema_hash_full_path ref_tablet p) = true.
Proof. unfold SnapshotManager.get_schema_hash_full_path. apply at_or_under_append. Qed.

Lemma header_path_inside ref_tablet p :
  at_or_under p
    (SnapshotManager._get_header_full_path ref_tablet
       (SnapshotManager.get_schema_hash_full_path ref_tablet p)) = true.
Proof.
  unfold SnapshotManager._get_header_full_path,
    SnapshotManager.get_schema_hash_full_path.
  rewrite !append_assoc. apply at_or_under_append.
Qed.

Lemma remove_all_dir_other p st q :
  at_or_under p q = false -> fs (remove_all_dir p st) !! q = fs st !! q.
Proof.
  intros Hq. simpl. destruct (fs st !! q) as [x|] eqn:E.
  - by apply map_lookup_filter_Some_2.
  - apply map_lookup_filter_None_2. by left.
Qed.

(** Entries outside the snapshot id path survive the preparation. *)
Lemma prepared_frame ref_tablet p st q x :
  at_or_under p q = false -> fs st !! q = Some x ->
  fs (prepared ref_tablet p st) !! q = Some x.
Proof.
  intros Hout Hq. unfold prepared, obtain_header_rdlock, log_event. simpl.
  eapply lookup_weaken; [|apply fold_mkdir_subseteq].
  destruct (check_dir_existed _ _); [|exact Hq].
  change (fs (remove_all_dir
                (SnapshotManager.get_schema_hash_full_path ref_tablet p)
                {| fs := fs st; _snapshot_base_id := N.succ (_snapshot_base_id st);
                   trace := trace st |}) !! q = Some x).
  rewrite remove_all_dir_other; [exact Hq|].
  unfold SnapshotManager.get_schema_hash_full_path. by apply at_or_under_outside.
Qed.

Lemma prepared_counter ref_tablet p st :
  _snapshot_base_id (prepared ref_tablet p st) = N.succ (_snapshot_base_id st).
Proof.
  unfold prepared, obtain_header_rdlock, log_event. simpl.
  by destruct (check_dir_existed _ _).
Qed.

Lemma prepared_schema_dir ref_tablet p st :
  present (SnapshotManager.get_schema_hash_full_path ref_tablet p)
    (prepared ref_tablet p st).
Proof.
  unfold prepared, obtain_header_rdlock, log_event, present. simpl.
  apply fold_mkdir_lookup, in_or_app. right. by left.
Qed.

(** The links of a list of rowsets: events, entries and counter. *)
Lemma link_index_and_data_files_effects env dir ref_tablet rowsets st res st' :
  SnapshotManager._link_index_and_data_files env dir ref_tablet rowsets st = (res, st') ->
  fs st ⊆ fs st'
  /\ _snapshot_base_id st' = _snapshot_base_id st
  /\ exists links, trace st' = (trace st ++ links)%list /\ Forall is_link links.
Proof.
  revert st. induction rowsets as [|rs rowsets IH]; intros st; simpl.
  - intros H; inversion H; subst. repeat split; [done|].
    exists []. by rewrite app_nil_r.
  - destruct (Rowset_make_snapshot env rs dir st) as [r st1] eqn:E.
    destruct (Rowset_make_snapshot_spec _ _ _ _ _ _ E) as (_ & Hsub & Hc & Ht).
    destruct (is_success r).
    + intros H. destruct (IH _ H) as (Hsub' & Hc' & links & Ht' & Hl).
      split; [by etrans|]. split; [congruence|].
      eexists (_ :: links). rewrite Ht', Ht, <- app_assoc. split; [reflexivity|].
      by constructor.
    + intros H; inversion H; subst. split; [done|]. split; [done|].
      eexists [_]. split; [exact Ht|]. by repeat constructor.
Qed.

Lemma link_missing_versions_effects env ref_tablet dir res0 versions st res st' :
  SnapshotManager.link_missing_versions env ref_tablet dir res0 versions st = (res, st') ->
  fs st ⊆ fs st'
  /\ _snapshot_base_id st' = _snapshot_base_id st
  /\ exists links, trace st' = (trace st ++ links)%list /\ Forall is_link links.
Proof.
  revert st res0. induction versions as [|v versions IH]; intros st res0; simpl.
  - intros H; inversion H; subst. repeat split; [done|].
    exists []. by rewrite app_nil_r.
  - destruct (Tablet.get_rowset_by_version ref_tablet (v, v)) as [rs|].
    + destruct (Rowset_make_snapshot env rs dir st) as [r st1] eqn:E.
      destruct (Rowset_make_snapshot_spec _ _ _ _ _ _ E) as (_ & Hsub & Hc & Ht).
      destruct (negb (is_success r)).
      * intros H; inversion H; subst. split; [done|]. split; [done|].
        eexists [_]. split; [exact Ht|]. by repeat constructor.
      * intros H. destruct (IH _ _ H) as (Hsub' & Hc' & links & Ht' & Hl).
        split; [by etrans|]. split; [congruence|].
        eexists (_ :: links). rewrite Ht', Ht, <- app_assoc. split; [reflexivity|].
        by constructor.
    + intros H; inversion H; subst. repeat split; [done|].
      exists []. by rewrite app_nil_r.
Qed.

Section FullEffects.
Variable env : Env.
Variable ref_tablet : Tablet.t.
Variable request : TSnapshotRequest.t.
Variable dir header_path : string.

Local Abbreviation body :=
  (SnapshotManager.create_snapshot_body env ref_tablet request dir header_path).

(** The body of a full construction: it leaves the counter and every entry
    but the header file alone; it either keeps the lock and logs nothing, or
    releases the lock once and links afterwards. *)
Lemma body_effects fr o fr' :
  body fr = (o, fr') ->
  SnapshotManager.header_locked fr = true ->
  _snapshot_base_id (SnapshotManager.state fr')
  = _snapshot_base_id (SnapshotManager.state fr)
  /\ (forall q x,
        q <> header_path ->
        fs (SnapshotManager.state fr) !! q = Some x ->
        fs (SnapshotManager.state fr') !! q = Some x)
  /\ ((SnapshotManager.header_locked fr' = true
       /\ trace (SnapshotManager.state fr') = trace (SnapshotManager.state fr))
      \/ (SnapshotManager.header_locked fr' = false
          /\ exists links,
               trace (SnapshotManager.state fr')
               = (trace (SnapshotManager.state fr)
                    ++ EvUnlock (Tablet.tablet_id ref_tablet) :: links)%list
               /\ Forall is_link links)).
Proof.
  unfold SnapshotManager.create_snapshot_body, mbind, Body_bind, mret, Body_ret,
    break_with, break_unless_success, modify, call, fault,
    SnapshotManager.call_on_state, TabletMeta_save; cbv zeta.
  intros H Hlocked.
  assert (Hsame : fr' = fr ->
    _snapshot_base_id (SnapshotManager.state fr')
    = _snapshot_base_id (SnapshotManager.state fr)
    /\ (forall q x,
          q <> header_path ->
          fs (SnapshotManager.state fr) !! q = Some x ->
          fs (SnapshotManager.state fr') !! q = Some x)
    /\ ((SnapshotManager.header_locked fr' = true
         /\ trace (SnapshotManager.state fr') = trace (SnapshotManager.state fr))
        \/ (SnapshotManager.header_locked fr' = false
            /\ exists links,
                 trace (SnapshotManager.state fr')
                 = (trace (SnapshotManager.state fr)
                      ++ EvUnlock (Tablet.tablet_id ref_tablet) :: links)%list
                 /\ Forall is_link links))).
  { intros ->. split; [done|]. split; [done|]. by left. }
  revert H.
  destruct (Tablet.rowset_with_max_version ref_tablet) as [lv|];
    [|intros H; inversion H; subst; by apply Hsame].
  destruct (SnapshotManager.snapshot_version lv request) as [e|v];
    [intros H; inversion H; subst; by apply Hsame|].
  destruct (capture_consistent_rowsets env ref_tablet (0, v)) as [rc cover].
  destruct (is_success rc); [|intros H; inversion H; subst; by apply Hsame].
  destruct (new_TabletMeta env); [|intros H; inversion H; subst; by apply Hsame].
  destruct (get_header env _ _ _) as [rh m].
  destruct (is_success rh); [|intros H; inversion H; subst; by apply Hsame].
  clear Hsame. simpl.
  destruct (save env (SnapshotManager.update_header_file_info cover m) header_path);
    simpl;
    try (intros H; inversion H; subst; simpl; split; [done|]; split; [done|];
         right; split; [done|]; exists []; by split).
  destruct (SnapshotManager._link_index_and_data_files _ _ _ _ _) as [rl st1] eqn:Hl.
  destruct (link_index_and_data_files_effects _ _ _ _ _ _ _ Hl)
    as (Hsub & Hc & links & Ht & Hlinks).
  simpl in Hc, Ht. simpl.
  assert (Hgoal :
    _snapshot_base_id st1 = _snapshot_base_id (SnapshotManager.state fr)
    /\ (forall q x,
          q <> header_path ->
          fs (SnapshotManager.state fr) !! q = Some x -> fs st1 !! q = Some x)
    /\ exists links0,
         trace st1
         = (trace (SnapshotManager.state fr)
              ++ EvUnlock (Tablet.tablet_id ref_tablet) :: links0)%list
         /\ Forall is_link links0).
  { split; [exact Hc|]. split.
    - intros q x Hq Hx. eapply lookup_weaken; [|exact Hsub]. simpl.
      by rewrite lookup_insert_ne.
    - exists links. split; [|exact Hlinks]. rewrite Ht. by rewrite <- app_assoc. }
  destruct Hgoal as (G1 & G2 & G3).
  destruct (is_success rl);
    [destruct (TSnapshotRequest.__isset_version request);
       [destruct (SnapshotManager.append_single_delta_loop _ _ _ _ _)|]|];
    intros H; inversion H; subst; simpl; (split; [exact G1|]); (split; [exact G2|]);
    right; (split; [reflexivity|exact G3]).
Qed.

End FullEffects.

Lemma rollback_effects res snapshot_path p id st res' out st' :
  SnapshotManager.rollback_or_return res snapshot_path p id st = (res', out, st') ->
  res' = res
  /\ _snapshot_base_id st' = _snapshot_base_id st
  /\ trace st' = trace st
  /\ (forall q, at_or_under p q = false -> fs st' !! q = fs st !! q).
Proof.
  unfold SnapshotManager.rollback_or_return.
  destruct (negb (is_success res)); [destruct (check_dir_existed p st)|];
    intros H; inversion H; subst; repeat split; try done.
  intros q Hq. by apply remove_all_dir_other.
Qed.

Lemma incremental_body_effects env ref_tablet request dir st0 o st1 :
  SnapshotManager.create_incremental_body env ref_tablet request dir st0 = (o, st1) ->
  o <> Fault
  /\ _snapshot_base_id st1 = _snapshot_base_id st0
  /\ (forall q x,
        q <> SnapshotManager._get_header_full_path ref_tablet dir ->
        fs st0 !! q = Some x -> fs st1 !! q = Some x)
  /\ exists links, trace st1 = (trace st0 ++ links)%list /\ Forall is_link links.
Proof.
  unfold SnapshotManager.create_incremental_body.
  destruct (get_header env _ _ _) as [rh m].
  unfold mbind, Body_bind, break_unless_success, mret, Body_ret, call, break_with,
    modify, TabletMeta_save. cbv zeta.
  destruct (is_success rh); simpl.
  2:{ intros H; inversion H; subst. repeat split; try done.
      exists []. by rewrite app_nil_r. }
  destruct (save env m _) eqn:Hs; simpl;
    try (intros H; inversion H; subst; simpl; split; [done|]; split; [done|]; split;
         [intros q x Hq Hx; by rewrite lookup_delete_ne
         |exists []; by rewrite app_nil_r]).
  destruct (SnapshotManager.link_missing_versions _ _ _ _ _ _) as [rl st2] eqn:Hl.
  destruct (link_missing_versions_effects _ _ _ _ _ _ _ _ Hl)
    as (Hsub & Hc & links & Ht & Hlinks).
  intros H; inversion H; subst. split; [done|]. split; [exact Hc|]. split.
  - intros q x Hq Hx. eapply lookup_weaken; [|exact Hsub]. simpl.
    by rewrite lookup_insert_ne.
  - by exists links.
Qed.

Section CallEffects.
Variable env : Env.
Variable ref_tablet : Tablet.t.
Variable request : TSnapshotRequest.t.
Variable time_str : string.
Variable st : State.

Let p : string :=
  snapshot_id_path_of (Tablet.storage_root_path_name ref_tablet) time_str
    (_snapshot_base_id st).
Let dir : string := SnapshotManager.get_schema_hash_full_path ref_tablet p.
Let header_path : string := SnapshotManager._get_header_full_path ref_tablet dir.

Local Abbreviation full_call old :=
  (SnapshotManager._create_snapshot_files env (OLAP_SUCCESS, time_str) ref_tablet
     request (Some old) st).
Local Abbreviation incremental_call old :=
  (SnapshotManager._create_incremental_snapshot_files env (OLAP_SUCCESS, time_str)
     ref_tablet request (Some old) st).

Lemma outside_not_header q : at_or_under p q = false -> q <> header_path.
Proof.
  intros Hq ->. unfold header_path, dir in Hq.
  by rewrite header_path_inside in Hq.
Qed.

Lemma full_effects old res out st' :
  full_call old = Some (res, out, st') ->
  _snapshot_base_id st' = N.succ (_snapshot_base_id st)
  /\ (forall q x, at_or_under p q = false -> fs st !! q = Some x -> fs st' !! q = Some x)
  /\ exists links,
       trace st' =
       (trace st ++ EvRdLock (Tablet.tablet_id ref_tablet)
          :: EvUnlock (Tablet.tablet_id ref_tablet) :: links)%list
       /\ Forall is_link links.
Proof.
  rewrite (full_unfold env ref_tablet request time_str st old).
  pose proof (prepared_counter ref_tablet p st) as Pc.
  pose proof (prepared_trace ref_tablet p st) as Pt.
  pose proof (prepared_frame ref_tablet p st) as Pf.
  fold p in Pc, Pt, Pf |- *.
  set (st0 := prepared ref_tablet p st) in *.
  destruct (SnapshotManager.create_snapshot_body _ _ _ _ _ _) as [o fr'] eqn:Hb.
  destruct (body_effects _ _ _ _ _ _ _ _ Hb eq_refl) as (Hc & Hframe & Hlock).
  cbn [SnapshotManager.state] in Hc, Hframe, Hlock.
  assert (Hunlock :
    _snapshot_base_id (SnapshotManager.unlock_frame ref_tablet fr')
    = N.succ (_snapshot_base_id st)
    /\ fs (SnapshotManager.unlock_frame ref_tablet fr') = fs (SnapshotManager.state fr')
    /\ exists links,
         trace (SnapshotManager.unlock_frame ref_tablet fr') =
         (trace st ++ EvRdLock (Tablet.tablet_id ref_tablet)
            :: EvUnlock (Tablet.tablet_id ref_tablet) :: links)%list
         /\ Forall is_link links).
  { unfold SnapshotManager.unlock_frame.
    unfold release_header_lock, log_event.
    destruct Hlock as [[Hl Ht]|(Hl & links & Ht & Hlinks)]; rewrite Hl;
      cbn [fs _snapshot_base_id trace].
    - rewrite Hc, Pc. split; [done|]. split; [done|].
      exists []. rewrite Ht, Pt, <- app_assoc. by split.
    - rewrite Hc, Pc. split; [done|]. split; [done|].
      exists links. rewrite Ht, Pt, <- app_assoc. by split. }
  destruct Hunlock as (U1 & U2 & U3).
  assert (Hfin : forall r,
    Some (SnapshotManager.rollback_or_return r (Some old) p (canonical env p)
            (SnapshotManager.unlock_frame ref_tablet fr')) = Some (res, out, st') ->
    _snapshot_base_id st' = N.succ (_snapshot_base_id st)
    /\ (forall q x,
          at_or_under p q = false -> fs st !! q = Some x -> fs st' !! q = Some x)
    /\ exists links,
         trace st' =
         (trace st ++ EvRdLock (Tablet.tablet_id ref_tablet)
            :: EvUnlock (Tablet.tablet_id ref_tablet) :: links)%list
         /\ Forall is_link links).
  { intros r H. injection H as H.
    destruct (rollback_effects _ _ _ _ _ _ _ _ H) as (_ & R1 & R2 & R3).
    split; [congruence|]. split; [|by rewrite R2].
    intros q x Hq Hx. rewrite (R3 q Hq), U2.
    apply Hframe; [by apply outside_not_header|]. by apply Pf. }
  destruct o as [r|r|]; [apply Hfin|apply Hfin|discriminate].
Qed.

Lemma incremental_effects old res out st' :
  incremental_call old = Some (res, out, st') ->
  _snapshot_base_id st' = N.succ (_snapshot_base_id st)
  /\ (forall q x, at_or_under p q = false -> fs st !! q = Some x -> fs st' !! q = Some x)
  /\ (exists links,
        trace st' =
        (trace st ++ EvRdLock (Tablet.tablet_id ref_tablet) :: links
           ++ [EvUnlock (Tablet.tablet_id ref_tablet)])%list
        /\ Forall is_link links)
  /\ (res <> OLAP_SUCCESS -> out = Some old /\ absent_tree p st')
  /\ (res = OLAP_SUCCESS -> out = Some (canonical env p)).
Proof.
  rewrite (incremental_unfold env ref_tablet request time_str st old).
  pose proof (prepared_counter ref_tablet p st) as Pc.
  pose proof (prepared_trace ref_tablet p st) as Pt.
  pose proof (prepared_frame ref_tablet p st) as Pf.
  pose proof (prepared_present ref_tablet p st (snapshot_id_path_of_nonempty _ _ _))
    as Pp.
  fold p in Pc, Pt, Pf, Pp |- *.
  set (st0 := prepared ref_tablet p st) in *.
  destruct (SnapshotManager.create_incremental_body _ _ _ _ _) as [o st1] eqn:Hb.
  destruct (incremental_body_effects _ _ _ _ _ _ _ Hb)
    as (Hnf & Hc & Hframe & links & Ht & Hlinks).
  assert (Hfin : forall r,
    Some (SnapshotManager.rollback_or_return r (Some old) p (canonical env p)
            (release_header_lock ref_tablet st1)) = Some (res, out, st') ->
    _snapshot_base_id st' = N.succ (_snapshot_base_id st)
    /\ (forall q x,
          at_or_under p q = false -> fs st !! q = Some x -> fs st' !! q = Some x)
    /\ (exists links0,
          trace st' =
          (trace st ++ EvRdLock (Tablet.tablet_id ref_tablet) :: links0
             ++ [EvUnlock (Tablet.tablet_id ref_tablet)])%list
          /\ Forall is_link links0)
    /\ (res <> OLAP_SUCCESS -> out = Some old /\ absent_tree p st')
    /\ (res = OLAP_SUCCESS -> out = Some (canonical env p))).
  { intros r H. injection H as H.
    destruct (rollback_effects _ _ _ _ _ _ _ _ H) as (Hr & R1 & R2 & R3). subst r.
    split; [|split; [|split; [|split]]].
    - rewrite R1. unfold release_header_lock, log_event.
      cbn [_snapshot_base_id]. by rewrite Hc, Pc.
    - intros q x Hq Hx. rewrite (R3 q Hq). unfold release_header_lock, log_event.
      cbn [fs]. apply Hframe; [by apply outside_not_header|]. by apply Pf.
    - exists links. split; [|exact Hlinks]. rewrite R2.
      unfold release_header_lock, log_event. cbn [trace].
      rewrite Ht, Pt. by rewrite <- !app_assoc.
    - intros Hne.
      assert (Hp : present p (release_header_lock ref_tablet st1)).
      { destruct Pp as [x Hx].
        exists x. unfold release_header_lock, log_event. cbn [fs].
        apply Hframe; [|exact Hx].
        intros Heq. symmetry in Heq. by apply header_path_neq in Heq. }
      destruct (rollback_failure res (Some old) p (canonical env p) _ Hne Hp)
        as (st2 & Hr & Habs & _).
      rewrite Hr in H. by inversion H; subst.
    - intros ->. rewrite rollback_success in H. by inversion H. }
  destruct o as [r|r|]; [apply Hfin|apply Hfin|done].
Qed.

(** X6.  Whatever a construction returns, once its snapshot id path is
    allocated: every entry of the file system that is neither the snapshot id
    path nor inside of it is still there, with the same content; that holds
    for the full and for the incremental construction, on success and on
    failure. *)
Theorem construction_leaves_rest_alone old res out st' q x :
  full_call old = Some (res, out, st') \/ incremental_call old = Some (res, out, st') ->
  at_or_under p q = false ->
  fs st !! q = Some x ->
  fs st' !! q = Some x.
Proof.
  intros [H|H] Hq Hx.
  - by apply (proj1 (proj2 (full_effects old res out st' H))).
  - by apply (proj1 (proj2 (incremental_effects old res out st' H))).
Qed.

(** X7.  A construction whose time string was generated takes exactly one
    value of the counter, whether it succeeds or fails: the id of a snapshot
    that was rolled back is not given out again. *)
Theorem construction_consumes_one_id old res out st' :
  SnapshotManager._create_snapshot_files env (OLAP_SUCCESS, time_str) ref_tablet
    request (Some old) st = Some (res, out, st')
  \/ SnapshotManager._create_incremental_snapshot_files env (OLAP_SUCCESS, time_str)
       ref_tablet request (Some old) st = Some (res, out, st') ->
  _snapshot_base_id st' = N.succ (_snapshot_base_id st).
Proof.
  intros [H|H].
  - exact (proj1 (full_effects old res out st' H)).
  - exact (proj1 (incremental_effects old res out st' H)).
Qed.

(** X8.  A full construction takes the header read lock once and releases it
    exactly once, whatever the outcome; every hard link it makes is made
    after the lock was released. *)
Theorem full_snapshot_links_after_unlock old res out st' :
  full_call old = Some (res, out, st') ->
  exists links,
    trace st' =
    (trace st ++ EvRdLock (Tablet.tablet_id ref_tablet)
       :: EvUnlock (Tablet.tablet_id ref_tablet) :: links)%list
    /\ Forall is_link links.
Proof. intros H. exact (proj2 (proj2 (full_effects old res out st' H))). Qed.

(** X9.  An incremental construction takes the header read lock once and
    releases it exactly once, as its last step before the rollback, whatever
    the outcome; every hard link it makes is made while the lock is held. *)
Theorem incremental_snapshot_links_under_lock old res out st' :
  incremental_call old = Some (res, out, st') ->
  exists links,
    trace st' =
    (trace st ++ EvRdLock (Tablet.tablet_id ref_tablet) :: links
       ++ [EvUnlock (Tablet.tablet_id ref_tablet)])%list
    /\ Forall is_link links.
Proof.
  intros H. exact (proj1 (proj2 (proj2 (incremental_effects old res out st' H)))).
Qed.

(** X10.  An incremental construction that returns a failure, whatever step
    failed (loading the header, saving it, a missing version, a hard link),
    leaves the output parameter alone and nothing at or under the snapshot id
    path; one that returns success returns the canonicalized snapshot id
    path. *)
Theorem incremental_failure_rolls_back old res out st' :
  incremental_call old = Some (res, out, st') ->
  (res <> OLAP_SUCCESS -> out = Some old /\ absent_tree p st')
  /\ (res = OLAP_SUCCESS -> out = Some (canonical env p)).
Proof.
  intros H.
  exact (proj2 (proj2 (proj2 (incremental_effects old res out st' H)))).
Qed.

End CallEffects.

(** X11.  When [gen_timestamp_string] fails, both constructions return its
    status and change nothing: no directory is created, the counter keeps its
    value, the lock is not taken and the output parameter is left alone. *)
Theorem clock_failure_changes_nothing env e time_str ref_tablet request old st :
  e <> OLAP_SUCCESS ->
  SnapshotManager._create_snapshot_files env (e, time_str) ref_tablet request
    (Some old) st = Some (e, Some old, st)
  /\ SnapshotManager._create_incremental_snapshot_files env (e, time_str) ref_tablet
       request (Some old) st = Some (e, Some old, st).
Proof.
  intros He. apply is_success_false in He.
  unfold SnapshotManager._create_snapshot_files,
    SnapshotManager._create_incremental_snapshot_files,
    SnapshotManager._calc_snapshot_id_path.
  rewrite He. simpl. by rewrite He.
Qed.

Lemma find_none_all {A : Type} (f : A -> bool) (l : list A) :
  Forall (fun x => f x = false) l -> List.find f l = None.
Proof. induction 1 as [|x l Hx _ IH]; simpl; [done|]. by rewrite Hx. Qed.

(** X12.  [make_snapshot] for a tablet that the tablet manager does not know
    (no tablet with both the tablet id and the schema hash of the request)
    returns [OLAP_ERR_TABLE_NOT_FOUND]; with a null output parameter it
    returns [OLAP_ERR_INPUT_PARAMETER_ERROR] before looking for the tablet.
    In both cases the state and the request are unchanged: no id is taken
    and nothing is created. *)
Theorem make_snapshot_without_tablet env now request st :
  (Forall (fun t => Tablet.tablet_id t <> TSnapshotRequest.tablet_id request
                    \/ Tablet.schema_hash t <> TSnapshotRequest.schema_hash request)
     (tablets env) ->
   forall old,
     SnapshotManager.make_snapshot env now request (Some old) st
     = Some ((OLAP_ERR_TABLE_NOT_FOUND, Some old, st), request))
  /\ SnapshotManager.make_snapshot env now request None st
     = Some ((OLAP_ERR_INPUT_PARAMETER_ERROR, None, st), request).
Proof.
  split; [|reflexivity]. intros Hnone old.
  unfold SnapshotManager.make_snapshot, get_tablet.
  rewrite find_none_all; [reflexivity|].
  eapply Forall_impl; [exact Hnone|]. intros t [H|H]; simpl.
  - apply andb_false_intro1. by apply Z.eqb_neq.
  - apply andb_false_intro2. by apply Z.eqb_neq.
Qed.


(** ** The missing versions of an incremental snapshot *)

Lemma link_missing_versions_all env ref_tablet dir versions st :
  all_link env ref_tablet dir versions ->
  exists st',
    SnapshotManager.link_missing_versions env ref_tablet dir OLAP_SUCCESS versions st
      = (OLAP_SUCCESS, st')
    /\ trace st' = (trace st ++ link_events ref_tablet dir versions)%list.
Proof.
  intros Hall. revert st.
  induction Hall as [|u pre (rs & Hu & Hok) _ IH]; intros st; simpl.
  - exists st. split; [done|]. unfold link_events. simpl. by rewrite app_nil_r.
  - rewrite Hu. destruct (Rowset_make_snapshot env rs dir st) as [r st1] eqn:E.
    destruct (Rowset_make_snapshot_spec _ _ _ _ _ _ E) as (-> & _ & _ & Ht).
    rewrite Hok. simpl. destruct (IH st1) as (st' & Heq & Htr).
    exists st'. split; [exact Heq|].
    rewrite Htr, Ht. unfold link_events. simpl. rewrite Hu. simpl.
    by rewrite <- app_assoc.
Qed.

Lemma link_missing_versions_success env ref_tablet dir res0 versions st st' :
  SnapshotManager.link_missing_versions env ref_tablet dir res0 versions st
    = (OLAP_SUCCESS, st') ->
  all_link env ref_tablet dir versions.
Proof.
  revert st res0. induction versions as [|v versions IH]; intros st res0; simpl.
  - intros _. constructor.
  - destruct (Tablet.get_rowset_by_version ref_tablet (v, v)) as [rs|] eqn:Hv;
      [|discriminate].
    destruct (Rowset_make_snapshot env rs dir st) as [r st1] eqn:E.
    destruct (Rowset_make_snapshot_spec _ _ _ _ _ _ E) as (Hr & _).
    destruct (is_success r) eqn:Er; simpl.
    + intros H. apply is_success_true in Er. constructor; [|by eapply IH].
      exists rs. split; [done|congruence].
    + intros H; inversion H; subst. by rewrite H1 in Er.
Qed.

(** A rowset that is found fails to link after the versions before it were
    linked. *)
Lemma link_missing_versions_link_fails env ref_tablet dir res0 pre v rs post e st :
  all_link env ref_tablet dir pre ->
  Tablet.get_rowset_by_version ref_tablet (v, v) = Some rs ->
  (rowset_make_snapshot env rs dir).1 = e -> e <> OLAP_SUCCESS ->
  exists st',
    SnapshotManager.link_missing_versions env ref_tablet dir res0 (pre ++ v :: post) st
      = (e, st')
    /\ trace st' =
         (trace st ++ link_events ref_tablet dir pre
            ++ [EvLink (RowsetMeta.rowset_id (Rowset.rowset_meta rs)) dir])%list.
Proof.
  intros Hpre Hv He Hne. revert st res0.
  induction Hpre as [|u pre (rs' & Hu & Hok) _ IH]; intros st res0; simpl.
  - rewrite Hv. destruct (Rowset_make_snapshot env rs dir st) as [r st1] eqn:E.
    destruct (Rowset_make_snapshot_spec _ _ _ _ _ _ E) as (-> & _ & _ & Ht).
    rewrite He. rewrite (proj2 (is_success_false e) Hne). simpl.
    exists st1. split; [done|exact Ht].
  - rewrite Hu. destruct (Rowset_make_snapshot env rs' dir st) as [r st1] eqn:E.
    destruct (Rowset_make_snapshot_spec _ _ _ _ _ _ E) as (-> & _ & _ & Ht).
    rewrite Hok. simpl. destruct (IH st1 OLAP_SUCCESS) as (st' & Heq & Htr).
    exists st'. split; [exact Heq|].
    rewrite Htr, Ht. unfold link_events. simpl. rewrite Hu. simpl.
    by rewrite <- !app_assoc.
Qed.

Section IncrementalVersions.
Variable env : Env.
Variable ref_tablet : Tablet.t.
Variable request : TSnapshotRequest.t.
Variable time_str : string.
Variable st : State.

Let p : string :=
  snapshot_id_path_of (Tablet.storage_root_path_name ref_tablet) time_str
    (_snapshot_base_id st).
Let dir : string := SnapshotManager.get_schema_hash_full_path ref_tablet p.
Let header_path : string := SnapshotManager._get_header_full_path ref_tablet dir.
Let loaded : OLAPStatus * TabletMeta.t :=
  get_header env (Tablet.data_dir ref_tablet) (Tablet.tablet_id ref_tablet)
    (Tablet.schema_hash ref_tablet).

Local Abbreviation incremental_call old :=
  (SnapshotManager._create_incremental_snapshot_files env (OLAP_SUCCESS, time_str)
     ref_tablet request (Some old) st).

(** The body when the header cannot be loaded or saved. *)
Lemma incremental_body_header_fails st0 :
  loaded.1 <> OLAP_SUCCESS \/ save env loaded.2 header_path <> OLAP_SUCCESS ->
  exists e st1,
    e <> OLAP_SUCCESS
    /\ SnapshotManager.create_incremental_body env ref_tablet request dir st0
       = (Break e, st1).
Proof.
  unfold SnapshotManager.create_incremental_body.
  fold dir. fold header_path. fold loaded. destruct loaded as [r m]. simpl.
  unfold mbind, Body_bind, break_unless_success, mret, Body_ret, call, break_with,
    modify, TabletMeta_save. cbv zeta.
  intros Hfail. destruct (is_success r) eqn:Er; simpl.
  - apply is_success_true in Er. destruct Hfail as [Hfail|Hfail]; [done|].
    destruct (save env m header_path) eqn:Hs; [done|..]; simpl;
      eexists _, _; (split; [|reflexivity]); done.
  - apply is_success_false in Er. by eexists _, _.
Qed.

(** X14.  An incremental construction succeeds exactly when the header is
    loaded and saved and every missing version has a rowset with exactly that
    version whose files link; the hard links made are then those of the
    missing versions, one per version, in the order of the request.  With an
    empty list of missing versions the snapshot holds the header only. *)
Theorem incremental_success_exactly old :
  ((exists out st', incremental_call old = Some (OLAP_SUCCESS, out, st'))
   <-> loaded.1 = OLAP_SUCCESS
       /\ save env loaded.2 header_path = OLAP_SUCCESS
       /\ all_link env ref_tablet dir (TSnapshotRequest.missing_version request))
  /\ (forall out st',
        incremental_call old = Some (OLAP_SUCCESS, out, st') ->
        trace st' =
        (trace st ++ [EvRdLock (Tablet.tablet_id ref_tablet)]
           ++ link_events ref_tablet dir (TSnapshotRequest.missing_version request)
           ++ [EvUnlock (Tablet.tablet_id ref_tablet)])%list).
Proof.
  assert (Hinv : forall out st',
    incremental_call old = Some (OLAP_SUCCESS, out, st') ->
    (loaded.1 = OLAP_SUCCESS /\ save env loaded.2 header_path = OLAP_SUCCESS)
    /\ all_link env ref_tablet dir (TSnapshotRequest.missing_version request)).
  { intros out st' H.
    assert (Hok : loaded.1 = OLAP_SUCCESS /\ save env loaded.2 header_path = OLAP_SUCCESS).
    { destruct (decide (loaded.1 = OLAP_SUCCESS)) as [H1|H1];
        [destruct (decide (save env loaded.2 header_path = OLAP_SUCCESS)) as [H2|H2]|];
        [done| |].
      - exfalso. rewrite incremental_unfold in H.
        destruct (incremental_body_header_fails (prepared ref_tablet p st)
                    (or_intror H2)) as (e & st1 & He & Hb).
        fold p dir in H. rewrite Hb in H.
        unfold SnapshotManager.rollback_or_return in H.
        rewrite (proj2 (is_success_false e) He) in H. simpl in H. congruence.
      - exfalso. rewrite incremental_unfold in H.
        destruct (incremental_body_header_fails (prepared ref_tablet p st)
                    (or_introl H1)) as (e & st1 & He & Hb).
        fold p dir in H. rewrite Hb in H.
        unfold SnapshotManager.rollback_or_return in H.
        rewrite (proj2 (is_success_false e) He) in H. simpl in H. congruence. }
    split; [exact Hok|]. destruct Hok as [H1 H2].
    rewrite incremental_unfold in H.
    rewrite (incremental_body_linking env ref_tablet request time_str st H1 H2) in H.
    destruct (SnapshotManager.link_missing_versions _ _ _ _ _ _) as [rl st1] eqn:Hl.
    assert (rl = OLAP_SUCCESS).
    { unfold SnapshotManager.rollback_or_return in H.
      destruct (negb (is_success rl)); by inversion H. }
    subst rl. by eapply link_missing_versions_success. }
  assert (Hrun :
    loaded.1 = OLAP_SUCCESS ->
    save env loaded.2 header_path = OLAP_SUCCESS ->
    all_link env ref_tablet dir (TSnapshotRequest.missing_version request) ->
    exists st',
      incremental_call old = Some (OLAP_SUCCESS, Some (canonical env p), st')
      /\ trace st' =
         (trace st ++ [EvRdLock (Tablet.tablet_id ref_tablet)]
            ++ link_events ref_tablet dir (TSnapshotRequest.missing_version request)
            ++ [EvUnlock (Tablet.tablet_id ref_tablet)])%list).
  { intros H1 H2 Hall. rewrite incremental_unfold.
    rewrite (incremental_body_linking env ref_tablet request time_str st H1 H2).
    destruct (link_missing_versions_all env ref_tablet dir
                (TSnapshotRequest.missing_version request)
                (set_fs (<[header_path := HeaderFile loaded.2]>)
                   (prepared ref_tablet p st)) Hall) as (st1 & Heq & Htr).
    fold p dir header_path loaded. rewrite Heq. rewrite rollback_success.
    eexists. split; [reflexivity|].
    unfold release_header_lock, log_event. cbn [trace]. rewrite Htr.
    unfold set_fs. cbn [trace]. rewrite prepared_trace. by rewrite <- !app_assoc. }
  split.
  - split.
    + intros (out & st' & H). destruct (Hinv out st' H) as [[H1 H2] H3]. done.
    + intros (H1 & H2 & H3). destruct (Hrun H1 H2 H3) as (st' & Hc & _). eauto.
  - intros out st' H. destruct (Hinv out st' H) as [[H1 H2] H3].
    destruct (Hrun H1 H2 H3) as (st'' & Hc & Htr). rewrite Hc in H.
    by inversion H; subst.
Qed.

(** X15.  In an incremental construction with the header loaded and saved,
    when the versions before [v] are linked and the rowset of [v] is found
    but fails to link with status [e]: the call returns [e] (not the
    version-not-exist status), the versions after [v] are not looked at, and
    nothing is left at or under the snapshot id path. *)
Theorem incremental_link_failure old pre v rs post e :
  TSnapshotRequest.missing_version request = (pre ++ v :: post)%list ->
  loaded.1 = OLAP_SUCCESS ->
  save env loaded.2 header_path = OLAP_SUCCESS ->
  all_link env ref_tablet dir pre ->
  Tablet.get_rowset_by_version ref_tablet (v, v) = Some rs ->
  (rowset_make_snapshot env rs dir).1 = e ->
  e <> OLAP_SUCCESS ->
  exists st',
    incremental_call old = Some (e, Some old, st')
    /\ absent_tree p st'
    /\ trace st' =
         (trace st ++ [EvRdLock (Tablet.tablet_id ref_tablet)]
            ++ link_events ref_tablet dir pre
            ++ [EvLink (RowsetMeta.rowset_id (Rowset.rowset_meta rs)) dir;
                EvUnlock (Tablet.tablet_id ref_tablet)])%list.
Proof.
  intros Hmv H1 H2 Hpre Hv He Hne.
  destruct (link_missing_versions_link_fails env ref_tablet dir OLAP_SUCCESS pre v rs
              post e
              (set_fs (<[header_path := HeaderFile loaded.2]>) (prepared ref_tablet p st))
              Hpre Hv He Hne) as (st1 & Heq & Htr).
  rewrite incremental_unfold.
  rewrite (incremental_body_linking env ref_tablet request time_str st H1 H2), Hmv.
  fold p dir header_path loaded. rewrite Heq.
  destruct (link_missing_versions_effects _ _ _ _ _ _ _ _ Heq) as (Hsub & _).
  assert (Hp : present p (release_header_lock ref_tablet st1)).
  { unfold release_header_lock, log_event, present. cbn [fs].
    eapply subseteq_is_Some; [exact Hsub|]. unfold set_fs. cbn [fs].
    rewrite lookup_insert_is_Some. right. split.
    - apply header_path_neq.
    - apply prepared_present, snapshot_id_path_of_nonempty. }
  destruct (rollback_failure e (Some old) p (canonical env p) _ Hne Hp)
    as (st' & Hr & Habs & Htr' & _).
  exists st'. rewrite Hr. split; [done|]. split; [exact Habs|].
  rewrite Htr'. unfold release_header_lock, log_event. cbn [trace].
  rewrite Htr. unfold set_fs. cbn [trace]. rewrite prepared_trace.
  rewrite <- !app_assoc. reflexivity.
Qed.

End IncrementalVersions.

(** ** What a successful full snapshot holds *)

Lemma fold_link_file_lookup rid dir names (fs0 : gmap string node) name :
  In name names ->
  is_Some (fold_left (link_file rid dir) names fs0 !! (dir +:+ "/" +:+ name)).
Proof.
  revert fs0. induction names as [|n names IH]; intros fs0; simpl; [done|].
  intros [->|Hin]; [|by apply IH].
  eapply subseteq_is_Some; [apply fold_link_file_subseteq|].
  unfold link_file. destruct (fs0 !! _) eqn:E.
  - rewrite E. eauto.
  - rewrite lookup_insert_eq. eauto.
Qed.

Lemma link_index_and_data_files_present env dir ref_tablet rowsets st st' rs name :
  SnapshotManager._link_index_and_data_files env dir ref_tablet rowsets st
    = (OLAP_SUCCESS, st') ->
  In rs rowsets ->
  In name (rowset_make_snapshot env rs dir).2 ->
  present (dir +:+ "/" +:+ name) st'.
Proof.
  revert st. induction rowsets as [|r rowsets IH]; intros st; simpl; [done|].
  destruct (Rowset_make_snapshot env r dir st) as [res st1] eqn:E.
  destruct (is_success res) eqn:Er; [|intros H; inversion H; subst; done].
  intros H [->|Hin] Hname; [|by eapply IH].
  destruct (link_index_and_data_files_effects _ _ _ _ _ _ _ H) as (Hsub & _).
  eapply present_weaken; [exact Hsub|].
  unfold Rowset_make_snapshot in E.
  destruct (rowset_make_snapshot env rs dir) as [r0 files]. inversion E; subst.
  unfold present, log_event, set_fs. cbn [fs]. by apply fold_link_file_lookup.
Qed.

(** X16.  After a full construction that succeeds, the snapshot directory
    holds, for the cover [cover] that was captured: the snapshot id
    directory, the schema hash directory, the header file, and for every
    rowset of the cover every file that its [make_snapshot] reported as
    linked. *)
Theorem full_snapshot_contents env ref_tablet request time_str st old out st' :
  let p :=
    snapshot_id_path_of (Tablet.storage_root_path_name ref_tablet) time_str
      (_snapshot_base_id st) in
  let dir := SnapshotManager.get_schema_hash_full_path ref_tablet p in
  let header_path := SnapshotManager._get_header_full_path ref_tablet dir in
  SnapshotManager._create_snapshot_files env (OLAP_SUCCESS, time_str) ref_tablet
    request (Some old) st = Some (OLAP_SUCCESS, out, st') ->
  exists v cover m,
    linked_ok env ref_tablet request dir header_path v cover m
    /\ present p st'
    /\ present dir st'
    /\ present header_path st'
    /\ forall rs name,
         In rs cover -> In name (rowset_make_snapshot env rs dir).2 ->
         present (dir +:+ "/" +:+ name) st'.
Proof.
  intros p dir header_path. rewrite full_unfold. fold p dir header_path.
  destruct (SnapshotManager.create_snapshot_body _ _ _ _ _ _) as [o fr'] eqn:Hb.
  pose proof (body_outcome _ _ _ _ _ _ _ _ Hb) as Ho.
  destruct o as [r|r|]; [| |discriminate].
  2:{ pose proof (step_failure_ne _ _ _ _ _ _ Ho) as Hne.
      unfold SnapshotManager.rollback_or_return.
      rewrite (proj2 (is_success_false r) Hne). simpl. intros H; inversion H.
      congruence. }
  destruct Ho as (v & cover & m & Hlinked & Hunl & Hlink & _).
  intros H. injection H as H.
  assert (Hr : r = OLAP_SUCCESS).
  { unfold SnapshotManager.rollback_or_return in H.
    destruct (negb (is_success r)); by inversion H. }
  subst r. rewrite rollback_success in H. inversion H; subst.
  unfold SnapshotManager.unlock_frame. rewrite Hunl.
  destruct (link_index_and_data_files_effects _ _ _ _ _ _ _ Hlink) as (Hsub & _).
  cbn [SnapshotManager.state] in Hlink, Hsub.
  assert (Hkeep : forall q,
            present q (prepared ref_tablet p st) ->
            present q (SnapshotManager.state fr')).
  { intros q Hq. eapply present_weaken; [exact Hsub|].
    unfold present, after_save, set_fs, release_header_lock, log_event. cbn [fs].
    rewrite lookup_insert_is_Some. destruct (decide (header_path = q)); auto. }
  exists v, cover, m. split; [exact Hlinked|]. split; [|split; [|split]].
  - apply Hkeep, prepared_present, snapshot_id_path_of_nonempty.
  - apply Hkeep, prepared_schema_dir.
  - eapply present_weaken; [exact Hsub|].
    unfold present, after_save, set_fs. cbn [fs]. rewrite lookup_insert_eq. eauto.
  - intros rs name Hrs Hname.
    by eapply link_index_and_data_files_present.
Qed.

(** ** Releasing, in full *)

Lemma accepted_iff env snapshot_path :
  accepted env snapshot_path = true
  <-> exists store rest,
        In store (stores env)
        /\ snapshot_path = canonical env store +:+ SNAPSHOT_PREFIX +:+ rest.
Proof.
  unfold accepted. rewrite existsb_exists. split.
  - intros (store & Hin & Hp). destruct (prefix_split _ _ Hp) as [rest ->].
    exists store, rest. by rewrite append_assoc.
  - intros (store & rest & Hin & ->). exists store. split; [done|].
    rewrite <- append_assoc. apply prefix_append.
Qed.

(** X17.  What a call of [release_snapshot] that returns has done, for a path
    that is canonical as it is written (no [.] or [..] component and no link
    on the way, so that the tree that is removed is the one the text names).
    The status is [OLAP_SUCCESS] exactly when the text of the path starts with
    the canonical path of a registered store followed by [SNAPSHOT_PREFIX],
    and [OLAP_ERR_CE_CMD_PARAMS_ERROR] otherwise.  On success nothing is left
    at or under the path and every other entry is unchanged; otherwise the
    state is unchanged.  The counter and the trace are unchanged in both
    cases. *)
Theorem release_snapshot_behaviour env snapshot_path st res st' :
  canonical env snapshot_path = snapshot_path ->
  SnapshotManager.release_snapshot env snapshot_path st = Some (res, st') ->
  (res = OLAP_SUCCESS \/ res = OLAP_ERR_CE_CMD_PARAMS_ERROR)
  /\ (res = OLAP_SUCCESS
      <-> exists store rest,
            In store (stores env)
            /\ snapshot_path = canonical env store +:+ SNAPSHOT_PREFIX +:+ rest)
  /\ (res = OLAP_SUCCESS ->
      absent_tree snapshot_path st'
      /\ forall q, at_or_under snapshot_path q = false -> fs st' !! q = fs st !! q)
  /\ (res <> OLAP_SUCCESS -> st' = st)
  /\ _snapshot_base_id st' = _snapshot_base_id st
  /\ trace st' = trace st.
Proof.
  intros _. rewrite release_snapshot_spec.
  pose proof (accepted_iff env snapshot_path) as Hacc.
  destruct (accepted env snapshot_path); intros H; inversion H; subst.
  - split; [by left|]. split; [split; [intros _; by apply Hacc|done]|].
    split; [|done].
    intros _. split; [apply remove_all_dir_absent|].
    intros q Hq. by apply remove_all_dir_other.
  - split; [by right|]. split.
    { split; [discriminate|]. intros H0. apply Hacc in H0. discriminate. }
    split; [discriminate|]. done.
Qed.

(** X18.  A snapshot can be released: when the storage root of the tablet is
    the canonical path of a registered store and the snapshot id path is
    canonical already, the path that a successful [make_snapshot] returns,
    full or incremental, is accepted by [release_snapshot], which then leaves
    nothing at or under it, the header file included, and keeps every other
    entry. *)
Theorem made_snapshot_is_released env request time_str st old ref_tablet store
    path st' request' :
  let p :=
    snapshot_id_path_of (Tablet.storage_root_path_name ref_tablet) time_str
      (_snapshot_base_id st) in
  get_tablet env (TSnapshotRequest.tablet_id request)
    (TSnapshotRequest.schema_hash request) = Some ref_tablet ->
  In store (stores env) ->
  canonical env store = Tablet.storage_root_path_name ref_tablet ->
  canonical env p = p ->
  SnapshotManager.make_snapshot env (OLAP_SUCCESS, time_str) request (Some old) st
    = Some ((OLAP_SUCCESS, Some path, st'), request') ->
  path = p
  /\ exists st'',
       SnapshotManager.release_snapshot env path st' = Some (OLAP_SUCCESS, st'')
       /\ absent_tree path st''
       /\ fs st'' !! SnapshotManager._get_header_full_path ref_tablet
                       (SnapshotManager.get_schema_hash_full_path ref_tablet p) = None
       /\ forall q, at_or_under path q = false -> fs st'' !! q = fs st' !! q.
Proof.
  intros p Hget Hin Hroot Hcanon Hmake.
  assert (Hpath : path = p).
  { unfold SnapshotManager.make_snapshot in Hmake. rewrite Hget in Hmake.
    destruct (TSnapshotRequest.__isset_missing_version request).
    - destruct (SnapshotManager._create_incremental_snapshot_files _ _ _ _ _ _)
        as [[[r o] s1]|] eqn:E; simpl in Hmake; [|discriminate].
      inversion Hmake; subst.
      destruct (incremental_effects _ _ _ _ _ _ _ _ _ E) as (_ & _ & _ & _ & Hs).
      specialize (Hs eq_refl). fold p in Hs. congruence.
    - destruct (SnapshotManager._create_snapshot_files _ _ _ _ _ _)
        as [[[r o] s1]|] eqn:E; simpl in Hmake; [|discriminate].
      inversion Hmake; subst.
      destruct (proj2 (full_inversion _ _ _ _ _ _ _ _ _ E) eq_refl) as (Hs & _).
      fold p in Hs. congruence. }
  split; [exact Hpath|]. subst path.
  rewrite release_snapshot_spec.
  assert (Hacc : accepted env p = true).
  { apply accepted_iff. exists store. eexists. split; [exact Hin|].
    rewrite Hroot. unfold p, snapshot_id_path_of. reflexivity. }
  rewrite Hacc. eexists. split; [reflexivity|]. split; [apply remove_all_dir_absent|].
  split.
  - apply remove_all_dir_absent, header_path_inside.
  - intros q Hq. by apply remove_all_dir_other.
Qed.

(** ** Leftovers of an earlier attempt *)








(** X20.  What a call of [make_snapshot] that returns has done, for a tablet
    that is found.  With missing versions in the request the result is that
    of the incremental construction alone (a full one is not tried when it
    fails), and the request is marked as allowing an incremental clone
    whether the snapshot was made or not, its other fields unchanged.
    Without missing versions the result is that of the full construction and
    the request is as it was. *)
Theorem make_snapshot_marks_request env now request old st ref_tablet r request' :
  get_tablet env (TSnapshotRequest.tablet_id request)
    (TSnapshotRequest.schema_hash request) = Some ref_tablet ->
  SnapshotManager.make_snapshot env now request (Some old) st = Some (r, request') ->
  if TSnapshotRequest.__isset_missing_version request
  then
    SnapshotManager._create_incremental_snapshot_files env now ref_tablet request
      (Some old) st = Some r
    /\ TSnapshotRequest.allow_incremental_clone request' = true
    /\ TSnapshotRequest.__isset_allow_incremental_clone request' = true
    /\ TSnapshotRequest.missing_version request'
       = TSnapshotRequest.missing_version request
    /\ TSnapshotRequest.__isset_missing_version request' = true
    /\ TSnapshotRequest.version request' = TSnapshotRequest.version request
    /\ TSnapshotRequest.version_hash request' = TSnapshotRequest.version_hash request
    /\ TSnapshotRequest.__isset_version request'
       = TSnapshotRequest.__isset_version request
    /\ TSnapshotRequest.tablet_id request' = TSnapshotRequest.tablet_id request
    /\ TSnapshotRequest.schema_hash request' = TSnapshotRequest.schema_hash request
  else
    SnapshotManager._create_snapshot_files env now ref_tablet request (Some old) st
    = Some r
    /\ request' = request.
Proof.
  intros Hget. unfold SnapshotManager.make_snapshot. rewrite Hget.
  destruct (TSnapshotRequest.__isset_missing_version request) eqn:Hmode.
  - destruct (SnapshotManager._create_incremental_snapshot_files _ _ _ _ _ _)
      as [r0|]; simpl; [|discriminate].
    intros H; inversion H; subst. by repeat split.
  - destruct (SnapshotManager._create_snapshot_files _ _ _ _ _ _) as [r0|]; simpl;
      [|discriminate].
    intros H; by inversion H.
Qed.

(** ** The further properties at work *)

Module SchemaScenario.

(** Field types by their names; [double] values as their bits. *)
Definition fresh : @TabletColumn.t string :=
  {| TabletColumn._unique_id := 0;
     TabletColumn._col_name := "";
     TabletColumn._type := "";
     TabletColumn._is_key := false;
     TabletColumn._is_nullable := false;
     TabletColumn._has_default_value := false;
     TabletColumn._default_value := "";
     TabletColumn._is_decimal := false;
     TabletColumn._precision := 0;
     TabletColumn._frac := 0;
     TabletColumn._length := 0;
     TabletColumn._index_length := 0;
     TabletColumn._is_bf_column := false;
     TabletColumn._has_referenced_column := false;
     TabletColumn._referenced_column_id := 0 |}.

(** What an earlier use of the same storage left behind: the members of a
    decimal column. *)
Definition leftover : @TabletColumn.t string :=
  {| TabletColumn._unique_id := 9;
     TabletColumn._col_name := "";
     TabletColumn._type := "DECIMAL";
     TabletColumn._is_key := true;
     TabletColumn._is_nullable := true;
     TabletColumn._has_default_value := true;
     TabletColumn._default_value := "";
     TabletColumn._is_decimal := true;
     TabletColumn._precision := 27;
     TabletColumn._frac := 3;
     TabletColumn._length := 12;
     TabletColumn._index_length := 12;
     TabletColumn._is_bf_column := true;
     TabletColumn._has_referenced_column := true;
     TabletColumn._referenced_column_id := 5 |}.

(** The objects that the iterations of a call start from: the first one is
    [fresh], the later ones hold what was left behind. *)
Definition fresh_at (i : nat) : @TabletColumn.t string :=
  match i with
  | O => fresh
  | S _ => leftover
  end.

Definition key_column : TabletColumn.ColumnPB :=
  {| TabletColumn.pb_unique_id := 1;
     TabletColumn.pb_name := "k";
     TabletColumn.pb_type := "INT";
     TabletColumn.pb_is_key := true;
     TabletColumn.pb_is_nullable := false;
     TabletColumn.pb_default_value := None;
     TabletColumn.pb_precision := None;
     TabletColumn.pb_frac := None;
     TabletColumn.pb_length := 4;
     TabletColumn.pb_is_bf_column := false;
     TabletColumn.pb_referenced_column_id := None |}.

Definition decimal_column : TabletColumn.ColumnPB :=
  {| TabletColumn.pb_unique_id := 2;
     TabletColumn.pb_name := "v";
     TabletColumn.pb_type := "DECIMAL";
     TabletColumn.pb_is_key := false;
     TabletColumn.pb_is_nullable := true;
     TabletColumn.pb_default_value := Some "0";
     TabletColumn.pb_precision := Some 27;
     TabletColumn.pb_frac := Some 9;
     TabletColumn.pb_length := 12;
     TabletColumn.pb_is_bf_column := false;
     TabletColumn.pb_referenced_column_id := None |}.

Definition message : @TabletSchema.TabletSchemaPB Z :=
  {| TabletSchema.pb_column := [key_column; decimal_column];
     TabletSchema.pb_num_short_key_columns := 1;
     TabletSchema.pb_num_rows_per_row_block := 1024;
     TabletSchema.pb_keys_type := 0;
     TabletSchema.pb_compress_kind := 1;
     TabletSchema.pb_next_column_unique_id := 3;
     TabletSchema.pb_bf_fpp := None |}.

Definition blank : @TabletSchema.t string Z :=
  {| TabletSchema._cols := [];
     TabletSchema._num_columns := 0;
     TabletSchema._num_key_columns := 0;
     TabletSchema._num_null_columns := 0;
     TabletSchema._num_short_key_columns := 0;
     TabletSchema._num_rows_per_row_block := 0;
     TabletSchema._keys_type := 0;
     TabletSchema._compress_kind := 0;
     TabletSchema._next_column_unique_id := 0;
     TabletSchema._bf_fpp := 0 |}.

(** The schema read from [message]. *)
Definition schema : @TabletSchema.t string Z :=
  (TabletSchema.init_from_pb (fun s => s) 5 fresh_at (TabletSchema.ctor blank) message).2.

End SchemaScenario.

Lemma column_read_then_written_witness :
  TabletColumn.pb_precision SchemaScenario.decimal_column = Some 27
  /\ TabletColumn.pb_precision
       (TabletColumn.out_fields
          (TabletColumn.to_schema_pb (fun s => s)
             (TabletColumn.init_from_pb (fun s => s) SchemaScenario.fresh
                SchemaScenario.decimal_column).2 TabletColumn.empty_ColumnPB).2)
     = Some 9
  /\ TabletColumn.pb_frac
       (TabletColumn.out_fields
          (TabletColumn.to_schema_pb (fun s => s)
             (TabletColumn.init_from_pb (fun s => s) SchemaScenario.fresh
                SchemaScenario.decimal_column).2 TabletColumn.empty_ColumnPB).2)
     = Some 0.
Proof.
  split; [reflexivity|].
  exact (proj2 (column_read_then_written (fun s => s) (fun s => s)
                  SchemaScenario.fresh SchemaScenario.decimal_column) 27 eq_refl).
Defined.

Lemma schema_written_then_read_witness :
  TabletSchema.counters_consistent SchemaScenario.schema
  /\ TabletSchema._num_key_columns
       (TabletSchema.init_from_pb (fun s => s) 5 SchemaScenario.fresh_at
          (TabletSchema.ctor SchemaScenario.blank)
          (TabletSchema.as_read
             (TabletSchema.to_schema_pb (fun s => s) SchemaScenario.schema
                empty_TabletSchemaPB).2)).2
     = 1%nat.
Proof.
  assert (H : TabletSchema.counters_consistent SchemaScenario.schema)
    by (repeat split).
  split; [exact H|].
  exact (proj1 (proj2 (proj2 (schema_written_then_read (fun s => s) (fun s => s) 5
                                SchemaScenario.fresh_at SchemaScenario.blank
                                SchemaScenario.schema H)))).
Defined.

Lemma init_from_pb_appends_witness :
  TabletSchema.counters_consistent
    (TabletSchema.init_from_pb (fun s => s) 5 SchemaScenario.fresh_at
       SchemaScenario.schema SchemaScenario.message).2
  /\ TabletSchema._num_columns
       (TabletSchema.init_from_pb (fun s => s) 5 SchemaScenario.fresh_at
          SchemaScenario.schema SchemaScenario.message).2 = 4%nat.
Proof.
  split.
  - apply (proj1 (proj2 (proj2 (init_from_pb_appends (fun s => s) 5
                                  SchemaScenario.fresh_at SchemaScenario.schema
                                  SchemaScenario.message SchemaScenario.fresh_at)))).
    repeat split.
  - exact (proj1 (proj2 (init_from_pb_appends (fun s => s) 5 SchemaScenario.fresh_at
                           SchemaScenario.schema SchemaScenario.message
                           SchemaScenario.fresh_at))).
Defined.

Lemma row_size_of_message_witness :
  TabletSchema.row_size (2 ^ 64 - 1) SchemaScenario.schema = 17.
Proof.
  refine (row_size_of_message (fun s => s) 5 SchemaScenario.fresh_at (2 ^ 64 - 1)
            SchemaScenario.blank SchemaScenario.message _ _ _).
  - repeat constructor; simpl; lia.
  - simpl. lia.
  - vm_compute. discriminate.
Defined.

(** A call on the scenario is run first, then the theorem is applied to what
    it returned. *)
Ltac run_call call :=
  let H := fresh "Hcall" in
  assert (H : exists res out st', call = Some (res, out, st'))
    by (eexists _, _, _; vm_compute; reflexivity);
  destruct H as (res & out & st' & H).

Lemma construction_leaves_rest_alone_witness :
  exists res out st',
    SnapshotManager._create_snapshot_files Scenario.env Scenario.now Scenario.tablet
      (Scenario.mk_request 7 None None) (Some "") Scenario.st0 = Some (res, out, st')
    /\ fs st' !! "/data/snapshot_backup/x" = Some (DataFile 0).
Proof.
  run_call (SnapshotManager._create_snapshot_files Scenario.env Scenario.now
              Scenario.tablet (Scenario.mk_request 7 None None) (Some "") Scenario.st0).
  exists res, out, st'. split; [exact Hcall|].
  refine (construction_leaves_rest_alone Scenario.env Scenario.tablet
            (Scenario.mk_request 7 None None) "20190101120000" Scenario.st0 ""
            res out st' _ _ (or_introl Hcall) _ _); reflexivity.
Defined.

Lemma construction_consumes_one_id_witness :
  exists res out st',
    SnapshotManager._create_incremental_snapshot_files Scenario.env Scenario.now
      Scenario.tablet (Scenario.mk_request 7 None (Some [99])) (Some "") Scenario.st0
    = Some (res, out, st')
    /\ _snapshot_base_id st' = 1%N.
Proof.
  run_call (SnapshotManager._create_incremental_snapshot_files Scenario.env
              Scenario.now Scenario.tablet (Scenario.mk_request 7 None (Some [99]))
              (Some "") Scenario.st0).
  exists res, out, st'. split; [exact Hcall|].
  exact (construction_consumes_one_id Scenario.env Scenario.tablet
           (Scenario.mk_request 7 None (Some [99])) "20190101120000" Scenario.st0 ""
           res out st' (or_intror Hcall)).
Defined.

Lemma full_snapshot_links_after_unlock_witness :
  exists res out st' links,
    SnapshotManager._create_snapshot_files Scenario.env Scenario.now Scenario.tablet
      (Scenario.mk_request 7 None None) (Some "") Scenario.st0 = Some (res, out, st')
    /\ trace st' = (EvRdLock 7 :: EvUnlock 7 :: links)%list
    /\ Forall is_link links.
Proof.
  run_call (SnapshotManager._create_snapshot_files Scenario.env Scenario.now
              Scenario.tablet (Scenario.mk_request 7 None None) (Some "") Scenario.st0).
  destruct (full_snapshot_links_after_unlock Scenario.env Scenario.tablet
              (Scenario.mk_request 7 None None) "20190101120000" Scenario.st0 ""
              res out st' Hcall) as (links & Ht & Hl).
  exists res, out, st', links. split; [exact Hcall|]. split; [exact Ht|exact Hl].
Defined.

Lemma incremental_snapshot_links_under_lock_witness :
  exists res out st' links,
    SnapshotManager._create_incremental_snapshot_files Scenario.env Scenario.now
      Scenario.tablet (Scenario.mk_request 7 None (Some [11])) (Some "") Scenario.st0
    = Some (res, out, st')
    /\ trace st' = (EvRdLock 7 :: links ++ [EvUnlock 7])%list
    /\ Forall is_link links.
Proof.
  run_call (SnapshotManager._create_incremental_snapshot_files Scenario.env
              Scenario.now Scenario.tablet (Scenario.mk_request 7 None (Some [11]))
              (Some "") Scenario.st0).
  destruct (incremental_snapshot_links_under_lock Scenario.env Scenario.tablet
              (Scenario.mk_request 7 None (Some [11])) "20190101120000" Scenario.st0 ""
              res out st' Hcall) as (links & Ht & Hl).
  exists res, out, st', links. split; [exact Hcall|]. split; [exact Ht|exact Hl].
Defined.

(** The header cannot be saved. *)
Definition env_save_fails : Env :=
  {| canonical := canonical Scenario.env;
     stores := stores Scenario.env;
     tablets := tablets Scenario.env;
     capture_consistent_rowsets := capture_consistent_rowsets Scenario.env;
     get_header := get_header Scenario.env;
     new_TabletMeta := true;
     append_new_TabletMeta := true;
     save := fun _ _ => OLAP_ERR_OTHER 2;
     rowset_make_snapshot := rowset_make_snapshot Scenario.env;
     create_from_tablet_meta := create_from_tablet_meta Scenario.env;
     load := load Scenario.env |}.

Lemma incremental_failure_rolls_back_witness :
  exists st',
    SnapshotManager._create_incremental_snapshot_files env_save_fails Scenario.now
      Scenario.tablet (Scenario.mk_request 7 None (Some [11])) (Some "") Scenario.st0
    = Some (OLAP_ERR_OTHER 2, Some "", st')
    /\ absent_tree Scenario.snapshot_id_path st'.
Proof.
  assert (Hcall : exists st',
    SnapshotManager._create_incremental_snapshot_files env_save_fails Scenario.now
      Scenario.tablet (Scenario.mk_request 7 None (Some [11])) (Some "") Scenario.st0
    = Some (OLAP_ERR_OTHER 2, Some "", st'))
    by (eexists; vm_compute; reflexivity).
  destruct Hcall as [st' Hcall]. exists st'. split; [exact Hcall|].
  refine (proj2 (proj1 (incremental_failure_rolls_back env_save_fails Scenario.tablet
                          (Scenario.mk_request 7 None (Some [11])) "20190101120000"
                          Scenario.st0 "" _ _ st' Hcall) _)).
  discriminate.
Defined.

Lemma clock_failure_changes_nothing_witness :
  SnapshotManager._create_snapshot_files Scenario.env (OLAP_ERR_OTHER 3, "")
    Scenario.tablet (Scenario.mk_request 7 None None) (Some "") Scenario.st0
  = Some (OLAP_ERR_OTHER 3, Some "", Scenario.st0).
Proof.
  refine (proj1 (clock_failure_changes_nothing Scenario.env (OLAP_ERR_OTHER 3) ""
                   Scenario.tablet (Scenario.mk_request 7 None None) "" Scenario.st0 _)).
  discriminate.
Defined.

Lemma make_snapshot_without_tablet_witness :
  SnapshotManager.make_snapshot Scenario.env Scenario.now
    (Scenario.mk_request 99 None None) (Some "") Scenario.st0
  = Some ((OLAP_ERR_TABLE_NOT_FOUND, Some "", Scenario.st0),
          Scenario.mk_request 99 None None).
Proof.
  refine (proj1 (make_snapshot_without_tablet Scenario.env Scenario.now
                   (Scenario.mk_request 99 None None) Scenario.st0) _ "").
  constructor; [left; discriminate|]. constructor; [left; discriminate|].
  constructor.
Defined.


Lemma release_snapshot_behaviour_witness :
  exists st',
    SnapshotManager.release_snapshot Scenario.env "/data/snapshot" Scenario.st0
    = Some (OLAP_SUCCESS, st')
    /\ fs st' !! "/data/snapshot" = None
    /\ fs st' !! "/data/snapshot_backup/x" = Some (DataFile 0).
Proof.
  assert (Hcall : exists st',
    SnapshotManager.release_snapshot Scenario.env "/data/snapshot" Scenario.st0
    = Some (OLAP_SUCCESS, st'))
    by (eexists; vm_compute; reflexivity).
  destruct Hcall as [st' Hcall]. exists st'. split; [exact Hcall|].
  destruct (release_snapshot_behaviour Scenario.env "/data/snapshot" Scenario.st0
              OLAP_SUCCESS st' eq_refl Hcall) as (_ & _ & Hok & _).
  destruct (Hok eq_refl) as [Habs Hrest]. split.
  - apply Habs. reflexivity.
  - rewrite Hrest by reflexivity. reflexivity.
Defined.

Lemma incremental_success_exactly_witness :
  exists out st',
    SnapshotManager._create_incremental_snapshot_files Scenario.env Scenario.now
      Scenario.tablet (Scenario.mk_request 7 None (Some [11])) (Some "") Scenario.st0
    = Some (OLAP_SUCCESS, out, st').
Proof.
  refine (proj2 (proj1 (incremental_success_exactly Scenario.env Scenario.tablet
                          (Scenario.mk_request 7 None (Some [11])) "20190101120000"
                          Scenario.st0 "")) _).
  split; [reflexivity|]. split; [reflexivity|].
  repeat constructor. exists Scenario.rs_11. split; reflexivity.
Defined.

Lemma incremental_link_failure_witness :
  exists st',
    SnapshotManager._create_incremental_snapshot_files Scenario.env_link_fails
      Scenario.now Scenario.tablet (Scenario.mk_request 7 None (Some [11; 99]))
      (Some "") Scenario.st0
    = Some (OLAP_ERR_OTHER 1, Some "", st')
    /\ absent_tree Scenario.snapshot_id_path st'
    /\ trace st' =
         [EvRdLock 7; EvLink 2 "/data/snapshot/20190101120000.0/7/42"; EvUnlock 7].
Proof.
  refine (incremental_link_failure Scenario.env_link_fails Scenario.tablet
            (Scenario.mk_request 7 None (Some [11; 99])) "20190101120000"
            Scenario.st0 "" [] 11 Scenario.rs_11 [99] (OLAP_ERR_OTHER 1)
            _ _ _ _ _ _ _); try reflexivity.
  - constructor.
  - discriminate.
Defined.

Lemma full_snapshot_contents_witness :
  exists st',
    SnapshotManager._create_snapshot_files Scenario.env Scenario.now Scenario.tablet
      (Scenario.mk_request 7 None None) (Some "") Scenario.st0
    = Some (OLAP_SUCCESS, Some Scenario.snapshot_id_path, st')
    /\ present Scenario.header_path st'.
Proof.
  assert (Hcall : exists st',
    SnapshotManager._create_snapshot_files Scenario.env Scenario.now Scenario.tablet
      (Scenario.mk_request 7 None None) (Some "") Scenario.st0
    = Some (OLAP_SUCCESS, Some Scenario.snapshot_id_path, st'))
    by (eexists; vm_compute; reflexivity).
  destruct Hcall as [st' Hcall]. exists st'. split; [exact Hcall|].
  destruct (full_snapshot_contents Scenario.env Scenario.tablet
              (Scenario.mk_request 7 None None) "20190101120000" Scenario.st0 ""
              _ st' Hcall) as (v & cover & m & _ & _ & _ & Hh & _).
  exact Hh.
Defined.

Lemma made_snapshot_is_released_witness :
  exists st' st'',
    SnapshotManager.make_snapshot Scenario.env Scenario.now
      (Scenario.mk_request 7 None None) (Some "") Scenario.st0
    = Some ((OLAP_SUCCESS, Some Scenario.snapshot_id_path, st'),
            Scenario.mk_request 7 None None)
    /\ SnapshotManager.release_snapshot Scenario.env Scenario.snapshot_id_path st'
       = Some (OLAP_SUCCESS, st'')
    /\ absent_tree Scenario.snapshot_id_path st''.
Proof.
  assert (Hcall : exists st',
    SnapshotManager.make_snapshot Scenario.env Scenario.now
      (Scenario.mk_request 7 None None) (Some "") Scenario.st0
    = Some ((OLAP_SUCCESS, Some Scenario.snapshot_id_path, st'),
            Scenario.mk_request 7 None None))
    by (eexists; vm_compute; reflexivity).
  destruct Hcall as [st' Hcall].
  destruct (made_snapshot_is_released Scenario.env (Scenario.mk_request 7 None None)
              "20190101120000" Scenario.st0 "" Scenario.tablet "/data"
              Scenario.snapshot_id_path st' (Scenario.mk_request 7 None None)
              eq_refl (or_introl eq_refl) eq_refl eq_refl Hcall)
    as (_ & st'' & Hrel & Habs & _).
  exists st', st''. split; [exact Hcall|]. split; [exact Hrel|exact Habs].
Defined.


Lemma make_snapshot_marks_request_witness :
  exists st' request',
    SnapshotManager.make_snapshot Scenario.env Scenario.now
      (Scenario.mk_request 7 None (Some [99])) (Some "") Scenario.st0
    = Some ((OLAP_ERR_VERSION_NOT_EXIST, Some "", st'), request')
    /\ TSnapshotRequest.allow_incremental_clone request' = true.
Proof.
  assert (Hcall : exists st' request',
    SnapshotManager.make_snapshot Scenario.env Scenario.now
      (Scenario.mk_request 7 None (Some [99])) (Some "") Scenario.st0
    = Some ((OLAP_ERR_VERSION_NOT_EXIST, Some "", st'), request'))
    by (eexists _, _; vm_compute; reflexivity).
  destruct Hcall as (st' & request' & Hcall). exists st', request'.
  split; [exact Hcall|].
  exact (proj1 (proj2 (make_snapshot_marks_request Scenario.env Scenario.now
                         (Scenario.mk_request 7 None (Some [99])) "" Scenario.st0
                         Scenario.tablet _ request' eq_refl Hcall))).
Defined.
